(** * bitcoinjs-lib-wrapper: a shallow embedding of src/src/index.js

    The wrapper calls bitcoinjs-lib 3.3.2 for scripts, addresses,
    transactions and HD derivation.  The parts of that library the wrapper's
    behaviour depends on (output templates, the address codec, ECPair,
    HDNode.derive / derivePath, TransactionBuilder and the two signature-hash
    algorithms) are written out below after the library's code.  The
    cryptographic primitives themselves (SHA-256, RIPEMD-160, HMAC-SHA512,
    Base58Check, Bech32, WIF, secp256k1 point multiplication and ECDSA) are
    left abstract: they are the fields of the record [Prims]. *)

From Stdlib Require Import ZArith List Bool Lia.
From Stdlib Require Import Strings.String Strings.Ascii Strings.Byte.
From Stdlib Require Import Numbers.DecimalString Numbers.DecimalN Numbers.DecimalZ.
Import ListNotations.

Open Scope string_scope.
Open Scope list_scope.
Open Scope Z_scope.

(** ** Results: a thrown JS [Error] carries its message *)

Inductive result (A : Type) : Type :=
| Ok (a : A)
| Err (msg : string).
Arguments Ok {A} a.
Arguments Err {A} msg.

Definition bind {A B} (m : result A) (k : A -> result B) : result B :=
  match m with
  | Ok a => k a
  | Err e => Err e
  end.

Notation "'let*' x ':=' m 'in' k" := (bind m (fun x => k))
  (at level 200, x name, m at level 100, k at level 200).

(** String concatenation, JS [+] on strings. *)
Infix "+++" := String.append (at level 60, right associativity).

Definition throw_unless {A} (b : bool) (msg : string) (k : result A) : result A :=
  if b then k else Err msg.

(** ** Buffers *)

Definition buffer := list byte.

Definition byte_to_Z (b : byte) : Z := Z.of_N (Byte.to_N b).

(** The low eight bits of [z], as [buf.writeUInt8] stores them. *)
Definition b8 (z : Z) : byte :=
  match Byte.of_N (Z.to_N (z mod 256)) with
  | Some b => b
  | None => x00
  end.

(** [n] bytes of [z], little endian ([writeUInt32LE], [writeUInt64LE]). *)
Fixpoint le_bytes (n : nat) (z : Z) : buffer :=
  match n with
  | O => []
  | S n' => b8 z :: le_bytes n' (Z.shiftr z 8)
  end.

(** [n] bytes of [z], big endian ([BigInteger.toBuffer(n)], [writeUInt32BE]). *)
Definition be_bytes (n : nat) (z : Z) : buffer := rev (le_bytes n z).

(** [BigInteger.fromBuffer]: big-endian unsigned value of a buffer. *)
Definition Z_of_be (b : buffer) : Z :=
  fold_left (fun acc x => acc * 256 + byte_to_Z x) b 0.

Definition buffer_eqb (a b : buffer) : bool :=
  (List.length a =? List.length b)%nat && forallb (fun p => Byte.eqb (fst p) (snd p)) (combine a b).

(** [buf.toString("hex")]: two lower-case hex digits per byte. *)
Definition hex_char (n : Z) : ascii :=
  if n <? 10 then ascii_of_nat (48 + Z.to_nat n) else ascii_of_nat (87 + Z.to_nat n).

Fixpoint hex_of_buffer (b : buffer) : string :=
  match b with
  | [] => EmptyString
  | x :: r =>
      String (hex_char (byte_to_Z x / 16)) (String (hex_char (byte_to_Z x mod 16)) (hex_of_buffer r))
  end.

Definition hex_value (c : ascii) : option Z :=
  let n := Z.of_nat (nat_of_ascii c) in
  if (48 <=? n) && (n <=? 57) then Some (n - 48)
  else if (97 <=? n) && (n <=? 102) then Some (n - 87)
  else if (65 <=? n) && (n <=? 70) then Some (n - 55)
  else None.

(** [Buffer.from(s, "hex")]: decodes pairs of hex digits and stops at the
    first pair that is not one (Node's behaviour; a trailing odd digit is
    dropped). *)
Fixpoint buffer_from_hex (s : string) : buffer :=
  match s with
  | String a (String c r) =>
      match hex_value a, hex_value c with
      | Some x, Some y => b8 (16 * x + y) :: buffer_from_hex r
      | _, _ => []
      end
  | _ => []
  end.

(** The bytes Node hashes when [createHash(..).update] receives a JS string:
    its UTF-8 encoding, which for the ASCII strings passed here (hex text) is
    one byte per character. *)
Definition utf8_of_ascii_string (s : string) : buffer := list_byte_of_string s.

(** ** Networks (bitcoinjs-lib networks.js) *)

Record Network := mkNetwork {
  net_name : string;
  bech32 : string;
  pubKeyHash : Z;
  scriptHash : Z;
  wif : Z
}.

Definition bitcoin_network : Network :=
  mkNetwork "bitcoin" "bc" 0 5 128.
Definition testnet_network : Network :=
  mkNetwork "testnet" "tb" 111 196 239.

(** A JS argument that is a string or [undefined]. *)
Definition js_string_arg := option string.

(** index.js, [getSelectedNetwork]: a [switch] with one ["testnet"] case. *)
Definition getSelectedNetwork (networkInput : js_string_arg) : Network :=
  match networkInput with
  | Some s => if String.eqb s "testnet" then testnet_network else bitcoin_network
  | None => bitcoin_network
  end.

(** ** The cryptographic primitives *)

Record Prims := mkPrims {
  sha256 : buffer -> buffer;
  ripemd160 : buffer -> buffer;
  hmac_sha512 : buffer -> buffer -> buffer;          (* key, data *)
  bs58check_encode : buffer -> string;
  bs58check_decode : string -> option buffer;        (* None: it throws *)
  bech32_encode : string -> Z -> buffer -> string;   (* prefix, version, program *)
  bech32_decode : string -> option (string * Z * buffer);
  wif_encode : Z -> Z -> bool -> string;             (* version, d, compressed *)
  wif_decode : string -> option (Z * buffer * bool); (* version, key, compressed *)
  ec_point : Z -> bool -> buffer;                    (* encoding of d*G *)
  ecdsa_der : Z -> buffer -> buffer                  (* RFC6979 signature, DER *)
}.

(** The order of secp256k1. *)
Definition secp256k1_n : Z :=
  0xFFFFFFFFFFFFFFFFFFFFFFFFFFFFFFFEBAAEDCE6AF48A03BBFD25E8CD0364141.

Definition UInt32 (z : Z) : bool := (0 <=? z) && (z <? 2 ^ 32).
Definition UInt31 (z : Z) : bool := (0 <=? z) && (z <? 2 ^ 31).
(** bitcoinjs-lib types.Satoshi: a UInt53 no larger than 21e14. *)
Definition Satoshi (z : Z) : bool := (0 <=? z) && (z <=? 2100000000000000).

Section Library.

Variable P : Prims.

(** bitcoinjs-lib crypto.js *)
Definition hash160 (b : buffer) : buffer := ripemd160 P (sha256 P b).
Definition hash256 (b : buffer) : buffer := sha256 P (sha256 P b).

(** ** Scripts (bitcoinjs-lib script.js, templates/ ) *)

Inductive chunk : Type :=
| Op (o : byte)
| Data (d : buffer).

(** [pushdata.encode]: the length prefix of a data push. *)
Definition pushdata_prefix (l : Z) : buffer :=
  if l <? 76 then [b8 l]
  else if l <=? 255 then [x4c; b8 l]
  else if l <=? 65535 then x4d :: le_bytes 2 l
  else x4e :: le_bytes 4 l.

(** [asMinimalOP]: BIP62.3 minimal pushes of the empty buffer and of
    one-byte buffers holding 1..16 or 0x81. *)
Definition asMinimalOP (d : buffer) : option byte :=
  match d with
  | [] => Some x00
  | [b] =>
      let v := byte_to_Z b in
      if (1 <=? v) && (v <=? 16) then Some (b8 (80 + v))
      else if v =? 129 then Some x4f
      else None
  | _ => None
  end.

(** [bscript.compile] of a chunk list. *)
Fixpoint compile (cs : list chunk) : buffer :=
  match cs with
  | [] => []
  | Op o :: r => o :: compile r
  | Data d :: r =>
      match asMinimalOP d with
      | Some o => o :: compile r
      | None => pushdata_prefix (Z.of_nat (List.length d)) ++ d ++ compile r
      end
  end.

Definition byte_at (b : buffer) (i : nat) : byte := nth i b x00.

(** [buffer.slice(i, j)] *)
Definition slice (i j : nat) (b : buffer) : buffer := firstn (j - i) (skipn i b).

Definition len_is (b : buffer) (n : nat) : bool := Nat.eqb (List.length b) n.

Definition Hash160bit (h : buffer) : bool := len_is h 20.

Definition type_error_hash160 : string := "Expected Buffer(Length: 20)".

(** templates/pubkeyhash/output.js *)
Definition pubKeyHash_output_encode (h : buffer) : result buffer :=
  throw_unless (Hash160bit h) type_error_hash160
    (Ok (compile [Op x76; Op xa9; Data h; Op x88; Op xac])).

Definition pubKeyHash_output_check (s : buffer) : bool :=
  len_is s 25 && Byte.eqb (byte_at s 0) x76 && Byte.eqb (byte_at s 1) xa9
  && Byte.eqb (byte_at s 2) x14 && Byte.eqb (byte_at s 23) x88
  && Byte.eqb (byte_at s 24) xac.

(** templates/scripthash/output.js *)
Definition scriptHash_output_encode (h : buffer) : result buffer :=
  throw_unless (Hash160bit h) type_error_hash160
    (Ok (compile [Op xa9; Data h; Op x87])).

Definition scriptHash_output_check (s : buffer) : bool :=
  len_is s 23 && Byte.eqb (byte_at s 0) xa9 && Byte.eqb (byte_at s 1) x14
  && Byte.eqb (byte_at s 22) x87.

(** templates/witnesspubkeyhash/output.js *)
Definition witnessPubKeyHash_output_encode (h : buffer) : result buffer :=
  throw_unless (Hash160bit h) type_error_hash160
    (Ok (compile [Op x00; Data h])).

Definition witnessPubKeyHash_output_check (s : buffer) : bool :=
  len_is s 22 && Byte.eqb (byte_at s 0) x00 && Byte.eqb (byte_at s 1) x14.

(** [witnessPubKeyHash.output.decode]: the program after OP_0 and the push. *)
Definition witnessPubKeyHash_output_decode (s : buffer) : result buffer :=
  throw_unless (witnessPubKeyHash_output_check s) "Expected witnessPubKeyHash output"
    (Ok (skipn 2 s)).

(** templates/witnessscripthash/output.js *)
Definition witnessScriptHash_output_encode (h : buffer) : result buffer :=
  throw_unless (len_is h 32) "Expected Buffer(Length: 32)"
    (Ok (compile [Op x00; Data h])).

Definition witnessScriptHash_output_check (s : buffer) : bool :=
  len_is s 34 && Byte.eqb (byte_at s 0) x00 && Byte.eqb (byte_at s 1) x20.

(** ** Addresses (bitcoinjs-lib address.js) *)

(** [toBase58Check(hash, version)]: a 21-byte payload, version first; every
    caller passes a 20-byte hash. *)
Definition toBase58Check (h : buffer) (version : Z) : string :=
  bs58check_encode P (b8 version :: h).

Definition toBech32 (data : buffer) (version : Z) (prefix : string) : string :=
  bech32_encode P prefix version data.

(** [fromBase58Check]: the version byte and the 20-byte hash. *)
Definition fromBase58Check (address : string) : result (Z * buffer) :=
  match bs58check_decode P address with
  | None => Err "Invalid checksum"
  | Some payload =>
      if (List.length payload <? 21)%nat then Err (address +++ " is too short")
      else if (21 <? List.length payload)%nat then Err (address +++ " is too long")
      else Ok (byte_to_Z (byte_at payload 0), skipn 1 payload)
  end.

(** [fromOutputScript(script, network)]; the error names the script by its
    hex text where the library prints its ASM. *)
Definition fromOutputScript (s : buffer) (network : Network) : result string :=
  if pubKeyHash_output_check s then Ok (toBase58Check (slice 3 23 s) (pubKeyHash network))
  else if scriptHash_output_check s then Ok (toBase58Check (slice 2 22 s) (scriptHash network))
  else if witnessPubKeyHash_output_check s then Ok (toBech32 (slice 2 22 s) 0 (bech32 network))
  else if witnessScriptHash_output_check s then Ok (toBech32 (slice 2 34 s) 0 (bech32 network))
  else Err (hex_of_buffer s +++ " has no matching Address").

(** [toOutputScript(address, network)]: Base58Check first; Bech32 only when
    the Base58Check decoding threw. *)
Definition toOutputScript (address : string) (network : Network) : result buffer :=
  let nomatch := address +++ " has no matching Script" in
  match fromBase58Check address with
  | Ok (version, h) =>
      if version =? pubKeyHash network then pubKeyHash_output_encode h
      else if version =? scriptHash network then scriptHash_output_encode h
      else Err nomatch
  | Err _ =>
      match bech32_decode P address with
      | Some (prefix, version, data) =>
          if negb (String.eqb prefix (bech32 network)) then Err (address +++ " has an invalid prefix")
          else if version =? 0 then
            if len_is data 20 then witnessPubKeyHash_output_encode data
            else if len_is data 32 then witnessScriptHash_output_encode data
            else Err nomatch
          else Err nomatch
      | None => Err nomatch
      end
  end.

(** ** Key pairs (bitcoinjs-lib ecpair.js) *)

Record ECPair := mkECPair {
  kp_d : Z;
  kp_compressed : bool;
  kp_network : Network
}.

(** [new ECPair(d, null, {compressed, network})] *)
Definition ECPair_new (d : Z) (compressed : bool) (network : Network) : result ECPair :=
  if d <=? 0 then Err "Private key must be greater than 0"
  else if secp256k1_n <=? d then Err "Private key must be less than the curve order"
  else Ok (mkECPair d compressed network).

(** [ECPair.fromWIF(string, network)] with a single network; [wif.decode]
    failures (bad checksum, length or compression flag) are one error here. *)
Definition ECPair_fromWIF (s : string) (network : Network) : result ECPair :=
  match wif_decode P s with
  | None => Err "Invalid WIF"
  | Some (version, privateKey, compressed) =>
      if negb (version =? wif network) then Err "Invalid network version"
      else ECPair_new (Z_of_be privateKey) compressed network
  end.

Definition getPublicKeyBuffer (kp : ECPair) : buffer :=
  ec_point P (kp_d kp) (kp_compressed kp).

Definition getAddress (kp : ECPair) : string :=
  toBase58Check (hash160 (getPublicKeyBuffer kp)) (pubKeyHash (kp_network kp)).

Definition toWIF (kp : ECPair) : string :=
  wif_encode P (wif (kp_network kp)) (kp_d kp) (kp_compressed kp).

(** The entropy source: the 32-byte values [randomBytes(32)] returns next. *)
Definition RngState := list buffer.

(** [ECPair.makeRandom({network})]: draws until 0 < d < n; compressed. *)
Fixpoint makeRandom (network : Network) (rng : RngState) : result ECPair * RngState :=
  match rng with
  | [] => (Err "entropy source exhausted", [])
  | buf :: rest =>
      let d := Z_of_be buf in
      if (d <=? 0) || (secp256k1_n <=? d) then makeRandom network rest
      else (Ok (mkECPair d true network), rest)
  end.

(** ** Transactions (bitcoinjs-lib transaction.js) *)

Record TxIn := mkTxIn {
  in_hash : buffer;
  in_index : Z;
  in_script : buffer;
  in_sequence : Z;
  in_witness : list buffer
}.

Record TxOut := mkTxOut {
  out_script : buffer;
  out_value : Z
}.

Record Transaction := mkTx {
  tx_version : Z;
  tx_locktime : Z;
  tx_ins : list TxIn;
  tx_outs : list TxOut
}.

(** [new Transaction()] *)
Definition Transaction_new : Transaction := mkTx 1 0 [] [].

Definition DEFAULT_SEQUENCE : Z := 4294967295.
Definition SIGHASH_ALL : Z := 1.
Definition SIGHASH_NONE : Z := 2.
Definition SIGHASH_SINGLE : Z := 3.
Definition SIGHASH_ANYONECANPAY : Z := 128.

(** varuint-bitcoin [encode] *)
Definition varint (n : Z) : buffer :=
  if n <? 253 then [b8 n]
  else if n <=? 65535 then xfd :: le_bytes 2 n
  else if n <=? 4294967295 then xfe :: le_bytes 4 n
  else xff :: le_bytes 8 n.

Definition varSlice (b : buffer) : buffer := varint (Z.of_nat (List.length b)) ++ b.

Definition le32 (z : Z) : buffer := le_bytes 4 z.
Definition le64 (z : Z) : buffer := le_bytes 8 z.

(** [Transaction.prototype.addInput(hash, index, sequence, scriptSig)] *)
Definition tx_addInput (tx : Transaction) (hash : buffer) (index : Z)
    (sequence : option Z) (scriptSig : option buffer) : result (Transaction * nat) :=
  throw_unless (len_is hash 32 && UInt32 index
                && match sequence with Some s => UInt32 s | None => true end)
    "Expected property 0 of type Buffer(Length: 32)"
    (let seq := match sequence with Some s => s | None => DEFAULT_SEQUENCE end in
     let i := mkTxIn hash index (match scriptSig with Some s => s | None => [] end) seq [] in
     Ok (mkTx (tx_version tx) (tx_locktime tx) (tx_ins tx ++ [i]) (tx_outs tx),
         List.length (tx_ins tx))).

(** [Transaction.prototype.addOutput(scriptPubKey, value)] *)
Definition tx_addOutput (tx : Transaction) (script : buffer) (value : Z) : result (Transaction * nat) :=
  throw_unless (Satoshi value) "Expected property 1 of type Satoshi"
    (Ok (mkTx (tx_version tx) (tx_locktime tx) (tx_ins tx) (tx_outs tx ++ [mkTxOut script value]),
         List.length (tx_outs tx))).

Definition hasWitnesses (tx : Transaction) : bool :=
  existsb (fun i => negb (Nat.eqb (List.length (in_witness i)) 0)) (tx_ins tx).

Definition ser_input (i : TxIn) : buffer :=
  in_hash i ++ le32 (in_index i) ++ varSlice (in_script i) ++ le32 (in_sequence i).

Definition ser_output (o : TxOut) : buffer := le64 (out_value o) ++ varSlice (out_script o).

Definition ser_vector (v : list buffer) : buffer :=
  varint (Z.of_nat (List.length v)) ++ List.concat (map varSlice v).

(** [Transaction.prototype.__toBuffer(buffer, offset, allowWitness)] *)
Definition tx_toBuffer (tx : Transaction) (allowWitness : bool) : buffer :=
  let w := allowWitness && hasWitnesses tx in
  le32 (tx_version tx)
  ++ (if w then [x00; x01] else [])
  ++ varint (Z.of_nat (List.length (tx_ins tx))) ++ List.concat (map ser_input (tx_ins tx))
  ++ varint (Z.of_nat (List.length (tx_outs tx))) ++ List.concat (map ser_output (tx_outs tx))
  ++ (if w then List.concat (map (fun i => ser_vector (in_witness i)) (tx_ins tx)) else [])
  ++ le32 (tx_locktime tx).

(** [Transaction.prototype.toHex] *)
Definition toHex (tx : Transaction) : string := hex_of_buffer (tx_toBuffer tx true).

Definition byteLength (tx : Transaction) (allowWitness : bool) : Z :=
  Z.of_nat (List.length (tx_toBuffer tx allowWitness)).

(** [Transaction.prototype.virtualSize]: ceil(weight / 4). *)
Definition virtualSize (tx : Transaction) : Z :=
  let weight := byteLength tx false * 3 + byteLength tx true in
  (weight + 3) / 4.

Definition map_nth {A} (f : A -> A) (n : nat) (l : list A) : list A :=
  firstn n l ++ match skipn n l with [] => [] | x :: r => f x :: r end.

Definition set_in_script (s : buffer) (i : TxIn) : TxIn :=
  mkTxIn (in_hash i) (in_index i) s (in_sequence i) (in_witness i).
Definition set_in_witness (w : list buffer) (i : TxIn) : TxIn :=
  mkTxIn (in_hash i) (in_index i) (in_script i) (in_sequence i) w.

(** [Transaction.prototype.hashForSignature(inIndex, prevOutScript, hashType)]
    on its SIGHASH_ALL path, the one [TransactionBuilder.sign] takes when it
    is called without a hash type.  The script is a pay-to-pubkey-hash
    script, which holds no OP_CODESEPARATOR, so the library's decompile /
    filter / compile step returns it unchanged.  Out of range it returns
    the constant [ONE], 31 zero bytes and then 01. *)
Definition hashForSignature (tx : Transaction) (inIndex : nat) (prevOutScript : buffer)
    (hashType : Z) : buffer :=
  if (List.length (tx_ins tx) <=? inIndex)%nat then (repeat x00 31 ++ [x01])%list
  else
    let ins := map (set_in_script []) (tx_ins tx) in
    let ins := map_nth (set_in_script prevOutScript) inIndex ins in
    let txTmp := mkTx (tx_version tx) (tx_locktime tx) ins (tx_outs tx) in
    hash256 (tx_toBuffer txTmp false ++ le32 hashType).

Definition ZERO32 : buffer := repeat x00 32.

(** [Transaction.prototype.hashForWitnessV0(inIndex, prevOutScript, value, hashType)] (BIP143) *)
Definition hashForWitnessV0 (tx : Transaction) (inIndex : nat) (prevOutScript : buffer)
    (value : Z) (hashType : Z) : result buffer :=
  throw_unless (UInt32 (Z.of_nat inIndex) && Satoshi value && UInt32 hashType)
    "Expected Satoshi"
    (let anyone := negb (Z.land hashType SIGHASH_ANYONECANPAY =? 0) in
     let base := Z.land hashType 31 in
     let hashPrevouts :=
       if anyone then ZERO32
       else hash256 (List.concat (map (fun i => in_hash i ++ le32 (in_index i)) (tx_ins tx))) in
     let hashSequence :=
       if anyone || (base =? SIGHASH_SINGLE) || (base =? SIGHASH_NONE) then ZERO32
       else hash256 (List.concat (map (fun i => le32 (in_sequence i)) (tx_ins tx))) in
     let hashOutputs :=
       if negb (base =? SIGHASH_SINGLE) && negb (base =? SIGHASH_NONE) then
         hash256 (List.concat (map ser_output (tx_outs tx)))
       else if (base =? SIGHASH_SINGLE) && (inIndex <? List.length (tx_outs tx))%nat then
         match nth_error (tx_outs tx) inIndex with
         | Some o => hash256 (ser_output o)
         | None => ZERO32
         end
       else ZERO32 in
     match nth_error (tx_ins tx) inIndex with
     | None => Err "Cannot read property 'hash' of undefined"
     | Some input =>
         Ok (hash256 (le32 (tx_version tx) ++ hashPrevouts ++ hashSequence
                      ++ in_hash input ++ le32 (in_index input)
                      ++ varSlice prevOutScript ++ le64 value ++ le32 (in_sequence input)
                      ++ hashOutputs ++ le32 (tx_locktime tx) ++ le32 hashType))
     end).

(** ** TransactionBuilder (bitcoinjs-lib transaction_builder.js) *)

Definition P2PKH : string := "pubkeyhash".
Definition P2SH : string := "scripthash".
Definition P2WPKH : string := "witnesspubkeyhash".
Definition P2WSH : string := "witnessscripthash".
Definition NONSTANDARD : string := "nonstandard".

(** [btemplates.classifyOutput], for the output kinds with templates above. *)
Definition classifyOutput (s : buffer) : string :=
  if witnessPubKeyHash_output_check s then P2WPKH
  else if witnessScriptHash_output_check s then P2WSH
  else if pubKeyHash_output_check s then P2PKH
  else if scriptHash_output_check s then P2SH
  else NONSTANDARD.

(** The per-input signing state [this.inputs[vin]]; [None] is [undefined]. *)
Record BInput := mkBInput {
  bi_prevOutScript : option buffer;
  bi_prevOutType : option string;
  bi_value : option Z;
  bi_pubKeys : option (list buffer);
  bi_signatures : option (list (option buffer));
  bi_signScript : option buffer;
  bi_signType : option string;
  bi_witness : option bool
}.

Definition empty_input : BInput := mkBInput None None None None None None None None.

Record TxBuilder := mkTB {
  tb_network : Network;
  tb_maximumFeeRate : Z;
  tb_inputs : list BInput;
  tb_prevTxMap : list string;
  tb_tx : Transaction
}.

(** [new TransactionBuilder(network)] *)
Definition TB_new (network : Network) : TxBuilder := mkTB network 2500 [] [] Transaction_new.

(** [expandOutput(script, scriptType, ourPubKey)]: the public keys able to
    sign the output ([None]: the field is absent) and its type. *)
Definition expandOutput (script : buffer) (scriptType : option string) (ourPubKey : option buffer)
    : option (list buffer) * string :=
  let st := match scriptType with Some t => t | None => classifyOutput script end in
  if String.eqb st P2PKH then
    match ourPubKey with
    | None => (Some [], st)
    | Some pk => if buffer_eqb (slice 3 23 script) (hash160 pk) then (Some [pk], st) else (Some [], st)
    end
  else if String.eqb st P2WPKH then
    match ourPubKey with
    | None => (Some [], st)
    | Some pk => if buffer_eqb (slice 2 22 script) (hash160 pk) then (Some [pk], st) else (Some [], st)
    end
  else (None, st).

Definition signatureHashType (sig : buffer) : Z := byte_to_Z (last sig x00).

Definition __canModifyInputs (tb : TxBuilder) : bool :=
  forallb (fun i =>
    match bi_signatures i with
    | None => true
    | Some sigs => forallb (fun s => match s with
                                     | None => true
                                     | Some sg => negb (Z.land (signatureHashType sg) SIGHASH_ANYONECANPAY =? 0)
                                     end) sigs
    end) (tb_inputs tb).

Definition __canModifyOutputs (tb : TxBuilder) : bool :=
  let nInputs := List.length (tx_ins (tb_tx tb)) in
  let nOutputs := List.length (tx_outs (tb_tx tb)) in
  forallb (fun i =>
    match bi_signatures i with
    | None => true
    | Some sigs => forallb (fun s => match s with
                                     | None => true
                                     | Some sg =>
                                         let m := Z.land (signatureHashType sg) 31 in
                                         if m =? SIGHASH_NONE then true
                                         else if m =? SIGHASH_SINGLE then (nInputs <=? nOutputs)%nat
                                         else false
                                     end) sigs
    end) (tb_inputs tb).

(** JS [String(n)] of an integer. *)
Definition Z_to_string (z : Z) : string := NilZero.string_of_int (Z.to_int z).

(** The Number nearest to a positive integer [x]: [x] rounded to 53
    significant bits, ties to even. *)
Definition double_round (x : Z) : Z :=
  let b := Z.log2 x in
  if b <? 53 then x
  else
    let sh := b - 52 in
    let q := Z.shiftr x sh in
    let r := x - Z.shiftl q sh in
    let half := 2 ^ (sh - 1) in
    let q' := if (half <? r) || ((r =? half) && Z.odd q) then q + 1 else q in
    Z.shiftl q' sh.

(** Step 5 of Number::toString for a positive integer Number [x] of [d]
    decimal digits: the value [s * 10^(d-k)] whose Number value is [x], with
    [k] as small as possible; of the two multiples of [10^(d-k)] around [x],
    the closer one (the even [s] on a tie).  Rounding is monotone, so no other
    multiple can be the only one that rounds to [x]. *)
Fixpoint shortest_search (x d k : Z) (fuel : nat) : Z :=
  match fuel with
  | O => x
  | S f =>
      if d <=? k then x
      else
        let p := 10 ^ (d - k) in
        let lo := x / p * p in
        let hi := lo + p in
        let lo_ok := double_round lo =? x in
        let hi_ok := double_round hi =? x in
        if lo_ok && hi_ok then
          (if x - lo <? hi - x then lo
           else if hi - x <? x - lo then hi
           else if Z.even (lo / p) then lo else hi)
        else if lo_ok then lo
        else if hi_ok then hi
        else shortest_search x d (k + 1) f
  end.

(** The digits of a decimal string without its trailing zeros. *)
Fixpoint rstrip0 (s : string) : string :=
  match s with
  | EmptyString => EmptyString
  | String a r =>
      let r' := rstrip0 r in
      if String.eqb r' "" && Ascii.eqb a "0"%char then EmptyString else String a r'
  end.

(** [`${n}`] for an integer Number [n] (Number::toString): a safe integer
    prints its decimal digits; above 2^53 the shortest digits that read back
    as [n], padded with zeros up to 21 digits, and from 10^21 on the exponent
    form [d.ddde+N]. *)
Definition js_number_to_string (z : Z) : string :=
  if Z.abs z <? 2 ^ 53 then Z_to_string z
  else
    let sign := if z <? 0 then "-" else "" in
    let x := Z.abs z in
    let d := String.length (Z_to_string x) in
    let digits := Z_to_string (shortest_search x (Z.of_nat d) 1 d) in
    let n := String.length digits in
    if (n <=? 21)%nat then sign +++ digits
    else
      let e := "e+" +++ Z_to_string (Z.of_nat n - 1) in
      match rstrip0 digits with
      | String a EmptyString => sign +++ String a e
      | String a r => sign +++ String a (String "." r) +++ e
      | EmptyString => sign +++ "0"
      end.

Definition isCoinbaseHash (h : buffer) : bool := forallb (fun b => Byte.eqb b x00) h.

(** [TransactionBuilder.prototype.addInput(txHash, vout, sequence, prevOutScript)]
    with [txHash] a hex string, through [__addInputUnsafe]. *)
(** The input object [__addInputUnsafe] stores: with a [prevOutScript], its
    expansion without a key. *)
Definition addInput_input (prevOutScript : option buffer) : BInput :=
  match prevOutScript with
  | None => empty_input
  | Some s =>
      let '(pks, st) := expandOutput s None None in
      mkBInput (Some s) (Some st) None pks
        (option_map (map (fun _ => None)) pks) None None None
  end.

Definition TB_addInput (tb : TxBuilder) (txId : string) (vout : Z) (sequence : option Z)
    (prevOutScript : option buffer) : result (TxBuilder * nat) :=
  throw_unless (__canModifyInputs tb) "No, this would invalidate signatures"
  (let txHash := rev (buffer_from_hex txId) in
   throw_unless (len_is txHash 32) "Expected Buffer(Length: 32)"
   (throw_unless (negb (isCoinbaseHash txHash)) "coinbase inputs not supported"
   (let prevTxOut := hex_of_buffer txHash +++ ":" +++ Z_to_string vout in
    throw_unless (negb (existsb (String.eqb prevTxOut) (tb_prevTxMap tb)))
      ("Duplicate TxOut: " +++ prevTxOut)
    (let input := addInput_input prevOutScript in
     let* r := tx_addInput (tb_tx tb) txHash vout sequence None in
     let '(tx', vin) := r in
     Ok (mkTB (tb_network tb) (tb_maximumFeeRate tb) (tb_inputs tb ++ [input])
              (prevTxOut :: tb_prevTxMap tb) tx', vin))))).

(** [TransactionBuilder.prototype.addOutput(address, value)] with an address string. *)
Definition TB_addOutput (tb : TxBuilder) (address : string) (value : Z) : result (TxBuilder * nat) :=
  throw_unless (__canModifyOutputs tb) "No, this would invalidate signatures"
  (let* script := toOutputScript address (tb_network tb) in
   let* r := tx_addOutput (tb_tx tb) script value in
   let '(tx', i) := r in
   Ok (mkTB (tb_network tb) (tb_maximumFeeRate tb) (tb_inputs tb) (tb_prevTxMap tb) tx', i)).

(** [canSign(input)] *)
Definition canSign (i : BInput) : bool :=
  match bi_prevOutScript i, bi_signScript i, bi_pubKeys i, bi_signatures i with
  | Some _, Some _, Some pks, Some sigs =>
      (List.length sigs =? List.length pks)%nat && (0 <? List.length pks)%nat
      && match bi_witness i with
         | Some false => true
         | Some true => match bi_value i with Some _ => true | None => false end
         | None => false
         end
  | _, _, _, _ => false
  end.

(** [prepareInput(input, kpPubKey, redeemScript, witnessValue, witnessScript)]
    with no redeem script and no witness script, as the wrapper calls it. *)
Definition prepareInput (i : BInput) (kpPubKey : buffer) : result BInput :=
  let finish prevOutType prevOutScript pks st witness :=
    let* signScript :=
      if String.eqb st P2WPKH then
        let* prog := witnessPubKeyHash_output_decode prevOutScript in
        pubKeyHash_output_encode prog
      else Ok prevOutScript in
    Ok (mkBInput (Some prevOutScript) (Some prevOutType) (bi_value i) (Some pks)
          (Some (map (fun _ => None) pks)) (Some signScript) (Some st) (Some witness)) in
  match bi_prevOutType i with
  | Some t =>
      if String.eqb t P2SH || String.eqb t P2WSH then
        Err ("PrevOutScript is " +++ t +++ ", requires redeemScript")
      else
        let s := match bi_prevOutScript i with Some s => s | None => [] end in
        match expandOutput s (Some t) (Some kpPubKey) with
        | (None, _) => Ok i
        | (Some pks, st) => finish t s pks st (String.eqb t P2WPKH)
        end
  | None =>
      let* s := pubKeyHash_output_encode (hash160 kpPubKey) in
      match expandOutput s (Some P2PKH) (Some kpPubKey) with
      | (None, _) => Ok i
      | (Some pks, st) => finish P2PKH s pks st false
      end
  end.

(** [ECSignature.prototype.toScriptSignature(hashType)] *)
Definition toScriptSignature (der : buffer) (hashType : Z) : result buffer :=
  let m := Z.land hashType (Z.lnot 128) in
  throw_unless ((0 <? m) && (m <? 4)) ("Invalid hashType " +++ Z_to_string hashType)
    (Ok (der ++ [b8 hashType])).

(** The signing loop of [sign]: the first public key equal to ours gets the
    signature ([canSign] has made both lists the same length). *)
Fixpoint sign_first (pks : list buffer) (sigs : list (option buffer)) (kpPubKey : buffer)
    (signType : option string) (mk : unit -> result buffer) : result (option (list (option buffer))) :=
  match pks, sigs with
  | pk :: pks', s :: sigs' =>
      if buffer_eqb kpPubKey pk then
        match s with
        | Some _ => Err "Signature already exists"
        | None =>
            if negb (len_is kpPubKey 33)
               && match signType with Some t => String.eqb t P2WPKH | None => false end
            then Err "BIP143 rejects uncompressed public keys in P2WPKH or P2WSH"
            else let* sg := mk tt in Ok (Some (Some sg :: sigs'))
        end
      else
        let* r := sign_first pks' sigs' kpPubKey signType mk in
        Ok (option_map (cons s) r)
  | _, _ => Ok None
  end.

Definition set_signatures (sigs : list (option buffer)) (i : BInput) : BInput :=
  mkBInput (bi_prevOutScript i) (bi_prevOutType i) (bi_value i) (bi_pubKeys i) (Some sigs)
    (bi_signScript i) (bi_signType i) (bi_witness i).

Definition set_value (v : Z) (i : BInput) : BInput :=
  mkBInput (bi_prevOutScript i) (bi_prevOutType i) (Some v) (bi_pubKeys i) (bi_signatures i)
    (bi_signScript i) (bi_signType i) (bi_witness i).

Definition replace_nth {A} (n : nat) (x : A) (l : list A) : list A := map_nth (fun _ => x) n l.

(** [TransactionBuilder.prototype.sign(vin, keyPair, redeemScript, hashType, witnessValue)]
    with [redeemScript] and [hashType] null: the hash type is SIGHASH_ALL. *)
Definition TB_sign (tb : TxBuilder) (vin : nat) (kp : ECPair) (witnessValue : option Z)
    : result TxBuilder :=
  throw_unless (String.eqb (net_name (kp_network kp)) (net_name (tb_network tb))) "Inconsistent network"
  (match nth_error (tb_inputs tb) vin with
   | None => Err ("No input at index: " +++ Z_to_string (Z.of_nat vin))
   | Some input0 =>
     let hashType := SIGHASH_ALL in
     let kpPubKey := getPublicKeyBuffer kp in
     let* input :=
       if canSign input0 then Ok input0
       else
         let* input1 :=
           match witnessValue with
           | None => Ok input0
           | Some w =>
               let* i :=
                 match bi_value input0 with
                 | Some v => if negb (v =? w) then Err "Input didn't match witnessValue" else Ok input0
                 | None => Ok input0
                 end in
               throw_unless (Satoshi w) "Expected Satoshi" (Ok (set_value w i))
           end in
         let* input2 := if canSign input1 then Ok input1 else prepareInput input1 kpPubKey in
         throw_unless (canSign input2)
           (match bi_prevOutType input2 with Some t => t | None => "undefined" end +++ " not supported")
           (Ok input2) in
     let signScript := match bi_signScript input with Some s => s | None => [] end in
     let* signatureHash :=
       if match bi_witness input with Some b => b | None => false end then
         match bi_value input with
         | Some v => hashForWitnessV0 (tb_tx tb) vin signScript v hashType
         | None => Err "Expected Satoshi"
         end
       else Ok (hashForSignature (tb_tx tb) vin signScript hashType) in
     let pks := match bi_pubKeys input with Some l => l | None => [] end in
     let sigs := match bi_signatures input with Some l => l | None => [] end in
     let* signed := sign_first pks sigs kpPubKey (bi_signType input)
                      (fun _ => toScriptSignature (ecdsa_der P (kp_d kp) signatureHash) hashType) in
     match signed with
     | None => Err "Key pair cannot sign for this input"
     | Some sigs' =>
         Ok (mkTB (tb_network tb) (tb_maximumFeeRate tb)
                  (replace_nth vin (set_signatures sigs' input) (tb_inputs tb))
                  (tb_prevTxMap tb) (tb_tx tb))
     end
   end).

(** [supportedType]; pay-to-pubkey and multisig outputs are not classified
    by this model (the wrapper never spends them), so pay-to-pubkey-hash is
    the supported type that remains. *)
Definition supportedType (t : string) : bool := String.eqb t P2PKH.

(** [buildStack(P2PKH, signatures, pubKeys, false)] *)
Definition buildStack (t : string) (sigs : list (option buffer)) (pks : list buffer) : result (list buffer) :=
  if String.eqb t P2PKH then
    match sigs, pks with
    | [Some sg], [pk] => Ok [sg; pk]
    | _, _ => Err "Not enough signatures provided"
    end
  else Err "Not yet supported".

(** [buildInput(input, false)]: type, scriptSig and witness stack. *)
Definition buildInput (i : BInput) (t : string) : result (string * buffer * list buffer) :=
  let sigs := match bi_signatures i with Some l => l | None => [] end in
  let pks := match bi_pubKeys i with Some l => l | None => [] end in
  let* sig := if supportedType t then buildStack t sigs pks else Ok [] in
  let* witness := if String.eqb t P2WPKH then buildStack P2PKH sigs pks else Ok [] in
  Ok (t, compile (map Data sig), witness).

Fixpoint build_inputs (inputs : list BInput) (vin : nat) (tx : Transaction) : result Transaction :=
  match inputs with
  | [] => Ok tx
  | i :: rest =>
      match bi_prevOutType i with
      | None => Err "Transaction is not complete"
      | Some t =>
          let* r := buildInput i t in
          let '(ty, script, witness) := r in
          throw_unless (supportedType ty || String.eqb ty P2WPKH) (ty +++ " not supported")
            (let ins := map_nth (fun x => set_in_witness witness (set_in_script script x)) vin (tx_ins tx) in
             build_inputs rest (S vin) (mkTx (tx_version tx) (tx_locktime tx) ins (tx_outs tx)))
      end
  end.

(** [__overMaximumFees(bytes)]: [x.value >>> 0] reads an absent value as 0. *)
Definition __overMaximumFees (tb : TxBuilder) (bytes : Z) : bool :=
  let incoming := fold_left (fun a i => a + match bi_value i with
                                             | Some v => v mod 2 ^ 32
                                             | None => 0 end) (tb_inputs tb) 0 in
  let outgoing := fold_left (fun a o => a + out_value o) (tx_outs (tb_tx tb)) 0 in
  tb_maximumFeeRate tb * bytes <? incoming - outgoing.

(** [TransactionBuilder.prototype.build()], i.e. [__build(false)]. *)
Definition TB_build (tb : TxBuilder) : result Transaction :=
  throw_unless (negb (Nat.eqb (List.length (tx_ins (tb_tx tb))) 0)) "Transaction has no inputs"
  (throw_unless (negb (Nat.eqb (List.length (tx_outs (tb_tx tb))) 0)) "Transaction has no outputs"
  (let* tx := build_inputs (tb_inputs tb) 0 (tb_tx tb) in
   throw_unless (negb (__overMaximumFees tb (virtualSize tx))) "Transaction has absurd fees"
     (Ok tx))).

(** ** HD derivation (bitcoinjs-lib hdnode.js) *)

Record HDNode := mkHD {
  hd_keyPair : ECPair;
  hd_chainCode : buffer;
  hd_depth : Z;
  hd_index : Z;
  hd_parentFingerprint : Z
}.

Definition HIGHEST_BIT : Z := 2 ^ 31.

(** [HDNode.fromSeedBuffer(seed, network)] *)
Definition HDNode_fromSeedBuffer (seed : buffer) (network : Network) : result HDNode :=
  throw_unless (16 <=? List.length seed)%nat "Seed should be at least 128 bits"
  (throw_unless (List.length seed <=? 64)%nat "Seed should be at most 512 bits"
  (let I := hmac_sha512 P (list_byte_of_string "Bitcoin seed") seed in
   let* kp := ECPair_new (Z_of_be (firstn 32 I)) true network in
   Ok (mkHD kp (skipn 32 I) 0 0 0))).

(** [HDNode.fromSeedHex(hex, network)] *)
Definition HDNode_fromSeedHex (hex : string) (network : Network) : result HDNode :=
  HDNode_fromSeedBuffer (buffer_from_hex hex) network.

(** One call of [derive(index)]: it either returns, or restarts at
    [index + 1] when the HMAC output does not give a valid key. *)
Inductive step_outcome (A : Type) : Type :=
| Stop (r : result A)
| Retry (next : Z).
Arguments Stop {A} r.
Arguments Retry {A} next.

(** Runs [step] at most [p] times, following [Retry]. *)
Fixpoint retry_loop {A} (p : positive) (step : Z -> step_outcome A) (i : Z) : step_outcome A :=
  match p with
  | xH => step i
  | xO q =>
      match retry_loop q step i with
      | Retry j => retry_loop q step j
      | r => r
      end
  | xI q =>
      match step i with
      | Retry j =>
          match retry_loop q step j with
          | Retry k => retry_loop q step k
          | r => r
          end
      | r => r
      end
  end.

(** [getFingerprint().readUInt32BE(0)] *)
Definition fingerprint (n : HDNode) : Z :=
  Z_of_be (firstn 4 (hash160 (getPublicKeyBuffer (hd_keyPair n)))).

Definition isHardened (index : Z) : bool := HIGHEST_BIT <=? index.

(** The body of [HDNode.prototype.derive(index)] for a node holding its
    private key. *)
Definition derive_step (n : HDNode) (index : Z) : step_outcome HDNode :=
  if negb (UInt32 index) then Stop (Err "Expected UInt32")
  else
    let kp := hd_keyPair n in
    let data :=
      if isHardened index then x00 :: be_bytes 32 (kp_d kp) ++ be_bytes 4 index
      else getPublicKeyBuffer kp ++ be_bytes 4 index in
    let I := hmac_sha512 P (hd_chainCode n) data in
    let pIL := Z_of_be (firstn 32 I) in
    if secp256k1_n <=? pIL then Retry (index + 1)
    else
      let ki := (pIL + kp_d kp) mod secp256k1_n in
      if ki =? 0 then Retry (index + 1)
      else Stop (let* ckp := ECPair_new ki true (kp_network kp) in
                 Ok (mkHD ckp (skipn 32 I) (hd_depth n + 1) index (fingerprint n))).

(** [HDNode.prototype.derive(index)]: the [UInt32] check stops the
    restarts before 2^32 + 1 of them. *)
Definition derive (n : HDNode) (index : Z) : result HDNode :=
  match retry_loop (Z.to_pos (2 ^ 32 + 1)) (derive_step n) index with
  | Stop r => r
  | Retry _ => Err "Expected UInt32"
  end.

(** [HDNode.prototype.deriveHardened(index)] *)
Definition deriveHardened (n : HDNode) (index : Z) : result HDNode :=
  throw_unless (UInt31 index) "Expected UInt31" (derive n (index + HIGHEST_BIT)).

(** *** [HDNode.prototype.derivePath(path)] *)

(** [s.split(c)] *)
Fixpoint split_at (c : ascii) (s : string) : list string :=
  match s with
  | EmptyString => [EmptyString]
  | String a r =>
      if Ascii.eqb a c then EmptyString :: split_at c r
      else match split_at c r with
           | x :: xs => String a x :: xs
           | [] => [String a EmptyString]
           end
  end.

Definition is_digit (c : ascii) : bool :=
  let n := nat_of_ascii c in (48 <=? n)%nat && (n <=? 57)%nat.

Fixpoint all_digits (s : string) : bool :=
  match s with
  | EmptyString => true
  | String a r => is_digit a && all_digits r
  end.

Fixpoint string_last (s : string) : option ascii :=
  match s with
  | EmptyString => None
  | String a EmptyString => Some a
  | String _ r => string_last r
  end.

(** [s.slice(0, -1)] *)
Fixpoint drop_last (s : string) : string :=
  match s with
  | EmptyString => EmptyString
  | String _ EmptyString => EmptyString
  | String a r => String a (drop_last r)
  end.

Definition quote : ascii := "'"%char.

(** A segment of the regular expression: [\d+'?]. *)
Definition segment_ok (seg : string) : bool :=
  (negb (String.eqb seg "") && all_digits seg)
  || (match string_last seg with Some c => Ascii.eqb c quote | None => false end
      && negb (String.eqb (drop_last seg) "") && all_digits (drop_last seg)).

(** [types.BIP32Path]: the path matches [^(m\/)?(\d+'?\/)*\d+'?$]. *)
Definition BIP32Path (path : string) : bool :=
  let body s := forallb segment_ok (split_at "/"%char s) in
  (String.prefix "m/" path && body (substring 2 (String.length path - 2) path)) || body path.

Fixpoint take_digits (s : string) : string :=
  match s with
  | String a r => if is_digit a then String a (take_digits r) else EmptyString
  | EmptyString => EmptyString
  end.

(** [parseInt(s, 10)] on the segments [derivePath] passes it, which start
    with their digits; [None] is NaN. *)
Definition parseInt10 (s : string) : option Z :=
  match NilZero.uint_of_string (take_digits s) with
  | Some u => Some (Z.of_N (N.of_uint u))
  | None => None
  end.

(** A path segment as [derivePath]'s reducer reads it: a trailing quote
    selects [deriveHardened], anything else [derive]. *)
Inductive PathStep : Type :=
| Plain (i : option Z)
| Hard (i : option Z).

Definition parse_segment (seg : string) : PathStep :=
  match string_last seg with
  | Some c => if Ascii.eqb c quote then Hard (parseInt10 (drop_last seg)) else Plain (parseInt10 seg)
  | None => Plain (parseInt10 seg)
  end.

(** The check and split of [derivePath]: whether the path starts at [m], and
    its steps. *)
Definition parse_path (path : string) : result (bool * list PathStep) :=
  throw_unless (BIP32Path path) "Expected BIP32Path"
    (match split_at "/"%char path with
     | m :: rest => if String.eqb m "m" then Ok (true, map parse_segment rest)
                    else Ok (false, map parse_segment (m :: rest))
     | [] => Ok (false, [])
     end).

Definition apply_step (n : HDNode) (st : PathStep) : result HDNode :=
  match st with
  | Plain (Some i) => derive n i
  | Plain None => Err "Expected UInt32"
  | Hard (Some i) => deriveHardened n i
  | Hard None => Err "Expected UInt31"
  end.

Definition derivePath (n : HDNode) (path : string) : result HDNode :=
  let* r := parse_path path in
  let '(fromMaster, steps) := r in
  throw_unless (negb fromMaster || (hd_parentFingerprint n =? 0)) "Not a master node"
    (fold_left (fun acc st => let* m := acc in apply_step m st) steps (Ok n)).

(** ** The wrapper, src/src/index.js *)

(** Its effects: a thrown error, and the entropy [ECPair.makeRandom] reads. *)
Definition ST (A : Type) : Type := RngState -> result A * RngState.

Definition st_ret {A} (a : A) : ST A := fun s => (Ok a, s).
Definition st_lift {A} (r : result A) : ST A := fun s => (r, s).
Definition st_bind {A B} (m : ST A) (k : A -> ST B) : ST B :=
  fun s => match m s with
           | (Ok a, s') => k a s'
           | (Err e, s') => (Err e, s')
           end.

Notation "x <- m ;; k" := (st_bind m (fun x => k))
  (at level 61, m at next level, right associativity).

(** [bitcoin.script.witnessPubKeyHash.output.encode(bitcoin.crypto.hash160(pubKey))] *)
Definition witness_program_of (kp : ECPair) : result buffer :=
  witnessPubKeyHash_output_encode (hash160 (getPublicKeyBuffer kp)).

(** The "p2sh witness" lines repeated in
    [createPayToScriptHash_PayToWitnessPublicKeyHash] (l. 114-122),
    [createWallets] (l. 164-172), [createWalletsFromWIF] (l. 203-211) and
    [createHierarchicalDeterministic] (l. 273-282): the address and
    [witnessPubKeyHashHex].  [hash160] receives the hex STRING. *)
Definition p2shp2wpkh_of_witness_program (witnessPubKeyHash : buffer) (network : Network)
    : result (string * string) :=
  let witnessPubKeyHashHex := hex_of_buffer witnessPubKeyHash in
  let witnessPubKeyHashHexHash := hash160 (utf8_of_ascii_string witnessPubKeyHashHex) in
  let* scriptHash := scriptHash_output_encode witnessPubKeyHashHexHash in
  let* p2shp2wpkh := fromOutputScript scriptHash network in
  Ok (p2shp2wpkh, witnessPubKeyHashHex).

Record SegwitWallet := mkSegwitWallet {
  sw_p2shp2wpkh : string;
  sw_witnessPubKeyHashHex : string;
  sw_wif : string
}.

(** [createPayToScriptHash_PayToWitnessPublicKeyHash(networkInput)] *)
Definition createPayToScriptHash_PayToWitnessPublicKeyHash (networkInput : js_string_arg)
    : ST SegwitWallet :=
  let network := getSelectedNetwork networkInput in
  kp0 <- (fun s => makeRandom network s) ;;
  let wif := toWIF kp0 in
  keyPair <- st_lift (ECPair_fromWIF wif network) ;;
  witnessPubKeyHash <- st_lift (witness_program_of keyPair) ;;
  r <- st_lift (p2shp2wpkh_of_witness_program witnessPubKeyHash network) ;;
  st_ret (mkSegwitWallet (fst r) (snd r) wif).

Record Wallets := mkWallets {
  w_wif : string;
  w_p2pkh : string;
  w_p2wpkh : string;
  w_p2shp2wpkh : string;
  w_witnessPubKeyHashHex : string
}.

(** The body shared by [createWallets] and [createWalletsFromWIF] once the
    key pair is known. *)
Definition wallets_of_keyPair (wif : string) (keyPair : ECPair) (network : Network) : result Wallets :=
  let p2pkh := getAddress keyPair in
  let* witnessPubKeyHash := witness_program_of keyPair in
  let* p2wpkh := fromOutputScript witnessPubKeyHash network in
  let* r := p2shp2wpkh_of_witness_program witnessPubKeyHash network in
  Ok (mkWallets wif p2pkh p2wpkh (fst r) (snd r)).

(** [createWallets(networkInput)] *)
Definition createWallets (networkInput : js_string_arg) : ST Wallets :=
  let network := getSelectedNetwork networkInput in
  kp0 <- (fun s => makeRandom network s) ;;
  let wif := toWIF kp0 in
  keyPair <- st_lift (ECPair_fromWIF wif network) ;;
  st_lift (wallets_of_keyPair wif keyPair network).

(** [createWalletsFromWIF(wif, networkInput)] *)
Definition createWalletsFromWIF (wif : string) (networkInput : js_string_arg) : result Wallets :=
  let network := getSelectedNetwork networkInput in
  let* keyPair := ECPair_fromWIF wif network in
  wallets_of_keyPair wif keyPair network.

(** [isValidAddress(address, networkInput)]: the value its promise settles to. *)
Definition isValidAddress (address : string) (networkInput : js_string_arg) : bool :=
  match toOutputScript address (getSelectedNetwork networkInput) with
  | Ok _ => true
  | Err _ => false
  end.

(** An [async] function returns a Promise object. *)
Record Promise (A : Type) := mkPromise { settled : A }.
Arguments mkPromise {A} settled.
Arguments settled {A} p.

(** [isValidAddress(...)] called without [await]. *)
Definition isValidAddress_call (address : string) (networkInput : js_string_arg) : Promise bool :=
  mkPromise (isValidAddress address networkInput).

(** JS truthiness of an object: every object, a Promise included, is truthy. *)
Definition truthy_object {A} (_ : Promise A) : bool := true.

(** The path template of [createHierarchicalDeterministic] (l. 255); each
    number is printed as a template literal prints it. *)
Definition hd_path (purpose netPath account receivingOrChange index : Z) : string :=
  "m/" +++ js_number_to_string purpose +++ "'/" +++ js_number_to_string netPath +++ "'/"
  +++ js_number_to_string account +++ "'/" +++ js_number_to_string receivingOrChange +++ "/"
  +++ js_number_to_string index.

(** l. 252: [networkInput === "testnet" ? 1 : 0] *)
Definition netPath_of (networkInput : js_string_arg) : Z :=
  match networkInput with
  | Some s => if String.eqb s "testnet" then 1 else 0
  | None => 0
  end.

(** The three object shapes [createHierarchicalDeterministic] returns. *)
Inductive HDWallet : Type :=
| HD_p2wpkh (p2wpkh wif : string)
| HD_p2shp2wpkh (p2shp2wpkh wif witnessPubKeyHashHex : string)
| HD_p2pkh (p2pkh wif : string).

(** The key pair at the requested path (l. 251-256). *)
Definition hd_keyPair_at (seed : string) (purpose account receivingOrChange index : Z)
    (networkInput : js_string_arg) : result ECPair :=
  let network := getSelectedNetwork networkInput in
  let netPath := netPath_of networkInput in
  let* node := HDNode_fromSeedHex seed network in
  let path := hd_path purpose netPath account receivingOrChange index in
  let* child := derivePath node path in
  Ok (hd_keyPair child).

(** [createHierarchicalDeterministic(seed, purpose, account, receivingOrChange,
    index, networkInput)]; it reads no entropy. *)
Definition createHierarchicalDeterministic (seed : string) (purpose account receivingOrChange index : Z)
    (networkInput : js_string_arg) : ST HDWallet :=
  let network := getSelectedNetwork networkInput in
  keyPair <- st_lift (hd_keyPair_at seed purpose account receivingOrChange index networkInput) ;;
  let wif := toWIF keyPair in
  witnessPubKeyHash <- st_lift (witness_program_of keyPair) ;;
  if purpose =? 84 then
    p2wpkh <- st_lift (fromOutputScript witnessPubKeyHash network) ;;
    st_ret (HD_p2wpkh p2wpkh wif)
  else if purpose =? 49 then
    r <- st_lift (p2shp2wpkh_of_witness_program witnessPubKeyHash network) ;;
    st_ret (HD_p2shp2wpkh (fst r) wif (snd r))
  else
    st_ret (HD_p2pkh (getAddress keyPair) wif).

(** The "check for output" lines of both spend functions: the unawaited
    [isValidAddress] call is the [if] condition. *)
Definition checked_addOutput (tb : TxBuilder) (address : string) (value : Z)
    (networkInput : js_string_arg) (msg : string) : result TxBuilder :=
  if truthy_object (isValidAddress_call address networkInput) then
    let* r := TB_addOutput tb address value in Ok (fst r)
  else Err msg.

(** [spendFromP2PKH] up to [transactionBuilder.sign(0, keypairSpend)]
    ([console.log] has no effect on the result). *)
Definition spendFromP2PKH_builder (txId : string) (out : Z) (address : string) (amount : Z)
    (wif : string) (changeAddress : string) (changeAmount : Z) (networkInput : js_string_arg)
    : result TxBuilder :=
  let network := getSelectedNetwork networkInput in
  let transactionBuilder := TB_new network in
  let* r := TB_addInput transactionBuilder txId out None None in
  let tb1 := fst r in
  let* tb2 := checked_addOutput tb1 address amount networkInput "invalid address" in
  let* tb3 := checked_addOutput tb2 changeAddress changeAmount networkInput "invalid change address" in
  let* keypairSpend := ECPair_fromWIF wif network in
  TB_sign tb3 0 keypairSpend None.

(** [transactionBuilder.build()] in [spendFromP2PKH] *)
Definition spendFromP2PKH_tx (txId : string) (out : Z) (address : string) (amount : Z)
    (wif : string) (changeAddress : string) (changeAmount : Z) (networkInput : js_string_arg)
    : result Transaction :=
  let* tb := spendFromP2PKH_builder txId out address amount wif changeAddress changeAmount networkInput in
  TB_build tb.

(** [spendFromP2PKH(...)]: the [txHex] it returns. *)
Definition spendFromP2PKH (txId : string) (out : Z) (address : string) (amount : Z)
    (wif : string) (changeAddress : string) (changeAmount : Z) (networkInput : js_string_arg)
    : result string :=
  let* tx := spendFromP2PKH_tx txId out address amount wif changeAddress changeAmount networkInput in
  Ok (toHex tx).

(** [spendFromP2WPKH] up to the second [addOutput]: the key pair and the
    builder about to sign. *)
Definition spendFromP2WPKH_unsigned (txId : string) (out : Z) (address : string) (amount : Z)
    (wif : string) (changeAddress : string) (changeAmount : Z)
    (networkInput : js_string_arg) : result (ECPair * TxBuilder) :=
  let network := getSelectedNetwork networkInput in
  let transactionBuilder := TB_new network in
  let* keyPair := ECPair_fromWIF wif network in
  let publicKey := getPublicKeyBuffer keyPair in
  let pubKeyHash := hash160 publicKey in
  let* witnessPubKeyHash := witnessPubKeyHash_output_encode pubKeyHash in
  let* r := TB_addInput transactionBuilder txId out None (Some witnessPubKeyHash) in
  let tb1 := fst r in
  let* tb2 := checked_addOutput tb1 address amount networkInput "invalid address" in
  let* tb3 := checked_addOutput tb2 changeAddress changeAmount networkInput "invalid change address" in
  Ok (keyPair, tb3).

(** [spendFromP2WPKH] up to [transactionBuilder.sign(0, keyPair, null, null, balance)]. *)
Definition spendFromP2WPKH_builder (txId : string) (out : Z) (address : string) (amount : Z)
    (wif : string) (changeAddress : string) (changeAmount : Z) (balance : Z)
    (networkInput : js_string_arg) : result TxBuilder :=
  let* r := spendFromP2WPKH_unsigned txId out address amount wif changeAddress changeAmount networkInput in
  let '(keyPair, tb3) := r in
  TB_sign tb3 0 keyPair (Some balance).

Definition spendFromP2WPKH_tx (txId : string) (out : Z) (address : string) (amount : Z)
    (wif : string) (changeAddress : string) (changeAmount : Z) (balance : Z)
    (networkInput : js_string_arg) : result Transaction :=
  let* tb := spendFromP2WPKH_builder txId out address amount wif changeAddress changeAmount balance networkInput in
  TB_build tb.

(** [spendFromP2WPKH(...)]: the [txHex] it returns. *)
Definition spendFromP2WPKH (txId : string) (out : Z) (address : string) (amount : Z)
    (wif : string) (changeAddress : string) (changeAmount : Z) (balance : Z)
    (networkInput : js_string_arg) : result string :=
  let* tx := spendFromP2WPKH_tx txId out address amount wif changeAddress changeAmount balance networkInput in
  Ok (toHex tx).

(** ** The remaining exports of index.js *)

Record LegacyWallet := mkLegacyWallet {
  lw_p2pkh : string;
  lw_wif : string
}.

(** [createPayToPublicKeyHashWallet(networkInput)] *)
Definition createPayToPublicKeyHashWallet (networkInput : js_string_arg) : ST LegacyWallet :=
  let network := getSelectedNetwork networkInput in
  kp0 <- (fun s => makeRandom network s) ;;
  let wif := toWIF kp0 in
  keyPair <- st_lift (ECPair_fromWIF wif network) ;;
  let p2pkh := getAddress keyPair in
  st_ret (mkLegacyWallet p2pkh wif).

(** [createLegacyWallet(networkInput)] *)
Definition createLegacyWallet (networkInput : js_string_arg) : ST LegacyWallet :=
  createPayToPublicKeyHashWallet networkInput.

Record Bech32Wallet := mkBech32Wallet {
  bw_p2wpkh : string;
  bw_wif : string
}.

(** [createPayToWitnessPublicKeyHash(networkInput)] *)
Definition createPayToWitnessPublicKeyHash (networkInput : js_string_arg) : ST Bech32Wallet :=
  let network := getSelectedNetwork networkInput in
  kp0 <- (fun s => makeRandom network s) ;;
  let wif := toWIF kp0 in
  keyPair <- st_lift (ECPair_fromWIF wif network) ;;
  witnessPubKeyHash <- st_lift (witness_program_of keyPair) ;;
  p2wpkh <- st_lift (fromOutputScript witnessPubKeyHash network) ;;
  st_ret (mkBech32Wallet p2wpkh wif).

(** [createBech32Wallet(networkInput)] *)
Definition createBech32Wallet (networkInput : js_string_arg) : ST Bech32Wallet :=
  createPayToWitnessPublicKeyHash networkInput.

(** [createSegwitWallet(networkInput)] *)
Definition createSegwitWallet (networkInput : js_string_arg) : ST SegwitWallet :=
  createPayToScriptHash_PayToWitnessPublicKeyHash networkInput.

(** [createHDWallet(seed, purpose = 44, account = 0, receivingOrChange = 0,
    index = 0, networkInput)]: an omitted ([undefined]) argument takes its
    default. *)
Definition createHDWallet (seed : string) (purpose account receivingOrChange index : option Z)
    (networkInput : js_string_arg) : ST HDWallet :=
  createHierarchicalDeterministic seed
    (match purpose with Some p => p | None => 44 end)
    (match account with Some a => a | None => 0 end)
    (match receivingOrChange with Some r => r | None => 0 end)
    (match index with Some i => i | None => 0 end)
    networkInput.

(** [spendFromLegacy(...)] *)
Definition spendFromLegacy (txId : string) (out : Z) (address : string) (amount : Z)
    (wif : string) (changeAddress : string) (changeAmount : Z) (networkInput : js_string_arg)
    : result string :=
  spendFromP2PKH txId out address amount wif changeAddress changeAmount networkInput.

(** [spendFromBech32(...)] *)
Definition spendFromBech32 (txId : string) (out : Z) (address : string) (amount : Z)
    (wif : string) (changeAddress : string) (changeAmount : Z) (balance : Z)
    (networkInput : js_string_arg) : result string :=
  spendFromP2WPKH txId out address amount wif changeAddress changeAmount balance networkInput.

End Library.

(** ** A concrete instance of the primitives

    Stand-ins with the same input/output shapes as the real primitives
    (20-byte RIPEMD-160, 32-byte SHA-256, 64-byte HMAC-SHA512, invertible
    address and WIF encodings), used to run the model on concrete inputs. *)
Module Toy.

Definition pad (n : nat) (b : buffer) : buffer := firstn n (b ++ repeat x00 n).

Definition sha256 (b : buffer) : buffer := pad 32 b.
Definition ripemd160 (b : buffer) : buffer := pad 20 b.
Definition hmac_sha512 (key data : buffer) : buffer := pad 64 (data ++ key).

Definition bs58check_encode (p : buffer) : string := String "5" (string_of_list_byte p).
Definition bs58check_decode (s : string) : option buffer :=
  match s with
  | String c r => if Ascii.eqb c "5" then Some (list_byte_of_string r) else None
  | EmptyString => None
  end.

(** A two-character prefix, the version, then the program. *)
Definition bech32_encode (prefix : string) (version : Z) (data : buffer) : string :=
  String "W" (prefix +++ String (ascii_of_byte (b8 version)) (string_of_list_byte data)).
Definition bech32_decode (s : string) : option (string * Z * buffer) :=
  match s with
  | String w (String a (String b (String c r))) =>
      if Ascii.eqb w "W" then
        Some (String a (String b EmptyString), byte_to_Z (byte_of_ascii c), list_byte_of_string r)
      else None
  | _ => None
  end.

Definition wif_encode (version d : Z) (compressed : bool) : string :=
  String "K" (string_of_list_byte (b8 version :: be_bytes 32 d ++ (if compressed then [x01] else []))).
Definition wif_decode (s : string) : option (Z * buffer * bool) :=
  match s with
  | String k r =>
      if Ascii.eqb k "K" then
        match list_byte_of_string r with
        | v :: rest =>
            if len_is rest 33 && Byte.eqb (last rest x00) x01 then Some (byte_to_Z v, firstn 32 rest, true)
            else if len_is rest 32 then Some (byte_to_Z v, rest, false)
            else None
        | [] => None
        end
      else None
  | EmptyString => None
  end.

Definition ec_point (d : Z) (compressed : bool) : buffer :=
  if compressed then x02 :: be_bytes 32 d else x04 :: be_bytes 64 d.

Definition ecdsa_der (d : Z) (h : buffer) : buffer := x30 :: pad 8 (h ++ be_bytes 32 d).

Definition prims : Prims :=
  mkPrims sha256 ripemd160 hmac_sha512 bs58check_encode bs58check_decode
    bech32_encode bech32_decode wif_encode wif_decode ec_point ecdsa_der.

Definition txid : string := "aa00000000000000000000000000000000000000000000000000000000000001".
Definition testnet_wif : string := wif_encode 239 7 true.
Definition bitcoin_wif : string := wif_encode 128 7 true.
Definition dest_testnet : string := bech32_encode "tb" 0 (repeat x11 20).
Definition change_testnet : string := bech32_encode "tb" 0 (repeat x22 20).
Definition seed_hex : string := "000102030405060708090a0b0c0d0e0f".
Definition master : HDNode :=
  match HDNode_fromSeedHex prims seed_hex bitcoin_network with
  | Ok n => n
  | Err _ => mkHD (mkECPair 1 true bitcoin_network) [] 0 0 0
  end.

Definition p2pkh_tx : Transaction :=
  match spendFromP2PKH_tx prims txid 0 dest_testnet 90000 testnet_wif change_testnet 9000
          (Some "testnet") with
  | Ok tx => tx
  | Err _ => Transaction_new
  end.
Definition p2wpkh_tx : Transaction :=
  match spendFromP2WPKH_tx prims txid 0 dest_testnet 90000 testnet_wif change_testnet 9000 100000
          (Some "testnet") with
  | Ok tx => tx
  | Err _ => Transaction_new
  end.
Definition p2wpkh_unsigned : ECPair * TxBuilder :=
  match spendFromP2WPKH_unsigned prims txid 0 dest_testnet 90000 testnet_wif change_testnet 9000
          (Some "testnet") with
  | Ok r => r
  | Err _ => (mkECPair 1 true bitcoin_network, TB_new bitcoin_network)
  end.
Definition testnet_wallets : Wallets :=
  match createWalletsFromWIF prims testnet_wif (Some "testnet") with
  | Ok w => w
  | Err _ => mkWallets "" "" "" "" ""
  end.

(** Two draws of the entropy source: an invalid all-zero key, then 7. *)
Definition rng : RngState := [be_bytes 32 0; be_bytes 32 7].
Definition p2pkh_builder : TxBuilder :=
  match spendFromP2PKH_builder prims txid 0 dest_testnet 90000 testnet_wif change_testnet 9000
          (Some "testnet") with
  | Ok tb => tb
  | Err _ => TB_new testnet_network
  end.
Definition p2wpkh_builder : TxBuilder :=
  match spendFromP2WPKH_builder prims txid 0 dest_testnet 90000 testnet_wif change_testnet 9000
          100000 (Some "testnet") with
  | Ok tb => tb
  | Err _ => TB_new testnet_network
  end.

End Toy.

(** ** The spec's formulas, for comparison with the code *)

Section SpecFormulas.

Variable P : Prims.

(** §4.1: "redeemScript = the P2WPKH witness program bytes; scriptHash =
    RIPEMD160(SHA256(redeemScript)); address = Base58Check(scriptHashVersion
    ++ scriptHash)". *)
Definition spec_p2shp2wpkh_address (witnessProgram : buffer) (network : Network) : string :=
  bs58check_encode P (b8 (scriptHash network) :: hash160 P witnessProgram).

(** BIP143 scriptCode of a P2WPKH program: the P2PKH script of its hash. *)
Definition spec_scriptCode (witnessProgram : buffer) : buffer :=
  [x76; xa9; x14] ++ skipn 2 witnessProgram ++ [x88; xac].

(** §4.3 "Witness sighash (BIP143-style)": version, one hash of all
    outpoints, one hash of all sequences, the outpoint spent, its scriptCode
    and amount, its sequence, one hash of all outputs, locktime, sighash type;
    double SHA-256 of the concatenation. *)
Definition spec_witness_sighash (tx : Transaction) (input : TxIn) (scriptCode : buffer)
    (amount hashType : Z) : buffer :=
  hash256 P (le32 (tx_version tx)
             ++ hash256 P (List.concat (map (fun i => in_hash i ++ le32 (in_index i)) (tx_ins tx)))
             ++ hash256 P (List.concat (map (fun i => le32 (in_sequence i)) (tx_ins tx)))
             ++ in_hash input ++ le32 (in_index input)
             ++ varSlice scriptCode ++ le64 amount ++ le32 (in_sequence input)
             ++ hash256 P (List.concat (map ser_output (tx_outs tx)))
             ++ le32 (tx_locktime tx) ++ le32 hashType).

End SpecFormulas.

(** ** Laws of the primitives used by the address round trips *)

Definition ripemd160_length_law (P : Prims) : Prop :=
  forall b, List.length (ripemd160 P b) = 20%nat.

(** WIF: [wif.decode(wif.encode(version, d, compressed))] gives the version,
    the 32-byte big-endian private key and the compression flag back. *)
Definition wif_roundtrip_law (P : Prims) : Prop :=
  forall (version d : Z) (compressed : bool),
    0 <= version < 256 -> 0 <= d < 2 ^ 256 ->
    wif_decode P (wif_encode P version d compressed) = Some (version, be_bytes 32 d, compressed).


(** The input [TransactionBuilder.sign] leaves for a P2WPKH program of hash
    [h] signed by [kp] with SIGHASH_ALL and amount [w]. *)
Definition p2wpkh_signed_input (P : Prims) (tx : Transaction) (txin : TxIn) (kp : ECPair) (h : buffer) (w : Z) : BInput :=
  mkBInput (Some (x00 :: x14 :: h)) (Some P2WPKH) (Some w) (Some [getPublicKeyBuffer P kp])
    (Some [Some (ecdsa_der P (kp_d kp)
                  (spec_witness_sighash P tx txin (spec_scriptCode (x00 :: x14 :: h)) w SIGHASH_ALL)
                 ++ [x01])%list])
    (Some (spec_scriptCode (x00 :: x14 :: h))) (Some P2WPKH) (Some true).

(** The input [TransactionBuilder.sign] leaves for a P2PKH output of hash
    [h] signed by [kp] with SIGHASH_ALL (legacy signature hash of input 0). *)
Definition p2pkh_signed_input (P : Prims) (tx : Transaction) (kp : ECPair) (h : buffer) : BInput :=
  let s := ([x76; xa9; x14] ++ h ++ [x88; xac])%list in
  mkBInput (Some s) (Some P2PKH) None (Some [getPublicKeyBuffer P kp])
    (Some [Some (ecdsa_der P (kp_d kp) (hashForSignature P tx 0 s SIGHASH_ALL) ++ [x01])%list])
    (Some s) (Some P2PKH) (Some false).

(** * Proofs *)

Ltac break_match_hyp :=
  match goal with
  | H : context [match ?x with _ => _ end] |- _ => destruct x eqn:?
  end.

Ltac inv_ok :=
  repeat match goal with
         | H : Ok _ = Ok _ |- _ => injection H; clear H; intros
         | H : (_, _) = (_, _) |- _ => injection H; clear H; intros
         end; subst.

Ltac break_match_goal :=
  match goal with
  | |- context [match ?x with _ => _ end] => destruct x eqn:?
  end.

Lemma getSelectedNetwork_other (ni : js_string_arg) :
  ni <> Some "testnet" -> getSelectedNetwork ni = bitcoin_network /\ netPath_of ni = 0.
Proof.
  destruct ni as [s|]; simpl; auto.
  intros H. destruct (String.eqb s "testnet") eqn:E; auto.
  apply String.eqb_eq in E. subst. congruence.
Qed.

(** ** C8 *)

(** C8: every [networkInput] other than the string "testnet" (undefined,
    "regtest", a misspelling) selects Bitcoin mainnet, and every exported
    operation behaves on it exactly as on "bitcoin". *)
Theorem getSelectedNetwork_defaults_to_mainnet (P : Prims) (ni : js_string_arg) :
  ni <> Some "testnet" ->
  getSelectedNetwork ni = bitcoin_network
  /\ (forall a, isValidAddress P a ni = isValidAddress P a (Some "bitcoin"))
  /\ createWallets P ni = createWallets P (Some "bitcoin")
  /\ createPayToScriptHash_PayToWitnessPublicKeyHash P ni
     = createPayToScriptHash_PayToWitnessPublicKeyHash P (Some "bitcoin")
  /\ (forall wif, createWalletsFromWIF P wif ni = createWalletsFromWIF P wif (Some "bitcoin"))
  /\ (forall seed purpose account roc index,
        createHierarchicalDeterministic P seed purpose account roc index ni
        = createHierarchicalDeterministic P seed purpose account roc index (Some "bitcoin"))
  /\ (forall txId out address amount wif changeAddress changeAmount,
        spendFromP2PKH P txId out address amount wif changeAddress changeAmount ni
        = spendFromP2PKH P txId out address amount wif changeAddress changeAmount (Some "bitcoin"))
  /\ (forall txId out address amount wif changeAddress changeAmount balance,
        spendFromP2WPKH P txId out address amount wif changeAddress changeAmount balance ni
        = spendFromP2WPKH P txId out address amount wif changeAddress changeAmount balance
            (Some "bitcoin")).
Proof.
  intros Hni. destruct (getSelectedNetwork_other ni Hni) as [Hn Hp].
  repeat split; intros;
    unfold isValidAddress, createWallets, createPayToScriptHash_PayToWitnessPublicKeyHash,
      createWalletsFromWIF, createHierarchicalDeterministic, hd_keyPair_at,
      spendFromP2PKH, spendFromP2PKH_tx, spendFromP2PKH_builder,
      spendFromP2WPKH, spendFromP2WPKH_tx, spendFromP2WPKH_builder, spendFromP2WPKH_unsigned,
      checked_addOutput;
    rewrite ?Hn, ?Hp; reflexivity.
Qed.

(** ** C7 *)

(** C7: [createHierarchicalDeterministic] is deterministic: it reads no
    entropy, so two calls with the same seed, purpose, account,
    receivingOrChange, index and networkInput return the same result (the
    same wif and address), whatever the state of the entropy source. *)
Theorem createHierarchicalDeterministic_deterministic (P : Prims) (seed : string)
    (purpose account receivingOrChange index : Z) (networkInput : js_string_arg)
    (rng1 rng2 : RngState) :
  fst (createHierarchicalDeterministic P seed purpose account receivingOrChange index networkInput rng1)
  = fst (createHierarchicalDeterministic P seed purpose account receivingOrChange index networkInput rng2)
  /\ snd (createHierarchicalDeterministic P seed purpose account receivingOrChange index networkInput rng1)
     = rng1.
Proof.
  unfold createHierarchicalDeterministic, st_bind, st_lift, st_ret.
  destruct (hd_keyPair_at P seed purpose account receivingOrChange index networkInput);
    [| split; reflexivity].
  destruct (witness_program_of P a); [| split; reflexivity].
  destruct (purpose =? 84);
    [destruct (fromOutputScript P a0 (getSelectedNetwork networkInput)) |
     destruct (purpose =? 49);
       [destruct (p2shp2wpkh_of_witness_program P a0 (getSelectedNetwork networkInput)) |]];
    split; reflexivity.
Qed.

(** ** C4 *)

(** C4: the object [createHierarchicalDeterministic] returns is selected by
    [purpose]: 84 gives [{p2wpkh, wif}], 49 gives [{p2shp2wpkh, wif,
    witnessPubKeyHashHex}], 44 (the default case) gives [{p2pkh, wif}]; each
    address and the wif come from the key at m/purpose'/coin'/account'/
    receivingOrChange/index. *)
Theorem createHierarchicalDeterministic_by_purpose (P : Prims) (seed : string)
    (account receivingOrChange index : Z) (networkInput : js_string_arg) (rng : RngState) :
  let network := getSelectedNetwork networkInput in
  let key purpose :=
    let* node := HDNode_fromSeedHex P seed network in
    let* child := derivePath P node
                    (hd_path purpose (netPath_of networkInput) account receivingOrChange index) in
    Ok (hd_keyPair child) in
  createHierarchicalDeterministic P seed 84 account receivingOrChange index networkInput rng
  = ((let* kp := key 84 in
      let* wp := witness_program_of P kp in
      let* p2wpkh := fromOutputScript P wp network in
      Ok (HD_p2wpkh p2wpkh (toWIF P kp))), rng)
  /\ createHierarchicalDeterministic P seed 49 account receivingOrChange index networkInput rng
  = ((let* kp := key 49 in
      let* wp := witness_program_of P kp in
      let* r := p2shp2wpkh_of_witness_program P wp network in
      Ok (HD_p2shp2wpkh (fst r) (toWIF P kp) (snd r))), rng)
  /\ createHierarchicalDeterministic P seed 44 account receivingOrChange index networkInput rng
  = ((let* kp := key 44 in
      let* _ := witness_program_of P kp in
      Ok (HD_p2pkh (getAddress P kp) (toWIF P kp))), rng).
Proof.
  intros network key.
  unfold createHierarchicalDeterministic, hd_keyPair_at, st_bind, st_lift, st_ret, key, network.
  repeat split; simpl;
    destruct (HDNode_fromSeedHex P seed (getSelectedNetwork networkInput)); simpl; try reflexivity;
    match goal with
    | |- context [derivePath P ?n ?p] => destruct (derivePath P n p); simpl; try reflexivity
    end;
    destruct (witness_program_of P (hd_keyPair a0)); simpl; try reflexivity;
    try (destruct (fromOutputScript P a1 (getSelectedNetwork networkInput)); reflexivity);
    try (destruct (p2shp2wpkh_of_witness_program P a1 (getSelectedNetwork networkInput)); reflexivity).
Qed.

Lemma digit_not_slash c : is_digit c = true -> Ascii.eqb c "/" = false.
Proof. intros H. destruct (Ascii.eqb c "/") eqn:E; auto. apply Ascii.eqb_eq in E; subst; discriminate. Qed.
Lemma digit_not_quote c : is_digit c = true -> Ascii.eqb c "'" = false.
Proof. intros H. destruct (Ascii.eqb c "'") eqn:E; auto. apply Ascii.eqb_eq in E; subst; discriminate. Qed.

Lemma split_at_digits_slash a b : all_digits a = true ->
  split_at "/" (a +++ String "/" b) = a :: split_at "/" b.
Proof.
  induction a as [|c a IH]; simpl; intros H; [reflexivity|].
  apply andb_prop in H as [Hc Ha]. rewrite (digit_not_slash c Hc), IH; auto.
Qed.

Lemma split_at_digits_quote a b : all_digits a = true ->
  split_at "/" (a +++ String "'" (String "/" b)) = (a +++ String "'" "") :: split_at "/" b.
Proof.
  induction a as [|c a IH]; simpl; intros H; [reflexivity|].
  apply andb_prop in H as [Hc Ha]. rewrite (digit_not_slash c Hc), IH; auto.
Qed.

Lemma split_at_digits a : all_digits a = true -> split_at "/" a = [a].
Proof.
  induction a as [|c a IH]; simpl; intros H; [reflexivity|].
  apply andb_prop in H as [Hc Ha]. rewrite (digit_not_slash c Hc), IH; auto.
Qed.

Lemma string_last_snoc s c : string_last (s +++ String c "") = Some c.
Proof.
  induction s as [|a s IH]; [reflexivity|].
  destruct s; [reflexivity|]. exact IH.
Qed.

Lemma drop_last_snoc s c : drop_last (s +++ String c "") = s.
Proof.
  induction s as [|a s IH]; [reflexivity|].
  simpl in *. destruct s; [reflexivity|]. rewrite IH. reflexivity.
Qed.

Lemma string_last_digit s c : all_digits s = true -> string_last s = Some c -> is_digit c = true.
Proof.
  induction s as [|a s IH]; simpl; [discriminate|].
  intros H. apply andb_prop in H as [Ha Hs].
  destruct s; [intros E; injection E; intros; subst; auto | apply IH; auto].
Qed.

Lemma substring_all s : substring 0 (String.length s) s = s.
Proof. induction s; simpl; congruence. Qed.

Lemma take_digits_all s : all_digits s = true -> take_digits s = s.
Proof.
  induction s as [|a s IH]; simpl; [reflexivity|].
  intros H. apply andb_prop in H as [Ha Hs]. rewrite Ha, IH; auto.
Qed.

Lemma all_digits_uint u : all_digits (NilEmpty.string_of_uint u) = true.
Proof. induction u; simpl; auto. Qed.

Lemma Z_to_string_nonneg n : 0 <= n ->
  Z_to_string n = NilZero.string_of_uint (N.to_uint (Z.to_N n)).
Proof. destruct n; simpl; try reflexivity. lia. Qed.

Lemma Z_to_string_digits n : 0 <= n -> all_digits (Z_to_string n) = true /\ Z_to_string n <> "".
Proof.
  intros Hn. rewrite Z_to_string_nonneg by exact Hn.
  generalize (N.to_uint (Z.to_N n)). intros u.
  destruct u; simpl; (split; [|discriminate]); try reflexivity; apply all_digits_uint.
Qed.

Lemma parseInt10_Z_to_string n : 0 <= n -> parseInt10 (Z_to_string n) = Some n.
Proof.
  intros Hn. unfold parseInt10.
  rewrite take_digits_all by (apply Z_to_string_digits; exact Hn).
  rewrite Z_to_string_nonneg by exact Hn.
  pose proof (DecimalN.Unsigned.of_to (Z.to_N n)) as Hof.
  destruct (N.to_uint (Z.to_N n)) eqn:Eu;
    [ | rewrite NilZero.usu by discriminate; rewrite Hof; f_equal; lia .. ].
  simpl. simpl in Hof. rewrite <- (Z2N.id n Hn), <- Hof. reflexivity.
Qed.

Lemma segment_ok_digits a : all_digits a = true -> a <> "" -> segment_ok a = true.
Proof.
  intros Ha Hne. unfold segment_ok. rewrite Ha.
  destruct (String.eqb_spec a ""); [contradiction | reflexivity].
Qed.

Lemma segment_ok_quoted a : all_digits a = true -> a <> "" -> segment_ok (a +++ String "'" "") = true.
Proof.
  intros Ha Hne. unfold segment_ok. rewrite string_last_snoc, drop_last_snoc, Ha.
  destruct (String.eqb_spec a ""); [contradiction|].
  apply orb_true_r.
Qed.

Lemma parse_segment_digits a : all_digits a = true -> parse_segment a = Plain (parseInt10 a).
Proof.
  intros Ha. unfold parse_segment.
  destruct (string_last a) as [c|] eqn:E; [|reflexivity].
  pose proof (string_last_digit a c Ha E) as Hc. unfold quote.
  rewrite (digit_not_quote c Hc). reflexivity.
Qed.

Lemma parse_segment_quoted a : parse_segment (a +++ String "'" "") = Hard (parseInt10 a).
Proof. unfold parse_segment. rewrite string_last_snoc, drop_last_snoc. reflexivity. Qed.

Lemma parse_path_template (z1 z2 z3 z4 z5 : string) :
  all_digits z1 = true -> z1 <> "" -> all_digits z2 = true -> z2 <> "" ->
  all_digits z3 = true -> z3 <> "" -> all_digits z4 = true -> z4 <> "" ->
  all_digits z5 = true -> z5 <> "" ->
  parse_path ("m/" +++ z1 +++ "'/" +++ z2 +++ "'/" +++ z3 +++ "'/" +++ z4 +++ "/" +++ z5)
  = Ok (true, [Hard (parseInt10 z1); Hard (parseInt10 z2); Hard (parseInt10 z3);
               Plain (parseInt10 z4); Plain (parseInt10 z5)]).
Proof.
  intros D1 N1 D2 N2 D3 N3 D4 N4 D5 N5.
  assert (Hs : split_at "/" (z1 +++ "'/" +++ z2 +++ "'/" +++ z3 +++ "'/" +++ z4 +++ "/" +++ z5)
               = [z1 +++ String "'" ""; z2 +++ String "'" ""; z3 +++ String "'" ""; z4; z5]).
  { simpl. rewrite !split_at_digits_quote, split_at_digits_slash, split_at_digits; auto. }
  unfold parse_path, BIP32Path, throw_unless. simpl String.length. simpl.
  simpl in Hs. assert (Hp : forall s, String.prefix "" s = true) by (intros []; reflexivity).
  rewrite Hp, Nat.sub_0_r, substring_all, Hs. simpl.
  rewrite !segment_ok_quoted, !segment_ok_digits, !parse_segment_quoted, !parse_segment_digits; auto.
Qed.

(** ** C9 *)

Lemma js_number_to_string_safe (z : Z) : Z.abs z < 2 ^ 53 -> js_number_to_string z = Z_to_string z.
Proof.
  intros H. unfold js_number_to_string.
  replace (Z.abs z <? 2 ^ 53) with true by (symmetry; apply Z.ltb_lt; exact H).
  reflexivity.
Qed.

Lemma netPath_of_range (ni : js_string_arg) : 0 <= netPath_of ni <= 1.
Proof. unfold netPath_of. destruct ni as [s|]; [destruct (String.eqb s "testnet")|]; lia. Qed.

Lemma hd_path_decimal (purpose netPath account receivingOrChange index : Z) :
  0 <= purpose < 2 ^ 53 -> 0 <= netPath < 2 ^ 53 -> 0 <= account < 2 ^ 53 ->
  0 <= receivingOrChange < 2 ^ 53 -> 0 <= index < 2 ^ 53 ->
  hd_path purpose netPath account receivingOrChange index
  = "m/" +++ Z_to_string purpose +++ "'/" +++ Z_to_string netPath +++ "'/"
    +++ Z_to_string account +++ "'/" +++ Z_to_string receivingOrChange +++ "/" +++ Z_to_string index.
Proof.
  intros H1 H2 H3 H4 H5. unfold hd_path.
  rewrite !js_number_to_string_safe by lia. reflexivity.
Qed.

Lemma hd_path_parse (purpose netPath account receivingOrChange index : Z) :
  0 <= purpose < 2 ^ 53 -> 0 <= netPath < 2 ^ 53 -> 0 <= account < 2 ^ 53 ->
  0 <= receivingOrChange < 2 ^ 53 -> 0 <= index < 2 ^ 53 ->
  parse_path (hd_path purpose netPath account receivingOrChange index)
  = Ok (true, [Hard (Some purpose); Hard (Some netPath); Hard (Some account);
               Plain (Some receivingOrChange); Plain (Some index)]).
Proof.
  intros H1 H2 H3 H4 H5. rewrite hd_path_decimal by assumption.
  destruct (Z_to_string_digits purpose ltac:(lia)), (Z_to_string_digits netPath ltac:(lia)),
    (Z_to_string_digits account ltac:(lia)), (Z_to_string_digits receivingOrChange ltac:(lia)),
    (Z_to_string_digits index ltac:(lia)).
  rewrite parse_path_template by assumption.
  rewrite !parseInt10_Z_to_string by lia. reflexivity.
Qed.

Lemma split_at_digits_quote_end a : all_digits a = true ->
  split_at "/" (a +++ String "'" "") = [a +++ String "'" ""].
Proof.
  induction a as [|c a IH]; simpl; intros H; [reflexivity|].
  apply andb_prop in H as [Hc Ha]. rewrite (digit_not_slash c Hc), IH; auto.
Qed.

Lemma parse_path_template_hard4 (z1 z2 z3 z4 z5 : string) :
  all_digits z1 = true -> z1 <> "" -> all_digits z2 = true -> z2 <> "" ->
  all_digits z3 = true -> z3 <> "" -> all_digits z4 = true -> z4 <> "" ->
  all_digits z5 = true -> z5 <> "" ->
  parse_path ("m/" +++ z1 +++ "'/" +++ z2 +++ "'/" +++ z3 +++ "'/" +++ z4 +++ "'/" +++ z5)
  = Ok (true, [Hard (parseInt10 z1); Hard (parseInt10 z2); Hard (parseInt10 z3);
               Hard (parseInt10 z4); Plain (parseInt10 z5)]).
Proof.
  intros D1 N1 D2 N2 D3 N3 D4 N4 D5 N5.
  assert (Hs : split_at "/" (z1 +++ "'/" +++ z2 +++ "'/" +++ z3 +++ "'/" +++ z4 +++ "'/" +++ z5)
               = [z1 +++ String "'" ""; z2 +++ String "'" ""; z3 +++ String "'" "";
                  z4 +++ String "'" ""; z5]).
  { simpl. rewrite !split_at_digits_quote, split_at_digits; auto. }
  unfold parse_path, BIP32Path, throw_unless. simpl String.length. simpl.
  simpl in Hs. assert (Hp : forall s, String.prefix "" s = true) by (intros []; reflexivity).
  rewrite Hp, Nat.sub_0_r, substring_all, Hs. simpl.
  rewrite !segment_ok_quoted, !segment_ok_digits, !parse_segment_quoted, !parse_segment_digits; auto.
Qed.

Lemma parse_path_template_hard5 (z1 z2 z3 z4 z5 : string) :
  all_digits z1 = true -> z1 <> "" -> all_digits z2 = true -> z2 <> "" ->
  all_digits z3 = true -> z3 <> "" -> all_digits z4 = true -> z4 <> "" ->
  all_digits z5 = true -> z5 <> "" ->
  parse_path ("m/" +++ z1 +++ "'/" +++ z2 +++ "'/" +++ z3 +++ "'/" +++ z4 +++ "/" +++ z5 +++ "'")
  = Ok (true, [Hard (parseInt10 z1); Hard (parseInt10 z2); Hard (parseInt10 z3);
               Plain (parseInt10 z4); Hard (parseInt10 z5)]).
Proof.
  intros D1 N1 D2 N2 D3 N3 D4 N4 D5 N5.
  assert (Hs : split_at "/" (z1 +++ "'/" +++ z2 +++ "'/" +++ z3 +++ "'/" +++ z4 +++ "/" +++ z5 +++ "'")
               = [z1 +++ String "'" ""; z2 +++ String "'" ""; z3 +++ String "'" "";
                  z4; z5 +++ String "'" ""]).
  { simpl. rewrite !split_at_digits_quote, split_at_digits_slash, split_at_digits_quote_end; auto. }
  unfold parse_path, BIP32Path, throw_unless. simpl String.length. simpl.
  simpl in Hs. assert (Hp : forall s, String.prefix "" s = true) by (intros []; reflexivity).
  rewrite Hp, Nat.sub_0_r, substring_all, Hs. simpl.
  rewrite !segment_ok_quoted, !segment_ok_digits, !parse_segment_quoted, !parse_segment_digits; auto.
Qed.

Lemma fold_steps_ext (P : Prims) (s1 s2 : list PathStep) (acc : result HDNode) :
  Forall2 (fun a b => forall m, apply_step P m a = apply_step P m b) s1 s2 ->
  fold_left (fun acc st => let* m := acc in apply_step P m st) s1 acc
  = fold_left (fun acc st => let* m := acc in apply_step P m st) s2 acc.
Proof.
  intros H. revert acc. induction H as [|a b s1 s2 Hab _ IH]; intros acc; [reflexivity|].
  cbn [fold_left]. destruct acc as [m|e]; cbn [bind]; [rewrite Hab|]; apply IH.
Qed.

Lemma apply_step_plain_high (P : Prims) (m : HDNode) (i : Z) :
  2 ^ 31 <= i < 2 ^ 32 -> apply_step P m (Plain (Some i)) = apply_step P m (Hard (Some (i - 2 ^ 31))).
Proof.
  intros Hi. cbn [apply_step]. unfold deriveHardened, throw_unless, UInt31, HIGHEST_BIT.
  replace (0 <=? i - 2 ^ 31) with true by (symmetry; apply Z.leb_le; lia).
  replace (i - 2 ^ 31 <? 2 ^ 31) with true by (symmetry; apply Z.ltb_lt; lia).
  cbn [andb negb]. f_equal. ring.
Qed.

(** C9 (as the code has it): for safe-integer arguments (below 2^53, printed
    in decimal) the path [createHierarchicalDeterministic] builds parses into
    five steps, the first three through [deriveHardened] and
    [receivingOrChange] and [index] through [derive] with their values
    unchanged.  [derive] treats an index of 2^31 or more as hardened, so a
    [receivingOrChange] or [index] of [2^31 + r] (below 2^32) derives exactly
    the node of the hardened segment [r'] instead of being refused. *)
Theorem hd_path_last_segments_hardened (P : Prims) (node : HDNode)
    (purpose account receivingOrChange index : Z) (networkInput : js_string_arg) :
  0 <= purpose < 2 ^ 53 -> 0 <= account < 2 ^ 53 ->
  0 <= receivingOrChange < 2 ^ 53 -> 0 <= index < 2 ^ 53 ->
  let c := netPath_of networkInput in
  parse_path (hd_path purpose c account receivingOrChange index)
  = Ok (true, [Hard (Some purpose); Hard (Some c); Hard (Some account);
               Plain (Some receivingOrChange); Plain (Some index)])
  /\ (2 ^ 31 <= receivingOrChange < 2 ^ 32 ->
      derivePath P node (hd_path purpose c account receivingOrChange index)
      = derivePath P node ("m/" +++ Z_to_string purpose +++ "'/" +++ Z_to_string c +++ "'/"
                           +++ Z_to_string account +++ "'/" +++ Z_to_string (receivingOrChange - 2 ^ 31)
                           +++ "'/" +++ Z_to_string index))
  /\ (2 ^ 31 <= index < 2 ^ 32 ->
      derivePath P node (hd_path purpose c account receivingOrChange index)
      = derivePath P node ("m/" +++ Z_to_string purpose +++ "'/" +++ Z_to_string c +++ "'/"
                           +++ Z_to_string account +++ "'/" +++ Z_to_string receivingOrChange
                           +++ "/" +++ Z_to_string (index - 2 ^ 31) +++ "'")).
Proof.
  intros H1 H3 H4 H5 c.
  assert (H2 : 0 <= c <= 1) by apply netPath_of_range.
  assert (HP := hd_path_parse purpose c account receivingOrChange index H1 ltac:(lia) H3 H4 H5).
  destruct (Z_to_string_digits purpose ltac:(lia)), (Z_to_string_digits c ltac:(lia)),
    (Z_to_string_digits account ltac:(lia)), (Z_to_string_digits receivingOrChange ltac:(lia)),
    (Z_to_string_digits index ltac:(lia)).
  split; [exact HP|]. split.
  - intros Hb. destruct (Z_to_string_digits (receivingOrChange - 2 ^ 31) ltac:(lia)).
    unfold derivePath. rewrite HP, parse_path_template_hard4 by assumption.
    rewrite !parseInt10_Z_to_string by lia. cbn [bind].
    unfold throw_unless. destruct (negb true || (hd_parentFingerprint node =? 0)); [|reflexivity].
    apply fold_steps_ext.
    repeat constructor; intros m; try reflexivity.
    apply apply_step_plain_high; exact Hb.
  - intros Hb. destruct (Z_to_string_digits (index - 2 ^ 31) ltac:(lia)).
    unfold derivePath. rewrite HP, parse_path_template_hard5 by assumption.
    rewrite !parseInt10_Z_to_string by lia. cbn [bind].
    unfold throw_unless. destruct (negb true || (hd_parentFingerprint node =? 0)); [|reflexivity].
    apply fold_steps_ext.
    repeat constructor; intros m; try reflexivity.
    apply apply_step_plain_high; exact Hb.
Qed.

(** Witness of [hd_path_last_segments_hardened] at receivingOrChange = 2^31:
    the wallet's path derives the node of m/44'/0'/0'/0'/0, not the one of
    m/44'/0'/0'/0/0, and [createHierarchicalDeterministic] succeeds. *)
Lemma hd_path_last_segments_hardened_witness :
  derivePath Toy.prims Toy.master (hd_path 44 0 0 (2 ^ 31) 0)
  = derivePath Toy.prims Toy.master "m/44'/0'/0'/0'/0"
  /\ derivePath Toy.prims Toy.master (hd_path 44 0 0 (2 ^ 31) 0)
     <> derivePath Toy.prims Toy.master "m/44'/0'/0'/0/0"
  /\ let r := createHierarchicalDeterministic Toy.prims Toy.seed_hex 44 0 (2 ^ 31) 0 None [] in
     exists w, r = (Ok w, []).
Proof.
  destruct (hd_path_last_segments_hardened Toy.prims Toy.master 44 0 (2 ^ 31) 0 None)
    as [_ [H _]]; try lia.
  assert (Es : "m/" +++ Z_to_string 44 +++ "'/" +++ Z_to_string (netPath_of None) +++ "'/"
               +++ Z_to_string 0 +++ "'/" +++ Z_to_string (2 ^ 31 - 2 ^ 31) +++ "'/" +++ Z_to_string 0
               = "m/44'/0'/0'/0'/0") by (vm_compute; reflexivity).
  rewrite Es in H. change (netPath_of None) with 0 in H.
  assert (H' := H ltac:(lia)).
  split; [exact H'|]. split.
  - rewrite H'. vm_compute. congruence.
  - cbv zeta.
    exists (match fst (createHierarchicalDeterministic Toy.prims Toy.seed_hex 44 0 (2 ^ 31) 0 None []) with
            | Ok w => w
            | Err _ => HD_p2pkh "" ""
            end).
    vm_compute. reflexivity.
Defined.

(** ** Transactions, addresses and witnesses *)

Lemma TB_addInput_new (P : Prims) (net : Network) (txId : string) (out : Z)
    (prevOutScript : option buffer) (tb : TxBuilder) (vin : nat) :
  TB_addInput P (TB_new net) txId out None prevOutScript = Ok (tb, vin) ->
  tb = mkTB net 2500 [addInput_input P prevOutScript]
         [hex_of_buffer (rev (buffer_from_hex txId)) +++ ":" +++ Z_to_string out]
         (mkTx 1 0 [mkTxIn (rev (buffer_from_hex txId)) out [] DEFAULT_SEQUENCE []] []).
Proof.
  unfold TB_addInput, TB_new, tx_addInput, throw_unless, bind. simpl.
  intros H. repeat (break_match_hyp; try discriminate).
  inv_ok. reflexivity.
Qed.

Lemma TB_addOutput_ok (P : Prims) (tb : TxBuilder) (address : string) (value : Z)
    (tb' : TxBuilder) (i : nat) :
  TB_addOutput P tb address value = Ok (tb', i) ->
  exists s, toOutputScript P address (tb_network tb) = Ok s
  /\ tb' = mkTB (tb_network tb) (tb_maximumFeeRate tb) (tb_inputs tb) (tb_prevTxMap tb)
             (mkTx (tx_version (tb_tx tb)) (tx_locktime (tb_tx tb)) (tx_ins (tb_tx tb))
                   (tx_outs (tb_tx tb) ++ [mkTxOut s value])).
Proof.
  unfold TB_addOutput, tx_addOutput, throw_unless, bind.
  intros H. repeat (break_match_hyp; try discriminate).
  inv_ok. eauto.
Qed.

Lemma checked_addOutput_eq (P : Prims) (tb : TxBuilder) (address : string) (value : Z)
    (networkInput : js_string_arg) (msg : string) :
  checked_addOutput P tb address value networkInput msg
  = (let* r := TB_addOutput P tb address value in Ok (fst r)).
Proof. reflexivity. Qed.

Lemma map_nth_length {A} (f : A -> A) (n : nat) (l : list A) :
  List.length (map_nth f n l) = List.length l.
Proof.
  unfold map_nth. rewrite <- (firstn_skipn n l) at 3. rewrite !length_app.
  destruct (skipn n l); reflexivity.
Qed.

Lemma TB_sign_frame (P : Prims) (tb : TxBuilder) (vin : nat) (kp : ECPair)
    (witnessValue : option Z) (tb' : TxBuilder) :
  TB_sign P tb vin kp witnessValue = Ok tb' ->
  tb_network tb' = tb_network tb /\ tb_maximumFeeRate tb' = tb_maximumFeeRate tb
  /\ tb_tx tb' = tb_tx tb /\ List.length (tb_inputs tb') = List.length (tb_inputs tb).
Proof.
  unfold TB_sign, throw_unless, bind.
  intros H. repeat (break_match_hyp; try discriminate);
  inv_ok; simpl; unfold replace_nth; rewrite map_nth_length; auto.
Qed.

Lemma buildInput_signed (inp : BInput) (t ty : string) (script : buffer)
    (wit : list buffer) :
  buildInput inp t = Ok (ty, script, wit) -> (supportedType t || String.eqb t P2WPKH) = true ->
  ty = t /\
  exists sg pk, bi_signatures inp = Some [Some sg] /\ bi_pubKeys inp = Some [pk]
  /\ ((t = P2PKH /\ script = compile [Data sg; Data pk] /\ wit = [])
      \/ (t = P2WPKH /\ script = [] /\ wit = [sg; pk])).
Proof.
  unfold buildInput, supportedType, buildStack, bind.
  intros H Ht.
  destruct (String.eqb_spec t P2PKH) as [->|Hn1]; [|destruct (String.eqb_spec t P2WPKH) as [->|Hn2]];
    simpl in *; try discriminate;
    repeat (break_match_hyp; simpl in *; try discriminate); inv_ok; simpl in *;
    split; auto; eauto 10.
Qed.

Lemma buildInput_type (inp : BInput) (t ty : string) (script : buffer) (wit : list buffer) :
  buildInput inp t = Ok (ty, script, wit) -> ty = t.
Proof.
  unfold buildInput, bind. intros H.
  repeat (break_match_hyp; try discriminate); inv_ok; reflexivity.
Qed.

Lemma TB_build_single (tb : TxBuilder) (inp : BInput) (txin : TxIn) (tx : Transaction) :
  tb_inputs tb = [inp] -> tx_ins (tb_tx tb) = [txin] -> TB_build tb = Ok tx ->
  exists t script wit,
    bi_prevOutType inp = Some t /\ buildInput inp t = Ok (t, script, wit)
    /\ (supportedType t || String.eqb t P2WPKH) = true
    /\ tx = mkTx (tx_version (tb_tx tb)) (tx_locktime (tb_tx tb))
              [set_in_witness wit (set_in_script script txin)] (tx_outs (tb_tx tb)).
Proof.
  intros Hi Hx H. unfold TB_build, throw_unless, bind in H. rewrite Hi in H. simpl in H.
  repeat (break_match_hyp; unfold bind, throw_unless in *; try discriminate). inv_ok.
  match goal with Hb : buildInput _ _ = Ok _ |- _ =>
    pose proof Hb as Hb'; apply buildInput_type in Hb'; subst end.
  rewrite Hx. do 3 eexists. repeat split; eauto.
Qed.

Lemma add_two_outputs (P : Prims) (net : Network) (txId : string) (out : Z)
    (prevOutScript : option buffer) (address : string) (amount : Z) (changeAddress : string)
    (changeAmount : Z) (ni : js_string_arg) (r : TxBuilder * nat) (tb2 tb3 : TxBuilder) :
  TB_addInput P (TB_new net) txId out None prevOutScript = Ok r ->
  checked_addOutput P (fst r) address amount ni "invalid address" = Ok tb2 ->
  checked_addOutput P tb2 changeAddress changeAmount ni "invalid change address" = Ok tb3 ->
  exists ds cs, toOutputScript P address net = Ok ds /\ toOutputScript P changeAddress net = Ok cs
  /\ tb3 = mkTB net 2500 [addInput_input P prevOutScript]
             [hex_of_buffer (rev (buffer_from_hex txId)) +++ ":" +++ Z_to_string out]
             (mkTx 1 0 [mkTxIn (rev (buffer_from_hex txId)) out [] DEFAULT_SEQUENCE []]
                [mkTxOut ds amount; mkTxOut cs changeAmount]).
Proof.
  destruct r as [tb1 vin]. intros H1 H2 H3. apply TB_addInput_new in H1. subst tb1.
  rewrite checked_addOutput_eq in H2, H3. unfold bind in H2, H3.
  destruct (TB_addOutput P _ address amount) as [[tb2' i2]|] eqn:E2; try discriminate.
  destruct (TB_addOutput P tb2 changeAddress changeAmount) as [[tb3' i3]|] eqn:E3; try discriminate.
  inv_ok. simpl in *.
  apply TB_addOutput_ok in E2 as [ds [Hds ->]].
  apply TB_addOutput_ok in E3 as [cs [Hcs ->]].
  simpl in *. exists ds, cs. auto.
Qed.

Lemma length_one {A} (l : list A) : List.length l = 1%nat -> exists x, l = [x].
Proof. destruct l as [|x [|]]; simpl; try discriminate; eauto. Qed.

(** C3: every transaction that [spendFromP2PKH] or [spendFromP2WPKH] builds has
    exactly one input, whose signature list holds one signature, and exactly
    two outputs: the destination's script with [amount] first, the change
    script with [changeAmount] second. *)
Theorem spend_one_input_two_outputs (P : Prims) :
  (forall txId out address amount wif changeAddress changeAmount networkInput tx,
     spendFromP2PKH_tx P txId out address amount wif changeAddress changeAmount networkInput = Ok tx ->
     let network := getSelectedNetwork networkInput in
     (exists tb inp sg pk,
        spendFromP2PKH_builder P txId out address amount wif changeAddress changeAmount networkInput = Ok tb
        /\ tb_inputs tb = [inp] /\ bi_signatures inp = Some [Some sg] /\ bi_pubKeys inp = Some [pk])
     /\ List.length (tx_ins tx) = 1%nat
     /\ exists ds cs, toOutputScript P address network = Ok ds
        /\ toOutputScript P changeAddress network = Ok cs
        /\ tx_outs tx = [mkTxOut ds amount; mkTxOut cs changeAmount])
  /\ (forall txId out address amount wif changeAddress changeAmount balance networkInput tx,
     spendFromP2WPKH_tx P txId out address amount wif changeAddress changeAmount balance networkInput
       = Ok tx ->
     let network := getSelectedNetwork networkInput in
     (exists tb inp sg pk,
        spendFromP2WPKH_builder P txId out address amount wif changeAddress changeAmount balance
          networkInput = Ok tb
        /\ tb_inputs tb = [inp] /\ bi_signatures inp = Some [Some sg] /\ bi_pubKeys inp = Some [pk])
     /\ List.length (tx_ins tx) = 1%nat
     /\ exists ds cs, toOutputScript P address network = Ok ds
        /\ toOutputScript P changeAddress network = Ok cs
        /\ tx_outs tx = [mkTxOut ds amount; mkTxOut cs changeAmount]).
Proof.
  split.
  - intros txId out address amount wif changeAddress changeAmount ni tx H net.
    unfold spendFromP2PKH_tx, bind in H.
    destruct (spendFromP2PKH_builder P _ _ _ _ _ _ _ _) as [tb|] eqn:Eb; try discriminate.
    pose proof Eb as Eb'.
    unfold spendFromP2PKH_builder, bind in Eb'.
    destruct (TB_addInput P _ _ _ _ _) as [r|] eqn:E1; try discriminate.
    destruct (checked_addOutput P (fst r) address _ _ _) as [tb2|] eqn:E2; try discriminate.
    destruct (checked_addOutput P tb2 changeAddress _ _ _) as [tb3|] eqn:E3; try discriminate.
    destruct (ECPair_fromWIF P wif _) as [kp|]; try discriminate.
    destruct (add_two_outputs P _ _ _ _ _ _ _ _ _ r tb2 tb3 E1 E2 E3) as [ds [cs [Hds [Hcs ->]]]].
    apply TB_sign_frame in Eb' as [_ [_ [Htx Hlen]]]. simpl in Htx, Hlen.
    destruct (length_one _ Hlen) as [inp Hinp].
    destruct (TB_build_single tb inp _ tx Hinp ltac:(rewrite Htx; reflexivity) H)
      as [t [script [wit [_ [Hbi [Ht ->]]]]]].
    destruct (buildInput_signed inp t t script wit Hbi Ht) as [_ [sg [pk [Hs [Hp _]]]]].
    rewrite Htx. simpl. split; [exists tb, inp, sg, pk; auto | split; [reflexivity | eauto]].
  - intros txId out address amount wif changeAddress changeAmount balance ni tx H net.
    unfold spendFromP2WPKH_tx, bind in H.
    destruct (spendFromP2WPKH_builder P _ _ _ _ _ _ _ _ _) as [tb|] eqn:Eb; try discriminate.
    pose proof Eb as Eb'.
    unfold spendFromP2WPKH_builder, spendFromP2WPKH_unsigned, bind in Eb'.
    destruct (ECPair_fromWIF P wif _) as [kp|]; try discriminate.
    destruct (witnessPubKeyHash_output_encode _) as [wp|]; try discriminate.
    destruct (TB_addInput P _ _ _ _ _) as [r|] eqn:E1; try discriminate.
    destruct (checked_addOutput P (fst r) address _ _ _) as [tb2|] eqn:E2; try discriminate.
    destruct (checked_addOutput P tb2 changeAddress _ _ _) as [tb3|] eqn:E3; try discriminate.
    destruct (add_two_outputs P _ _ _ _ _ _ _ _ _ r tb2 tb3 E1 E2 E3) as [ds [cs [Hds [Hcs ->]]]].
    apply TB_sign_frame in Eb' as [_ [_ [Htx Hlen]]]. simpl in Htx, Hlen.
    destruct (length_one _ Hlen) as [inp Hinp].
    destruct (TB_build_single tb inp _ tx Hinp ltac:(rewrite Htx; reflexivity) H)
      as [t [script [wit [_ [Hbi [Ht ->]]]]]].
    destruct (buildInput_signed inp t t script wit Hbi Ht) as [_ [sg [pk [Hs [Hp _]]]]].
    rewrite Htx. simpl. split; [exists tb, inp, sg, pk; auto | split; [reflexivity | eauto]].
Qed.

Lemma buffer_eqb_refl (b : buffer) : buffer_eqb b b = true.
Proof.
  unfold buffer_eqb. rewrite Nat.eqb_refl. simpl.
  induction b as [|x b IH]; simpl; [reflexivity|]. rewrite Byte.byte_dec_lb by reflexivity. exact IH.
Qed.

Lemma compile_data20 (h : buffer) (r : list chunk) : List.length h = 20%nat ->
  compile (Data h :: r) = x14 :: h ++ compile r.
Proof.
  intros Hl. assert (Hm : asMinimalOP h = None)
    by (destruct h as [|? [|? ?]]; simpl in Hl; try discriminate; reflexivity).
  simpl. rewrite Hm, Hl. reflexivity.
Qed.

Lemma compile_push20 (h : buffer) : List.length h = 20%nat ->
  compile [Data h] = x14 :: h.
Proof.
  intros Hl. rewrite compile_data20 by exact Hl. simpl. rewrite app_nil_r. reflexivity.
Qed.

Lemma witnessPubKeyHash_output_encode_ok (h wp : buffer) :
  witnessPubKeyHash_output_encode h = Ok wp -> List.length h = 20%nat /\ wp = x00 :: x14 :: h.
Proof.
  unfold witnessPubKeyHash_output_encode, throw_unless, Hash160bit, len_is.
  destruct (Nat.eqb_spec (List.length h) 20) as [Hl|]; [|discriminate].
  intros H. inv_ok. split; [exact Hl|]. simpl. rewrite <- (compile_push20 h Hl). reflexivity.
Qed.

Lemma witnessPubKeyHash_output_check_20 (h : buffer) : List.length h = 20%nat ->
  witnessPubKeyHash_output_check (x00 :: x14 :: h) = true.
Proof. intros Hl. unfold witnessPubKeyHash_output_check, len_is. simpl. rewrite Hl. reflexivity. Qed.

Lemma slice_2_22 (h : buffer) : List.length h = 20%nat -> slice 2 22 (x00 :: x14 :: h) = h.
Proof.
  intros Hl. unfold slice. change (skipn 2 (x00 :: x14 :: h)) with h.
  rewrite firstn_all2; [reflexivity | rewrite Hl; reflexivity].
Qed.

Lemma expandOutput_wpkh_nokey (P : Prims) (h : buffer) : List.length h = 20%nat ->
  expandOutput P (x00 :: x14 :: h) None None = (Some [], P2WPKH).
Proof.
  intros Hl. unfold expandOutput, classifyOutput. rewrite witnessPubKeyHash_output_check_20 by exact Hl.
  reflexivity.
Qed.

Lemma expandOutput_wpkh_key (P : Prims) (h pk : buffer) : List.length h = 20%nat ->
  h = hash160 P pk ->
  expandOutput P (x00 :: x14 :: h) (Some P2WPKH) (Some pk) = (Some [pk], P2WPKH).
Proof.
  intros Hl Hh. unfold expandOutput. simpl. rewrite slice_2_22 by exact Hl. rewrite <- Hh, buffer_eqb_refl.
  reflexivity.
Qed.

Lemma pubKeyHash_output_encode_20 (h : buffer) : List.length h = 20%nat ->
  pubKeyHash_output_encode h = Ok (spec_scriptCode (x00 :: x14 :: h)).
Proof.
  intros Hl. unfold pubKeyHash_output_encode, throw_unless, Hash160bit, len_is, spec_scriptCode.
  change (compile [Op x76; Op xa9; Data h; Op x88; Op xac])
    with (x76 :: xa9 :: compile (Data h :: [Op x88; Op xac])).
  rewrite compile_data20 by exact Hl. rewrite Hl. reflexivity.
Qed.

Lemma hashForWitnessV0_all (P : Prims) (tx : Transaction) (txin : TxIn) (rest : list TxIn)
    (script : buffer) (value : Z) :
  Satoshi value = true -> tx_ins tx = txin :: rest ->
  hashForWitnessV0 P tx 0 script value SIGHASH_ALL
  = Ok (spec_witness_sighash P tx txin script value SIGHASH_ALL).
Proof.
  intros Hs Hi. unfold hashForWitnessV0, spec_witness_sighash, throw_unless. rewrite Hs, Hi. reflexivity.
Qed.

Lemma TB_sign_p2wpkh (P : Prims) (tb : TxBuilder) (kp : ECPair) (h : buffer) (txin : TxIn)
    (rest : list TxIn) (w : Z) :
  List.length h = 20%nat -> h = hash160 P (getPublicKeyBuffer P kp) ->
  net_name (kp_network kp) = net_name (tb_network tb) ->
  tb_inputs tb = [addInput_input P (Some (x00 :: x14 :: h))] ->
  tx_ins (tb_tx tb) = txin :: rest ->
  TB_sign P tb 0 kp (Some w)
  = throw_unless (Satoshi w) "Expected Satoshi"
      (throw_unless (len_is (getPublicKeyBuffer P kp) 33)
         "BIP143 rejects uncompressed public keys in P2WPKH or P2WSH"
         (Ok (mkTB (tb_network tb) (tb_maximumFeeRate tb)
                [p2wpkh_signed_input P (tb_tx tb) txin kp h w]
                (tb_prevTxMap tb) (tb_tx tb)))).
Proof.
  intros Hl Hh Hn Hin Htx.
  unfold TB_sign. unfold throw_unless at 1. rewrite Hn, String.eqb_refl, Hin.
  unfold addInput_input. rewrite expandOutput_wpkh_nokey by exact Hl.
  simpl nth_error. cbv iota beta zeta.
  unfold bind at 1. simpl canSign. cbv iota beta zeta.
  unfold throw_unless.
  destruct (Satoshi w) eqn:Hs; [|reflexivity].
  simpl. unfold prepareInput. simpl.
  rewrite expandOutput_wpkh_key by assumption. simpl.
  unfold witnessPubKeyHash_output_decode, throw_unless.
  rewrite witnessPubKeyHash_output_check_20 by exact Hl. simpl.
  rewrite pubKeyHash_output_encode_20 by exact Hl. simpl.
  rewrite (hashForWitnessV0_all P _ txin rest) by assumption. simpl.
  rewrite buffer_eqb_refl. simpl.
  destruct (len_is (getPublicKeyBuffer P kp) 33); reflexivity.
Qed.

Lemma ECPair_fromWIF_network (P : Prims) (s : string) (net : Network) (kp : ECPair) :
  ECPair_fromWIF P s net = Ok kp -> kp_network kp = net.
Proof.
  unfold ECPair_fromWIF, ECPair_new. intros H.
  repeat (break_match_hyp; try discriminate); inv_ok; reflexivity.
Qed.

Lemma addInput_input_wpkh (P : Prims) (h : buffer) : List.length h = 20%nat ->
  addInput_input P (Some (x00 :: x14 :: h))
  = mkBInput (Some (x00 :: x14 :: h)) (Some P2WPKH) None (Some []) (Some []) None None None.
Proof. intros Hl. unfold addInput_input. rewrite expandOutput_wpkh_nokey by exact Hl. reflexivity. Qed.

Lemma spendFromP2WPKH_unsigned_ok (P : Prims) (txId : string) (out : Z) (address : string)
    (amount : Z) (wif changeAddress : string) (changeAmount : Z) (ni : js_string_arg)
    (kp : ECPair) (tb3 : TxBuilder) :
  spendFromP2WPKH_unsigned P txId out address amount wif changeAddress changeAmount ni = Ok (kp, tb3) ->
  let net := getSelectedNetwork ni in
  let h := hash160 P (getPublicKeyBuffer P kp) in
  ECPair_fromWIF P wif net = Ok kp /\ List.length h = 20%nat
  /\ witness_program_of P kp = Ok (x00 :: x14 :: h)
  /\ exists ds cs, toOutputScript P address net = Ok ds /\ toOutputScript P changeAddress net = Ok cs
  /\ tb3 = mkTB net 2500 [addInput_input P (Some (x00 :: x14 :: h))]
             [hex_of_buffer (rev (buffer_from_hex txId)) +++ ":" +++ Z_to_string out]
             (mkTx 1 0 [mkTxIn (rev (buffer_from_hex txId)) out [] DEFAULT_SEQUENCE []]
                [mkTxOut ds amount; mkTxOut cs changeAmount]).
Proof.
  intros H net h. unfold spendFromP2WPKH_unsigned, bind in H.
  destruct (ECPair_fromWIF P wif _) as [kp0|] eqn:Ek; try discriminate.
  destruct (witnessPubKeyHash_output_encode _) as [wp|] eqn:Ew; try discriminate.
  destruct (TB_addInput P _ _ _ _ _) as [r|] eqn:E1; try discriminate.
  destruct (checked_addOutput P (fst r) address _ _ _) as [tb2|] eqn:E2; try discriminate.
  destruct (checked_addOutput P tb2 changeAddress _ _ _) as [tb3'|] eqn:E3; try discriminate.
  inv_ok.
  destruct (add_two_outputs P _ _ _ _ _ _ _ _ _ r tb2 tb3 E1 E2 E3) as [ds [cs [Hds [Hcs Htb]]]].
  apply witnessPubKeyHash_output_encode_ok in Ew as Ew'. destruct Ew' as [Hl ->].
  unfold witness_program_of. repeat split; auto. exists ds, cs. auto.
Qed.

(** C10: the prevOutScript of the single input of [spendFromP2WPKH] is the
    witness program of the public key of the WIF passed in, and the signing
    step is fully determined by that key and the balance. *)
Theorem spendFromP2WPKH_script_from_key (P : Prims) (txId : string) (out : Z) (address : string)
    (amount : Z) (wif changeAddress : string) (changeAmount balance : Z) (ni : js_string_arg)
    (kp : ECPair) (tb3 : TxBuilder) :
  spendFromP2WPKH_unsigned P txId out address amount wif changeAddress changeAmount ni = Ok (kp, tb3) ->
  let pk := getPublicKeyBuffer P kp in
  let wp := x00 :: x14 :: hash160 P pk in
  ECPair_fromWIF P wif (getSelectedNetwork ni) = Ok kp
  /\ witness_program_of P kp = Ok wp
  /\ tb_inputs tb3 = [mkBInput (Some wp) (Some P2WPKH) None (Some []) (Some []) None None None]
  /\ exists txin, tx_ins (tb_tx tb3) = [txin]
     /\ spendFromP2WPKH_builder P txId out address amount wif changeAddress changeAmount balance ni
        = throw_unless (Satoshi balance) "Expected Satoshi"
            (throw_unless (len_is pk 33) "BIP143 rejects uncompressed public keys in P2WPKH or P2WSH"
               (Ok (mkTB (tb_network tb3) (tb_maximumFeeRate tb3)
                      [p2wpkh_signed_input P (tb_tx tb3) txin kp (hash160 P pk) balance]
                      (tb_prevTxMap tb3) (tb_tx tb3)))).
Proof.
  intros H pk wp.
  destruct (spendFromP2WPKH_unsigned_ok P _ _ _ _ _ _ _ _ _ _ H) as [Ek [Hl [Hw [ds [cs [_ [_ Htb]]]]]]].
  set (txin := mkTxIn (rev (buffer_from_hex txId)) out [] DEFAULT_SEQUENCE []).
  assert (Hsign : spendFromP2WPKH_builder P txId out address amount wif changeAddress changeAmount balance ni
        = throw_unless (Satoshi balance) "Expected Satoshi"
            (throw_unless (len_is pk 33) "BIP143 rejects uncompressed public keys in P2WPKH or P2WSH"
               (Ok (mkTB (tb_network tb3) (tb_maximumFeeRate tb3)
                      [p2wpkh_signed_input P (tb_tx tb3) txin kp (hash160 P pk) balance]
                      (tb_prevTxMap tb3) (tb_tx tb3))))).
  { unfold spendFromP2WPKH_builder, bind. rewrite H. cbv beta iota.
    apply TB_sign_p2wpkh with (rest := []); auto; rewrite Htb; try reflexivity.
    simpl. rewrite (ECPair_fromWIF_network P wif _ kp Ek). reflexivity. }
  split; [exact Ek|]. split; [exact Hw|].
  split; [rewrite Htb; cbn [tb_inputs]; rewrite addInput_input_wpkh by exact Hl; reflexivity|].
  exists txin. split; [rewrite Htb; reflexivity | exact Hsign].
Qed.

(** C5: the witness of the single input of the transaction [spendFromP2WPKH]
    returns is the DER signature, with SIGHASH_ALL appended, of the BIP143
    digest over the scriptCode of the key's witness program and the amount
    [balance], followed by the public key. *)
Theorem spendFromP2WPKH_signs_bip143_digest (P : Prims) (txId : string) (out : Z) (address : string)
    (amount : Z) (wif changeAddress : string) (changeAmount balance : Z) (ni : js_string_arg)
    (tx : Transaction) :
  spendFromP2WPKH_tx P txId out address amount wif changeAddress changeAmount balance ni = Ok tx ->
  exists kp txin,
    ECPair_fromWIF P wif (getSelectedNetwork ni) = Ok kp /\ tx_ins tx = [txin]
    /\ let pk := getPublicKeyBuffer P kp in
       let witnessProgram := x00 :: x14 :: hash160 P pk in
       in_script txin = []
       /\ in_witness txin
          = [(ecdsa_der P (kp_d kp)
                (spec_witness_sighash P tx txin (spec_scriptCode witnessProgram) balance SIGHASH_ALL)
              ++ [x01])%list; pk].
Proof.
  intros H. unfold spendFromP2WPKH_tx, bind in H.
  destruct (spendFromP2WPKH_builder P _ _ _ _ _ _ _ _ _) as [tb|] eqn:Eb; try discriminate.
  unfold spendFromP2WPKH_builder, bind in Eb.
  destruct (spendFromP2WPKH_unsigned P _ _ _ _ _ _ _ _) as [[kp tb3]|] eqn:Eu; try discriminate.
  destruct (spendFromP2WPKH_unsigned_ok P _ _ _ _ _ _ _ _ _ _ Eu) as [Ek [Hl [_ [ds [cs [_ [_ Htb]]]]]]].
  set (txin3 := mkTxIn (rev (buffer_from_hex txId)) out [] DEFAULT_SEQUENCE []) in Htb.
  cbv beta iota in Eb.
  rewrite (TB_sign_p2wpkh P tb3 kp _ txin3 [] balance Hl eq_refl) in Eb;
    [| rewrite Htb; simpl; rewrite (ECPair_fromWIF_network P wif _ kp Ek); reflexivity
     | rewrite Htb; reflexivity | rewrite Htb; reflexivity].
  unfold throw_unless in Eb.
  destruct (Satoshi balance); [|discriminate].
  destruct (len_is (getPublicKeyBuffer P kp) 33); [|discriminate].
  injection Eb as <-.
  match type of H with
  | TB_build ?tb = _ =>
      destruct (TB_build_single tb _ txin3 tx eq_refl ltac:(rewrite Htb; reflexivity) H)
        as [t [script [wit [Ht [Hbi [Hsup ->]]]]]]
  end.
  simpl in Ht. injection Ht as <-.
  destruct (buildInput_signed _ _ _ script wit Hbi Hsup) as [_ [sg [pk [Hs [Hp [[Heq _]|[_ [-> ->]]]]]]]];
    [discriminate|].
  simpl in Hs, Hp. injection Hs as <-. injection Hp as <-.
  exists kp. eexists. split; [exact Ek|]. split; [reflexivity|].
  split; [reflexivity|]. rewrite Htb. reflexivity.
Qed.

Lemma buffer20 (h : buffer) : List.length h = 20%nat ->
  exists c0 c1 c2 c3 c4 c5 c6 c7 c8 c9 c10 c11 c12 c13 c14 c15 c16 c17 c18 c19,
    h = [c0; c1; c2; c3; c4; c5; c6; c7; c8; c9; c10; c11; c12; c13; c14; c15; c16; c17; c18; c19].
Proof.
  intros Hl.
  destruct h as [|c0 [|c1 [|c2 [|c3 [|c4 [|c5 [|c6 [|c7 [|c8 [|c9 [|c10 [|c11 [|c12 [|c13 [|c14 [|c15 [|c16 [|c17 [|c18 [|c19 [|? ?]]]]]]]]]]]]]]]]]]]]];
    simpl in Hl; try discriminate.
  repeat eexists.
Qed.

Lemma getSelectedNetwork_cases (ni : js_string_arg) :
  getSelectedNetwork ni = bitcoin_network \/ getSelectedNetwork ni = testnet_network.
Proof. destruct ni as [s|]; simpl; [destruct (String.eqb s "testnet")|]; auto. Qed.




Lemma scriptHash_output_encode_ok (h s : buffer) :
  scriptHash_output_encode h = Ok s -> List.length h = 20%nat /\ s = ([xa9; x14] ++ h ++ [x87])%list.
Proof.
  unfold scriptHash_output_encode, throw_unless, Hash160bit, len_is.
  destruct (Nat.eqb_spec (List.length h) 20) as [Hl|]; [|discriminate].
  intros H. inv_ok. split; [exact Hl|].
  exact (f_equal (cons xa9) (compile_data20 h [Op x87] Hl)).
Qed.

Lemma hash160_length (P : Prims) (b : buffer) :
  ripemd160_length_law P -> List.length (hash160 P b) = 20%nat.
Proof. intros Hr. apply Hr. Qed.


Lemma canModifyOutputs_addInput_input (P : Prims) (net : Network) (fee : Z)
    (pos : option buffer) (m : list string) (tx : Transaction) :
  __canModifyOutputs (mkTB net fee [addInput_input P pos] m tx) = true.
Proof.
  unfold __canModifyOutputs, addInput_input. simpl.
  destruct pos as [s|]; [|reflexivity].
  destruct (expandOutput P s None None) as [[pks|] st]; simpl; [|reflexivity].
  induction pks as [|? pks IH]; simpl; [reflexivity|]. exact IH.
Qed.

Lemma TB_addOutput_err (P : Prims) (tb : TxBuilder) (address : string) (value : Z) (e : string) :
  __canModifyOutputs tb = true -> toOutputScript P address (tb_network tb) = Err e ->
  TB_addOutput P tb address value = Err e.
Proof. intros Hc He. unfold TB_addOutput, throw_unless. rewrite Hc. simpl. rewrite He. reflexivity. Qed.

(** C2: when the destination or the change address does not decode on the
    selected network, [spendFromP2PKH] and [spendFromP2WPKH] fail, before
    signing, with the error [toOutputScript] raised inside
    [TransactionBuilder.addOutput], not with "invalid address" or
    "invalid change address": the unawaited [isValidAddress] promise is
    always truthy. *)
Theorem spend_undecodable_address_library_error (P : Prims) :
  (forall txId out address amount wif changeAddress changeAmount networkInput e,
    let network := getSelectedNetwork networkInput in
    toOutputScript P address network = Err e ->
    spendFromP2PKH P txId out address amount wif changeAddress changeAmount networkInput
    = bind (TB_addInput P (TB_new network) txId out None None) (fun _ => Err e))
  /\ (forall txId out address amount wif changeAddress changeAmount networkInput e,
    let network := getSelectedNetwork networkInput in
    toOutputScript P changeAddress network = Err e ->
    spendFromP2PKH P txId out address amount wif changeAddress changeAmount networkInput
    = bind (TB_addInput P (TB_new network) txId out None None) (fun r =>
        bind (TB_addOutput P (fst r) address amount) (fun _ => Err e)))
  /\ (forall txId out address amount wif changeAddress changeAmount balance networkInput e,
    let network := getSelectedNetwork networkInput in
    toOutputScript P address network = Err e ->
    spendFromP2WPKH P txId out address amount wif changeAddress changeAmount balance networkInput
    = bind (ECPair_fromWIF P wif network) (fun keyPair =>
        bind (witness_program_of P keyPair) (fun witnessPubKeyHash =>
        bind (TB_addInput P (TB_new network) txId out None (Some witnessPubKeyHash))
          (fun _ => Err e))))
  /\ (forall txId out address amount wif changeAddress changeAmount balance networkInput e,
    let network := getSelectedNetwork networkInput in
    toOutputScript P changeAddress network = Err e ->
    spendFromP2WPKH P txId out address amount wif changeAddress changeAmount balance networkInput
    = bind (ECPair_fromWIF P wif network) (fun keyPair =>
        bind (witness_program_of P keyPair) (fun witnessPubKeyHash =>
        bind (TB_addInput P (TB_new network) txId out None (Some witnessPubKeyHash)) (fun r =>
        bind (TB_addOutput P (fst r) address amount) (fun _ => Err e))))).
Proof.
  split; [|split; [|split]]; intros txId out address amount wif changeAddress changeAmount;
    [| | intros balance | intros balance]; intros networkInput e network He;
    unfold spendFromP2PKH, spendFromP2PKH_tx, spendFromP2PKH_builder,
      spendFromP2WPKH, spendFromP2WPKH_tx, spendFromP2WPKH_builder, spendFromP2WPKH_unsigned,
      checked_addOutput, truthy_object;
    fold network.
  - destruct (TB_addInput P (TB_new network) txId out None None) as [[tb vin]|err] eqn:Ha;
      [|reflexivity].
    apply TB_addInput_new in Ha. subst tb. cbn [bind fst snd].
    rewrite TB_addOutput_err with (e := e) by (exact He || apply canModifyOutputs_addInput_input).
    reflexivity.
  - destruct (TB_addInput P (TB_new network) txId out None None) as [[tb vin]|err] eqn:Ha;
      [|reflexivity].
    apply TB_addInput_new in Ha. subst tb. cbn [bind fst snd].
    destruct (TB_addOutput P _ address amount) as [[tb2 i]|err] eqn:Ho; [|reflexivity].
    apply TB_addOutput_ok in Ho. destruct Ho as [s [_ ->]]. cbn [bind fst snd tb_inputs tb_network].
    rewrite TB_addOutput_err with (e := e) by (exact He || apply canModifyOutputs_addInput_input).
    reflexivity.
  - simpl. destruct (ECPair_fromWIF P wif network) as [kp|err]; [|reflexivity]. simpl.
    unfold witness_program_of.
    destruct (witnessPubKeyHash_output_encode _) as [wp|err]; [|reflexivity]. simpl.
    destruct (TB_addInput P (TB_new network) txId out None (Some wp)) as [[tb vin]|err] eqn:Ha;
      [|reflexivity].
    apply TB_addInput_new in Ha. subst tb. cbn [bind fst snd].
    rewrite TB_addOutput_err with (e := e) by (exact He || apply canModifyOutputs_addInput_input).
    reflexivity.
  - simpl. destruct (ECPair_fromWIF P wif network) as [kp|err]; [|reflexivity]. simpl.
    unfold witness_program_of.
    destruct (witnessPubKeyHash_output_encode _) as [wp|err]; [|reflexivity]. simpl.
    destruct (TB_addInput P (TB_new network) txId out None (Some wp)) as [[tb vin]|err] eqn:Ha;
      [|reflexivity].
    apply TB_addInput_new in Ha. subst tb. cbn [bind fst snd].
    destruct (TB_addOutput P _ address amount) as [[tb2 i]|err] eqn:Ho; [|reflexivity].
    apply TB_addOutput_ok in Ho. destruct Ho as [s [_ ->]]. cbn [bind fst snd tb_inputs tb_network].
    rewrite TB_addOutput_err with (e := e) by (exact He || apply canModifyOutputs_addInput_input).
    reflexivity.
Qed.

Lemma hex_text_length (wp : buffer) :
  List.length (utf8_of_ascii_string (hex_of_buffer wp)) = (2 * List.length wp)%nat.
Proof.
  unfold utf8_of_ascii_string.
  induction wp as [|x wp IH]; [reflexivity|].
  change (S (S (List.length (list_byte_of_string (hex_of_buffer wp)))) = (2 * S (List.length wp))%nat).
  rewrite IH. lia.
Qed.

Lemma fromOutputScript_p2sh (P : Prims) (network : Network) (h : buffer) :
  List.length h = 20%nat ->
  fromOutputScript P ([xa9; x14] ++ h ++ [x87])%list network
  = Ok (toBase58Check P h (scriptHash network)).
Proof.
  intros Hl.
  destruct (buffer20 h Hl) as (c0 & c1 & c2 & c3 & c4 & c5 & c6 & c7 & c8 & c9 & c10 & c11 & c12 & c13 & c14 & c15 & c16 & c17 & c18 & c19 & ->).
  reflexivity.
Qed.

(** C1: the P2SH-P2WPKH address shared by [createPayToScriptHash_PayToWitnessPublicKeyHash],
    [createWallets], [createWalletsFromWIF] and [createHierarchicalDeterministic]
    is the Base58Check encoding of the HASH160 of the hexadecimal text of the
    witness program (twice as many bytes), not of its raw bytes. *)
Theorem p2shp2wpkh_hashes_hex_text (P : Prims) (witnessPubKeyHash : buffer) (network : Network)
    (r : string * string) :
  p2shp2wpkh_of_witness_program P witnessPubKeyHash network = Ok r ->
  fst r = toBase58Check P (hash160 P (utf8_of_ascii_string (hex_of_buffer witnessPubKeyHash)))
            (scriptHash network)
  /\ List.length (utf8_of_ascii_string (hex_of_buffer witnessPubKeyHash))
     = (2 * List.length witnessPubKeyHash)%nat.
Proof.
  unfold p2shp2wpkh_of_witness_program, bind. intros H.
  destruct (scriptHash_output_encode _) as [sh|] eqn:Hsh; [|discriminate].
  apply scriptHash_output_encode_ok in Hsh. destruct Hsh as [Hl ->].
  rewrite fromOutputScript_p2sh in H by exact Hl. inv_ok.
  split; [reflexivity | apply hex_text_length].
Qed.

(** [p2shp2wpkh_hashes_hex_text] on the toy testnet WIF: the 22-byte witness
    program is hashed as 44 bytes of hex text, and the address differs from
    the Base58Check encoding of the HASH160 of the program's bytes. *)
Lemma p2shp2wpkh_hashes_hex_text_witness :
  exists w witnessPubKeyHash r,
    createWalletsFromWIF Toy.prims Toy.testnet_wif (Some "testnet") = Ok w
    /\ witness_program_of Toy.prims (mkECPair 7 true testnet_network) = Ok witnessPubKeyHash
    /\ p2shp2wpkh_of_witness_program Toy.prims witnessPubKeyHash testnet_network = Ok r
    /\ w_p2shp2wpkh w = fst r
    /\ fst r = toBase58Check Toy.prims
                 (hash160 Toy.prims (utf8_of_ascii_string (hex_of_buffer witnessPubKeyHash)))
                 (scriptHash testnet_network)
    /\ List.length (utf8_of_ascii_string (hex_of_buffer witnessPubKeyHash)) = 44%nat
    /\ List.length witnessPubKeyHash = 22%nat
    /\ w_p2shp2wpkh w <> spec_p2shp2wpkh_address Toy.prims witnessPubKeyHash testnet_network.
Proof.
  eexists. eexists. eexists.
  split; [vm_compute; reflexivity|].
  split; [vm_compute; reflexivity|].
  split; [vm_compute; reflexivity|].
  split; [vm_compute; reflexivity|].
  split; [apply (p2shp2wpkh_hashes_hex_text Toy.prims _ testnet_network); vm_compute; reflexivity|].
  split; [vm_compute; reflexivity|].
  split; [vm_compute; reflexivity|].
  vm_compute. discriminate.
Defined.

(** ** The laws hold for the toy primitives *)

Lemma toy_ripemd160_length : ripemd160_length_law Toy.prims.
Proof.
  intros b. cbn [ripemd160 Toy.prims]. unfold Toy.ripemd160, Toy.pad.
  rewrite length_firstn, length_app, repeat_length. lia.
Qed.



(** ** Witnesses *)

(** [getSelectedNetwork_defaults_to_mainnet] at "regtest". *)
Lemma getSelectedNetwork_defaults_to_mainnet_witness :
  getSelectedNetwork (Some "regtest") = bitcoin_network
  /\ createWalletsFromWIF Toy.prims Toy.bitcoin_wif (Some "regtest")
     = createWalletsFromWIF Toy.prims Toy.bitcoin_wif (Some "bitcoin").
Proof.
  destruct (getSelectedNetwork_defaults_to_mainnet Toy.prims (Some "regtest"))
    as [H1 [_ [_ [_ [H5 _]]]]]; [discriminate|].
  split; [exact H1 | apply H5].
Defined.

(** [spend_one_input_two_outputs] on the toy testnet spends. *)
Lemma spend_one_input_two_outputs_witness :
  spendFromP2PKH_tx Toy.prims Toy.txid 0 Toy.dest_testnet 90000 Toy.testnet_wif
    Toy.change_testnet 9000 (Some "testnet") = Ok Toy.p2pkh_tx
  /\ List.length (tx_ins Toy.p2pkh_tx) = 1%nat
  /\ spendFromP2WPKH_tx Toy.prims Toy.txid 0 Toy.dest_testnet 90000 Toy.testnet_wif
       Toy.change_testnet 9000 100000 (Some "testnet") = Ok Toy.p2wpkh_tx
  /\ List.length (tx_ins Toy.p2wpkh_tx) = 1%nat.
Proof.
  assert (H1 : spendFromP2PKH_tx Toy.prims Toy.txid 0 Toy.dest_testnet 90000 Toy.testnet_wif
      Toy.change_testnet 9000 (Some "testnet") = Ok Toy.p2pkh_tx) by (vm_compute; reflexivity).
  assert (H2 : spendFromP2WPKH_tx Toy.prims Toy.txid 0 Toy.dest_testnet 90000 Toy.testnet_wif
      Toy.change_testnet 9000 100000 (Some "testnet") = Ok Toy.p2wpkh_tx)
    by (vm_compute; reflexivity).
  split; [exact H1|]. split.
  - exact (proj1 (proj2 (proj1 (spend_one_input_two_outputs Toy.prims) _ _ _ _ _ _ _ _ _ H1))).
  - split; [exact H2|].
    exact (proj1 (proj2 (proj2 (spend_one_input_two_outputs Toy.prims) _ _ _ _ _ _ _ _ _ _ H2))).
Defined.

(** [spendFromP2WPKH_signs_bip143_digest] on the toy testnet spend. *)
Lemma spendFromP2WPKH_signs_bip143_digest_witness :
  exists kp txin,
    ECPair_fromWIF Toy.prims Toy.testnet_wif testnet_network = Ok kp
    /\ tx_ins Toy.p2wpkh_tx = [txin]
    /\ in_witness txin
       = [(ecdsa_der Toy.prims (kp_d kp)
             (spec_witness_sighash Toy.prims Toy.p2wpkh_tx txin
                (spec_scriptCode (x00 :: x14 :: hash160 Toy.prims (getPublicKeyBuffer Toy.prims kp)))
                100000 SIGHASH_ALL) ++ [x01]); getPublicKeyBuffer Toy.prims kp].
Proof.
  assert (H : spendFromP2WPKH_tx Toy.prims Toy.txid 0 Toy.dest_testnet 90000 Toy.testnet_wif
      Toy.change_testnet 9000 100000 (Some "testnet") = Ok Toy.p2wpkh_tx)
    by (vm_compute; reflexivity).
  destruct (spendFromP2WPKH_signs_bip143_digest Toy.prims _ _ _ _ _ _ _ _ _ _ H)
    as [kp [txin [Hk [Hi [_ Hw]]]]].
  exists kp, txin. split; [exact Hk|]. split; [exact Hi | exact Hw].
Defined.

(** [spendFromP2WPKH_script_from_key] on the toy testnet spend. *)
Lemma spendFromP2WPKH_script_from_key_witness :
  spendFromP2WPKH_unsigned Toy.prims Toy.txid 0 Toy.dest_testnet 90000 Toy.testnet_wif
    Toy.change_testnet 9000 (Some "testnet") = Ok Toy.p2wpkh_unsigned
  /\ witness_program_of Toy.prims (fst Toy.p2wpkh_unsigned)
     = Ok (x00 :: x14 :: hash160 Toy.prims (getPublicKeyBuffer Toy.prims (fst Toy.p2wpkh_unsigned)))
  /\ tb_inputs (snd Toy.p2wpkh_unsigned)
     = [mkBInput (Some (x00 :: x14 :: hash160 Toy.prims
                          (getPublicKeyBuffer Toy.prims (fst Toy.p2wpkh_unsigned))))
          (Some P2WPKH) None (Some []) (Some []) None None None].
Proof.
  assert (H : spendFromP2WPKH_unsigned Toy.prims Toy.txid 0 Toy.dest_testnet 90000 Toy.testnet_wif
      Toy.change_testnet 9000 (Some "testnet")
      = Ok (fst Toy.p2wpkh_unsigned, snd Toy.p2wpkh_unsigned)) by (vm_compute; reflexivity).
  destruct (spendFromP2WPKH_script_from_key Toy.prims _ _ _ _ _ _ _ 100000 _ _ _ H)
    as [_ [Hw [Hi _]]].
  split; [exact H|]. split; [exact Hw | exact Hi].
Defined.


(** [spend_undecodable_address_library_error] with the destination "bogus"
    and, for [spendFromP2WPKH], the change address "bogus". *)
Lemma spend_undecodable_address_library_error_witness :
  toOutputScript Toy.prims "bogus" testnet_network = Err "bogus has no matching Script"
  /\ spendFromP2PKH Toy.prims Toy.txid 0 "bogus" 90000 Toy.testnet_wif Toy.change_testnet 9000
       (Some "testnet")
     = bind (TB_addInput Toy.prims (TB_new testnet_network) Toy.txid 0 None None)
         (fun _ => Err "bogus has no matching Script")
  /\ spendFromP2PKH Toy.prims Toy.txid 0 "bogus" 90000 Toy.testnet_wif Toy.change_testnet 9000
       (Some "testnet") = Err "bogus has no matching Script"
  /\ spendFromP2WPKH Toy.prims Toy.txid 0 Toy.dest_testnet 90000 Toy.testnet_wif "bogus" 9000
       100000 (Some "testnet") = Err "bogus has no matching Script".
Proof.
  assert (He : toOutputScript Toy.prims "bogus" testnet_network = Err "bogus has no matching Script")
    by (vm_compute; reflexivity).
  destruct (spend_undecodable_address_library_error Toy.prims) as [H1 [_ [_ H4]]].
  split; [exact He|]. split.
  - exact (H1 Toy.txid 0 "bogus" 90000 Toy.testnet_wif Toy.change_testnet 9000 (Some "testnet") _ He).
  - split.
    + rewrite (H1 Toy.txid 0 "bogus" 90000 Toy.testnet_wif Toy.change_testnet 9000 (Some "testnet") _ He).
      vm_compute. reflexivity.
    + rewrite (H4 Toy.txid 0 Toy.dest_testnet 90000 Toy.testnet_wif "bogus" 9000 100000
        (Some "testnet") _ He).
      vm_compute. reflexivity.
Defined.

(** ** Further properties of the wrapper *)

Lemma wallets_of_keyPair_wif (P : Prims) (wif : string) (kp : ECPair) (net : Network) (w : Wallets) :
  wallets_of_keyPair P wif kp net = Ok w -> w_wif w = wif.
Proof.
  unfold wallets_of_keyPair, bind. intros H.
  repeat (break_match_hyp; try discriminate). inv_ok. reflexivity.
Qed.

(** X1: the WIF of a wallet made by [createWallets] re-imports, through
    [createWalletsFromWIF] on the same network, to the very same wallet. *)
Theorem createWallets_wif_reimport (P : Prims) (networkInput : js_string_arg) (rng rest : RngState)
    (w : Wallets) :
  createWallets P networkInput rng = (Ok w, rest) ->
  createWalletsFromWIF P (w_wif w) networkInput = Ok w.
Proof.
  unfold createWallets, st_bind, st_lift. intros H.
  destruct (makeRandom _ rng) as [[kp0|e] s1]; [|discriminate].
  destruct (ECPair_fromWIF P (toWIF P kp0) _) as [kp|e] eqn:Ek; [|discriminate].
  destruct (wallets_of_keyPair P (toWIF P kp0) kp _) as [w'|e] eqn:Ew; [|discriminate].
  injection H as <- _.
  rewrite (wallets_of_keyPair_wif _ _ _ _ _ Ew).
  unfold createWalletsFromWIF, bind. rewrite Ek. exact Ew.
Qed.

Lemma buffer_from_hex_byte (x : byte) (r : string) :
  buffer_from_hex (String (hex_char (byte_to_Z x / 16)) (String (hex_char (byte_to_Z x mod 16)) r))
  = x :: buffer_from_hex r.
Proof. destruct x; reflexivity. Qed.

Lemma hex_of_buffer_roundtrip (b : buffer) :
  buffer_from_hex (hex_of_buffer b) = b
  /\ String.length (hex_of_buffer b) = (2 * List.length b)%nat.
Proof.
  induction b as [|x b [IH1 IH2]]; [split; reflexivity|].
  split.
  - cbn [hex_of_buffer]. rewrite buffer_from_hex_byte, IH1. reflexivity.
  - cbn [hex_of_buffer String.length List.length]. rewrite IH2. lia.
Qed.

(** X14: a seed under 16 or over 64 bytes makes
    [createHierarchicalDeterministic] fail before any derivation. *)
Theorem createHierarchicalDeterministic_seed_length (P : Prims) (seed : string)
    (purpose account receivingOrChange index : Z) (networkInput : js_string_arg) (rng : RngState) :
  ((List.length (buffer_from_hex seed) < 16)%nat ->
   createHierarchicalDeterministic P seed purpose account receivingOrChange index networkInput rng
   = (Err "Seed should be at least 128 bits", rng))
  /\ ((64 < List.length (buffer_from_hex seed))%nat ->
   createHierarchicalDeterministic P seed purpose account receivingOrChange index networkInput rng
   = (Err "Seed should be at most 512 bits", rng)).
Proof.
  unfold createHierarchicalDeterministic, hd_keyPair_at, HDNode_fromSeedHex, HDNode_fromSeedBuffer,
    st_bind, st_lift, throw_unless, bind.
  split; intros Hl.
  - replace (16 <=? List.length (buffer_from_hex seed))%nat with false
      by (symmetry; apply Nat.leb_gt; exact Hl). reflexivity.
  - replace (16 <=? List.length (buffer_from_hex seed))%nat with true
      by (symmetry; apply Nat.leb_le; lia).
    replace (List.length (buffer_from_hex seed) <=? 64)%nat with false
      by (symmetry; apply Nat.leb_gt; exact Hl). reflexivity.
Qed.

Lemma TB_addInput_new_length (P : Prims) (net : Network) (txId : string) (out : Z)
    (pos : option buffer) :
  List.length (buffer_from_hex txId) <> 32%nat ->
  TB_addInput P (TB_new net) txId out None pos = Err "Expected Buffer(Length: 32)".
Proof.
  intros Hl. unfold TB_addInput, throw_unless, len_is. simpl.
  rewrite length_rev. destruct (Nat.eqb_spec (List.length (buffer_from_hex txId)) 32); [lia|].
  reflexivity.
Qed.

Lemma TB_addInput_new_coinbase (P : Prims) (net : Network) (txId : string) (out : Z)
    (pos : option buffer) :
  buffer_from_hex txId = repeat x00 32 ->
  TB_addInput P (TB_new net) txId out None pos = Err "coinbase inputs not supported".
Proof. intros H. unfold TB_addInput, throw_unless. rewrite H. reflexivity. Qed.

Lemma spend_addInput_err (P : Prims) (txId : string) (out : Z) (address : string) (amount : Z)
    (wif changeAddress : string) (changeAmount balance : Z) (networkInput : js_string_arg) (e : string) :
  let network := getSelectedNetwork networkInput in
  (forall pos, TB_addInput P (TB_new network) txId out None pos = Err e) ->
  spendFromP2PKH P txId out address amount wif changeAddress changeAmount networkInput = Err e
  /\ spendFromP2WPKH P txId out address amount wif changeAddress changeAmount balance networkInput
     = bind (ECPair_fromWIF P wif network) (fun keyPair =>
         bind (witness_program_of P keyPair) (fun _ => Err e)).
Proof.
  intros network H. split.
  - unfold spendFromP2PKH, spendFromP2PKH_tx, spendFromP2PKH_builder. fold network.
    rewrite H. reflexivity.
  - unfold spendFromP2WPKH, spendFromP2WPKH_tx, spendFromP2WPKH_builder, spendFromP2WPKH_unsigned.
    fold network. unfold witness_program_of.
    destruct (ECPair_fromWIF P wif network) as [kp|]; [|reflexivity]. simpl.
    destruct (witnessPubKeyHash_output_encode _) as [wp|]; [|reflexivity]. simpl.
    rewrite H. reflexivity.
Qed.

(** X8: a transaction id that is not 32 bytes of hex, or is all zeros,
    makes both spend functions fail in [addInput]. *)
Theorem spend_txId_errors (P : Prims) (txId : string) (out : Z) (address : string) (amount : Z)
    (wif changeAddress : string) (changeAmount balance : Z) (networkInput : js_string_arg) :
  let network := getSelectedNetwork networkInput in
  (List.length (buffer_from_hex txId) <> 32%nat ->
   spendFromP2PKH P txId out address amount wif changeAddress changeAmount networkInput
   = Err "Expected Buffer(Length: 32)"
   /\ spendFromP2WPKH P txId out address amount wif changeAddress changeAmount balance networkInput
      = bind (ECPair_fromWIF P wif network) (fun keyPair =>
          bind (witness_program_of P keyPair) (fun _ => Err "Expected Buffer(Length: 32)")))
  /\ (buffer_from_hex txId = repeat x00 32 ->
   spendFromP2PKH P txId out address amount wif changeAddress changeAmount networkInput
   = Err "coinbase inputs not supported"
   /\ spendFromP2WPKH P txId out address amount wif changeAddress changeAmount balance networkInput
      = bind (ECPair_fromWIF P wif network) (fun keyPair =>
          bind (witness_program_of P keyPair) (fun _ => Err "coinbase inputs not supported"))).
Proof.
  intros network. split; intros H; apply spend_addInput_err; intros pos.
  - apply TB_addInput_new_length. exact H.
  - apply TB_addInput_new_coinbase. exact H.
Qed.

Lemma byte_to_Z_b8 (z : Z) : byte_to_Z (b8 z) = z mod 256.
Proof.
  assert (Hb : 0 <= z mod 256 < 256) by (apply Z.mod_pos_bound; lia).
  unfold b8, byte_to_Z. destruct (Byte.of_N (Z.to_N (z mod 256))) as [b|] eqn:E.
  - apply Byte.to_of_N in E. rewrite E. apply Z2N.id. lia.
  - apply Byte.of_N_None_iff in E. apply N2Z.inj_lt in E. rewrite Z2N.id in E by lia. lia.
Qed.

Lemma Z_of_be_snoc (l : buffer) (x : byte) : Z_of_be (l ++ [x]) = Z_of_be l * 256 + byte_to_Z x.
Proof. unfold Z_of_be. rewrite fold_left_app. reflexivity. Qed.

Lemma Z_of_be_be_bytes (n : nat) (z : Z) : Z_of_be (be_bytes n z) = z mod 2 ^ (8 * Z.of_nat n).
Proof.
  revert z. induction n as [|n IH]; intros z.
  - simpl. symmetry. apply Z.mod_1_r.
  - unfold be_bytes. cbn [le_bytes rev]. rewrite Z_of_be_snoc. fold (be_bytes n (Z.shiftr z 8)).
    rewrite IH, byte_to_Z_b8, Z.shiftr_div_pow2 by lia.
    replace (2 ^ (8 * Z.of_nat (S n))) with (2 ^ 8 * 2 ^ (8 * Z.of_nat n))
      by (rewrite <- Z.pow_add_r by lia; f_equal; lia).
    change (2 ^ 8) with 256.
    assert (Hc : 0 < 2 ^ (8 * Z.of_nat n)) by (apply Z.pow_pos_nonneg; lia).
    set (c := 2 ^ (8 * Z.of_nat n)) in *.
    pose proof (Z.div_mod z 256). pose proof (Z.div_mod (z / 256) c).
    pose proof (Z.mod_pos_bound z 256). pose proof (Z.mod_pos_bound (z / 256) c Hc).
    apply (Z.mod_unique z (256 * c) (z / 256 / c)); [left|]; nia.
Qed.

Lemma length_le_bytes (n : nat) (z : Z) : List.length (le_bytes n z) = n.
Proof. revert z. induction n; intros z; simpl; [reflexivity|]. rewrite IHn. reflexivity. Qed.

Lemma length_be_bytes (n : nat) (z : Z) : List.length (be_bytes n z) = n.
Proof. unfold be_bytes. rewrite length_rev. apply length_le_bytes. Qed.

Lemma secp256k1_n_lt : secp256k1_n < 2 ^ 256.
Proof. unfold secp256k1_n. reflexivity. Qed.

Lemma ECPair_fromWIF_toWIF (P : Prims) (kp : ECPair) (network : Network) :
  wif_roundtrip_law P -> 0 < kp_d kp < secp256k1_n -> 0 <= wif (kp_network kp) < 256 ->
  ECPair_fromWIF P (toWIF P kp) network
  = if wif (kp_network kp) =? wif network then Ok (mkECPair (kp_d kp) (kp_compressed kp) network)
    else Err "Invalid network version".
Proof.
  intros Hw Hd Hv. pose proof secp256k1_n_lt.
  unfold ECPair_fromWIF, toWIF. rewrite Hw by lia.
  destruct (wif (kp_network kp) =? wif network); [|reflexivity]. cbn [negb].
  rewrite Z_of_be_be_bytes, Z.mod_small by (cbn; lia).
  unfold ECPair_new.
  replace (kp_d kp <=? 0) with false by (symmetry; apply Z.leb_gt; lia).
  replace (secp256k1_n <=? kp_d kp) with false by (symmetry; apply Z.leb_gt; lia).
  reflexivity.
Qed.

(** X4: [ECPair.makeRandom] as called by the wallet constructors keeps the
    first 32-byte draw in [1, n-1], skips the draws before it, and fails only
    when no draw is valid. *)
Theorem makeRandom_first_valid_draw (network : Network) (rng : RngState) :
  match makeRandom network rng with
  | (Ok kp, rest) =>
      exists skipped buf,
        rng = skipped ++ buf :: rest
        /\ Forall (fun b => Z_of_be b <= 0 \/ secp256k1_n <= Z_of_be b) skipped
        /\ 0 < Z_of_be buf < secp256k1_n
        /\ kp = mkECPair (Z_of_be buf) true network
  | (Err e, rest) =>
      e = "entropy source exhausted" /\ rest = []
      /\ Forall (fun b => Z_of_be b <= 0 \/ secp256k1_n <= Z_of_be b) rng
  end.
Proof.
  induction rng as [|buf rng IH]; [repeat split; constructor|].
  cbn [makeRandom].
  destruct ((Z_of_be buf <=? 0) || (secp256k1_n <=? Z_of_be buf)) eqn:E.
  - assert (Hb : Z_of_be buf <= 0 \/ secp256k1_n <= Z_of_be buf).
    { apply orb_true_iff in E. destruct E as [E|E]; apply Z.leb_le in E; auto. }
    destruct (makeRandom network rng) as [[kp|e] rest].
    + destruct IH as (skipped & b & -> & Hs & Hd & Hk).
      exists (buf :: skipped), b. split; [reflexivity|]. split; [constructor; assumption|]. auto.
    + destruct IH as (He & Hr & Hs). split; [exact He|]. split; [exact Hr|]. constructor; assumption.
  - apply orb_false_iff in E. destruct E as [E1 E2].
    apply Z.leb_gt in E1. apply Z.leb_gt in E2.
    exists [], buf. repeat split; auto; lia.
Qed.

Lemma makeRandom_ok (network : Network) (rng rest : RngState) (kp : ECPair) :
  makeRandom network rng = (Ok kp, rest) ->
  0 < kp_d kp < secp256k1_n /\ kp_compressed kp = true /\ kp_network kp = network.
Proof.
  revert rest kp. induction rng as [|buf rng IH]; intros rest kp H; [discriminate|].
  cbn [makeRandom] in H.
  destruct ((Z_of_be buf <=? 0) || (secp256k1_n <=? Z_of_be buf)) eqn:E; [eauto|].
  apply orb_false_iff in E. destruct E as [E1 E2].
  apply Z.leb_gt in E1. apply Z.leb_gt in E2. inv_ok. simpl. auto.
Qed.

Lemma network_wif_range (ni : js_string_arg) : 0 <= wif (getSelectedNetwork ni) < 256.
Proof. destruct (getSelectedNetwork_cases ni) as [-> | ->]; simpl; lia. Qed.

(** X3: the WIF of a wallet made by [createWallets] for one network is
    refused by [createWalletsFromWIF] for the other network. *)
Theorem createWallets_wif_other_network (P : Prims) (networkInput networkInput' : js_string_arg)
    (rng rest : RngState) (w : Wallets) :
  wif_roundtrip_law P ->
  createWallets P networkInput rng = (Ok w, rest) ->
  getSelectedNetwork networkInput' <> getSelectedNetwork networkInput ->
  createWalletsFromWIF P (w_wif w) networkInput' = Err "Invalid network version".
Proof.
  intros Hw H Hn.
  unfold createWallets, st_bind, st_lift in H.
  destruct (makeRandom _ rng) as [[kp0|e] s1] eqn:Em; [|discriminate].
  destruct (ECPair_fromWIF P (toWIF P kp0) _) as [kp|e] eqn:Ek; [|discriminate].
  destruct (wallets_of_keyPair P (toWIF P kp0) kp _) as [w'|e] eqn:Ew; [|discriminate].
  injection H as <- _.
  assert (Hwif : w_wif w' = toWIF P kp0).
  { unfold wallets_of_keyPair, bind in Ew. repeat (break_match_hyp; try discriminate). inv_ok.
    reflexivity. }
  destruct (makeRandom_ok _ _ _ _ Em) as (Hd & _ & Hnet).
  unfold createWalletsFromWIF, bind. rewrite Hwif.
  rewrite ECPair_fromWIF_toWIF by (rewrite ?Hnet; auto using network_wif_range).
  rewrite Hnet.
  replace (wif (getSelectedNetwork networkInput) =? wif (getSelectedNetwork networkInput')) with false;
    [reflexivity|].
  symmetry. apply Z.eqb_neq.
  destruct (getSelectedNetwork_cases networkInput) as [E1|E1], (getSelectedNetwork_cases networkInput') as [E2|E2];
    rewrite E1, E2 in *; simpl; congruence.
Qed.

Lemma toy_wif_roundtrip : wif_roundtrip_law Toy.prims.
Proof.
  intros v d c Hv Hd. cbn [wif_decode wif_encode Toy.prims].
  unfold Toy.wif_decode, Toy.wif_encode. cbn [Ascii.eqb Bool.eqb].
  rewrite list_byte_of_string_of_list_byte, byte_to_Z_b8, Z.mod_small by lia.
  pose proof (length_be_bytes 32 d) as Hl.
  destruct c.
  - unfold len_is. rewrite length_app, Hl, last_last. cbn.
    reflexivity.
  - unfold len_is. rewrite app_nil_r, Hl. reflexivity.
Qed.

Lemma witness_program_ok (P : Prims) (kp : ECPair) :
  ripemd160_length_law P ->
  witness_program_of P kp = Ok (x00 :: x14 :: hash160 P (getPublicKeyBuffer P kp)).
Proof.
  intros Hr. unfold witness_program_of, witnessPubKeyHash_output_encode, throw_unless, Hash160bit, len_is.
  set (h := hash160 P _). assert (Hl : List.length h = 20%nat) by (apply hash160_length; exact Hr).
  rewrite Hl. cbn [Nat.eqb]. change (compile [Op x00; Data h]) with (x00 :: compile [Data h]).
  rewrite compile_push20 by exact Hl. reflexivity.
Qed.

Lemma fromOutputScript_wpkh (P : Prims) (h : buffer) (network : Network) :
  List.length h = 20%nat ->
  fromOutputScript P (x00 :: x14 :: h) network = Ok (toBech32 P h 0 (bech32 network)).
Proof.
  intros Hl. destruct (buffer20 h Hl) as (c0 & c1 & c2 & c3 & c4 & c5 & c6 & c7 & c8 & c9 & c10 & c11 & c12
    & c13 & c14 & c15 & c16 & c17 & c18 & c19 & ->). reflexivity.
Qed.

Lemma p2shp2wpkh_ok (P : Prims) (wp : buffer) (network : Network) :
  ripemd160_length_law P ->
  exists a, p2shp2wpkh_of_witness_program P wp network = Ok (a, hex_of_buffer wp).
Proof.
  intros Hr. unfold p2shp2wpkh_of_witness_program, scriptHash_output_encode, throw_unless, Hash160bit, len_is.
  set (h := hash160 P _). assert (Hl : List.length h = 20%nat) by (apply hash160_length; exact Hr).
  rewrite Hl. cbn [Nat.eqb bind]. exists (toBase58Check P h (scriptHash network)).
  change (compile [Op xa9; Data h; Op x87]) with (xa9 :: compile [Data h; Op x87]).
  rewrite compile_data20 by exact Hl.
  change (xa9 :: x14 :: h ++ compile [Op x87]) with ([xa9; x14] ++ h ++ [x87]).
  rewrite fromOutputScript_p2sh by exact Hl. reflexivity.
Qed.

(** X2: on the same entropy, [createLegacyWallet], [createBech32Wallet]
    and [createSegwitWallet] return the same WIF and address as [createWallets]. *)
Theorem single_address_wallets_match_createWallets (P : Prims) (networkInput : js_string_arg)
    (rng : RngState) :
  ripemd160_length_law P ->
  (forall lw rest, createLegacyWallet P networkInput rng = (Ok lw, rest) ->
     exists w, createWallets P networkInput rng = (Ok w, rest)
     /\ w_p2pkh w = lw_p2pkh lw /\ w_wif w = lw_wif lw)
  /\ (forall bw rest, createBech32Wallet P networkInput rng = (Ok bw, rest) ->
     exists w, createWallets P networkInput rng = (Ok w, rest)
     /\ w_p2wpkh w = bw_p2wpkh bw /\ w_wif w = bw_wif bw)
  /\ (forall sw rest, createSegwitWallet P networkInput rng = (Ok sw, rest) ->
     exists w, createWallets P networkInput rng = (Ok w, rest)
     /\ w_p2shp2wpkh w = sw_p2shp2wpkh sw /\ w_witnessPubKeyHashHex w = sw_witnessPubKeyHashHex sw
     /\ w_wif w = sw_wif sw).
Proof.
  intros Hr.
  unfold createLegacyWallet, createPayToPublicKeyHashWallet, createBech32Wallet,
    createPayToWitnessPublicKeyHash, createSegwitWallet, createPayToScriptHash_PayToWitnessPublicKeyHash,
    createWallets, st_bind, st_lift, st_ret.
  set (network := getSelectedNetwork networkInput).
  destruct (makeRandom network rng) as [[kp0|e] s1]; [|repeat split; intros; discriminate].
  destruct (ECPair_fromWIF P (toWIF P kp0) network) as [kp|e]; [|repeat split; intros; discriminate].
  pose proof (witness_program_ok P kp Hr) as Hwp.
  set (h := hash160 P (getPublicKeyBuffer P kp)) in Hwp.
  assert (Hl : List.length h = 20%nat) by (apply hash160_length; exact Hr).
  pose proof (fromOutputScript_wpkh P h network Hl) as Hf.
  destruct (p2shp2wpkh_ok P (x00 :: x14 :: h) network Hr) as [a Ha].
  unfold wallets_of_keyPair. rewrite Hwp. cbn [bind]. rewrite Hf. cbn [bind]. rewrite Ha. cbn [bind fst snd].
  split; [|split].
  - intros lw rest H. inv_ok. eexists. split; [reflexivity|]. split; reflexivity.
  - intros bw rest H. inv_ok. eexists. split; [reflexivity|]. split; reflexivity.
  - intros sw rest H. inv_ok. eexists. split; [reflexivity|]. repeat split; reflexivity.
Qed.



Lemma slice_3_23 (h : buffer) : List.length h = 20%nat ->
  slice 3 23 ([x76; xa9; x14] ++ h ++ [x88; xac]) = h.
Proof.
  intros Hl. destruct (buffer20 h Hl) as (c0 & c1 & c2 & c3 & c4 & c5 & c6 & c7 & c8 & c9 & c10 & c11 & c12
    & c13 & c14 & c15 & c16 & c17 & c18 & c19 & ->). reflexivity.
Qed.

Lemma TB_sign_p2pkh (P : Prims) (tb : TxBuilder) (kp : ECPair) (txin : TxIn) (rest : list TxIn) :
  ripemd160_length_law P ->
  net_name (kp_network kp) = net_name (tb_network tb) ->
  tb_inputs tb = [addInput_input P None] ->
  tx_ins (tb_tx tb) = txin :: rest ->
  TB_sign P tb 0 kp None
  = Ok (mkTB (tb_network tb) (tb_maximumFeeRate tb)
          [p2pkh_signed_input P (tb_tx tb) kp (hash160 P (getPublicKeyBuffer P kp))]
          (tb_prevTxMap tb) (tb_tx tb)).
Proof.
  intros Hr Hn Hin Htx.
  assert (Hl : List.length (hash160 P (getPublicKeyBuffer P kp)) = 20%nat) by (apply hash160_length; exact Hr).
  set (pk := getPublicKeyBuffer P kp) in *. set (h := hash160 P pk) in *.
  unfold TB_sign. unfold throw_unless at 1. rewrite Hn, String.eqb_refl, Hin.
  simpl nth_error. cbv iota beta zeta.
  unfold addInput_input. simpl canSign. cbv iota beta zeta. cbn [bind].
  unfold prepareInput. cbn [bi_prevOutType empty_input]. fold h.
  rewrite pubKeyHash_output_encode_20 by exact Hl. cbn [bind].
  unfold spec_scriptCode. cbn [skipn].
  unfold expandOutput. cbn [String.eqb P2PKH]. try rewrite String.eqb_refl.
  rewrite slice_3_23 by exact Hl. fold h. rewrite buffer_eqb_refl. cbv iota beta zeta.
  cbn [bind]. unfold P2WPKH, P2PKH. cbn [String.eqb Ascii.eqb Bool.eqb andb].
  unfold throw_unless. cbn [canSign bi_prevOutScript bi_signScript bi_pubKeys bi_signatures bi_witness
    List.length map Nat.eqb Nat.ltb Nat.leb andb]. cbn [bind bi_witness bi_value bi_signScript bi_pubKeys bi_signatures bi_signType].
  simpl. rewrite buffer_eqb_refl. simpl. rewrite andb_false_r. simpl.
  reflexivity.
Qed.

Lemma checked_addOutput_satoshi (P : Prims) (tb tb' : TxBuilder) (address : string) (value : Z)
    (ni : js_string_arg) (msg : string) :
  checked_addOutput P tb address value ni msg = Ok tb' -> Satoshi value = true.
Proof.
  rewrite checked_addOutput_eq. unfold TB_addOutput, tx_addOutput, throw_unless, bind.
  intros H. repeat (break_match_hyp; try discriminate). reflexivity.
Qed.

Lemma virtualSize_nonneg (tx : Transaction) : 0 <= virtualSize tx.
Proof. unfold virtualSize, byteLength. apply Z.div_pos; lia. Qed.

Lemma spendFromP2PKH_builder_ok (P : Prims) (txId : string) (out : Z) (address : string) (amount : Z)
    (wif changeAddress : string) (changeAmount : Z) (ni : js_string_arg) (tb : TxBuilder) :
  ripemd160_length_law P ->
  spendFromP2PKH_builder P txId out address amount wif changeAddress changeAmount ni = Ok tb ->
  let net := getSelectedNetwork ni in
  exists kp ds cs,
    ECPair_fromWIF P wif net = Ok kp
    /\ toOutputScript P address net = Ok ds /\ toOutputScript P changeAddress net = Ok cs
    /\ Satoshi amount = true /\ Satoshi changeAmount = true
    /\ let tx3 := mkTx 1 0 [mkTxIn (rev (buffer_from_hex txId)) out [] DEFAULT_SEQUENCE []]
                    [mkTxOut ds amount; mkTxOut cs changeAmount] in
       tb = mkTB net 2500 [p2pkh_signed_input P tx3 kp (hash160 P (getPublicKeyBuffer P kp))]
              [hex_of_buffer (rev (buffer_from_hex txId)) +++ ":" +++ Z_to_string out] tx3.
Proof.
  intros Hr H net. unfold spendFromP2PKH_builder, bind in H. fold net in H.
  destruct (TB_addInput P _ _ _ _ _) as [r|] eqn:E1; try discriminate.
  destruct (checked_addOutput P (fst r) address _ _ _) as [tb2|] eqn:E2; try discriminate.
  destruct (checked_addOutput P tb2 changeAddress _ _ _) as [tb3|] eqn:E3; try discriminate.
  destruct (ECPair_fromWIF P wif net) as [kp|] eqn:Ek; try discriminate.
  destruct (add_two_outputs P _ _ _ _ _ _ _ _ _ r tb2 tb3 E1 E2 E3) as [ds [cs [Hds [Hcs Htb]]]].
  exists kp, ds, cs. split; [reflexivity|]. split; [exact Hds|]. split; [exact Hcs|].
  split; [exact (checked_addOutput_satoshi _ _ _ _ _ _ _ E2)|].
  split; [exact (checked_addOutput_satoshi _ _ _ _ _ _ _ E3)|].
  rewrite (TB_sign_p2pkh P tb3 kp (mkTxIn (rev (buffer_from_hex txId)) out [] DEFAULT_SEQUENCE []) [] Hr)
    in H; [| rewrite Htb; simpl; rewrite (ECPair_fromWIF_network P wif _ kp Ek); reflexivity
           | rewrite Htb; reflexivity | rewrite Htb; reflexivity].
  injection H as <-. rewrite Htb. reflexivity.
Qed.

Lemma spendFromP2WPKH_unsigned_satoshi (P : Prims) (txId : string) (out : Z) (address : string)
    (amount : Z) (wif changeAddress : string) (changeAmount : Z) (ni : js_string_arg)
    (kp : ECPair) (tb3 : TxBuilder) :
  spendFromP2WPKH_unsigned P txId out address amount wif changeAddress changeAmount ni = Ok (kp, tb3) ->
  Satoshi amount = true /\ Satoshi changeAmount = true.
Proof.
  intros H. unfold spendFromP2WPKH_unsigned, bind in H.
  repeat (break_match_hyp; try discriminate).
  split; eapply checked_addOutput_satoshi; eassumption.
Qed.

Lemma spendFromP2WPKH_builder_ok (P : Prims) (txId : string) (out : Z) (address : string) (amount : Z)
    (wif changeAddress : string) (changeAmount balance : Z) (ni : js_string_arg) (tb : TxBuilder) :
  spendFromP2WPKH_builder P txId out address amount wif changeAddress changeAmount balance ni = Ok tb ->
  let net := getSelectedNetwork ni in
  exists kp ds cs,
    ECPair_fromWIF P wif net = Ok kp
    /\ toOutputScript P address net = Ok ds /\ toOutputScript P changeAddress net = Ok cs
    /\ Satoshi amount = true /\ Satoshi changeAmount = true /\ Satoshi balance = true
    /\ let txin3 := mkTxIn (rev (buffer_from_hex txId)) out [] DEFAULT_SEQUENCE [] in
       let tx3 := mkTx 1 0 [txin3] [mkTxOut ds amount; mkTxOut cs changeAmount] in
       tb = mkTB net 2500 [p2wpkh_signed_input P tx3 txin3 kp (hash160 P (getPublicKeyBuffer P kp)) balance]
              [hex_of_buffer (rev (buffer_from_hex txId)) +++ ":" +++ Z_to_string out] tx3.
Proof.
  intros H net. unfold spendFromP2WPKH_builder, bind in H.
  destruct (spendFromP2WPKH_unsigned P _ _ _ _ _ _ _ _) as [[kp tb3]|] eqn:Eu; try discriminate.
  destruct (spendFromP2WPKH_unsigned_satoshi P _ _ _ _ _ _ _ _ _ _ Eu) as [Sa Sc].
  destruct (spendFromP2WPKH_unsigned_ok P _ _ _ _ _ _ _ _ _ _ Eu) as [Ek [Hl [_ [ds [cs [Hds [Hcs Htb]]]]]]].
  set (txin3 := mkTxIn (rev (buffer_from_hex txId)) out [] DEFAULT_SEQUENCE []) in Htb.
  cbv beta iota in H.
  rewrite (TB_sign_p2wpkh P tb3 kp _ txin3 [] balance Hl eq_refl) in H;
    [| rewrite Htb; simpl; rewrite (ECPair_fromWIF_network P wif _ kp Ek); reflexivity
     | rewrite Htb; reflexivity | rewrite Htb; reflexivity].
  unfold throw_unless in H.
  destruct (Satoshi balance) eqn:Sb; [|discriminate].
  destruct (len_is (getPublicKeyBuffer P kp) 33); [|discriminate].
  injection H as <-.
  exists kp, ds, cs. repeat (split; [first [assumption | reflexivity]|]). rewrite Htb. reflexivity.
Qed.

(** X10: in [spendFromP2PKH] the absurd-fee check of [build()] never
    fires: the input has no value, which counts as 0, so the fee is never positive. *)
Theorem spendFromP2PKH_fee_check_never_fails (P : Prims) (txId : string) (out : Z) (address : string)
    (amount : Z) (wif changeAddress : string) (changeAmount : Z) (ni : js_string_arg) (tb : TxBuilder) :
  ripemd160_length_law P ->
  spendFromP2PKH_builder P txId out address amount wif changeAddress changeAmount ni = Ok tb ->
  TB_build tb = build_inputs (tb_inputs tb) 0 (tb_tx tb).
Proof.
  intros Hr H.
  destruct (spendFromP2PKH_builder_ok P _ _ _ _ _ _ _ _ tb Hr H)
    as [kp [ds [cs [_ [_ [_ [Sa [Sc ->]]]]]]]].
  unfold TB_build, throw_unless. cbn [tb_tx tx_ins tx_outs List.length Nat.eqb negb].
  destruct (build_inputs _ _ _) as [tx|e]; [|reflexivity]. cbn [bind].
  pose proof (virtualSize_nonneg tx).
  unfold Satoshi in Sa, Sc. apply andb_true_iff in Sa as [Sa _]. apply andb_true_iff in Sc as [Sc _].
  apply Z.leb_le in Sa. apply Z.leb_le in Sc.
  unfold __overMaximumFees.
  cbn [fold_left tb_inputs tb_tx tx_outs out_value bi_value p2pkh_signed_input tb_maximumFeeRate].
  match goal with |- context [?a <? ?b] => replace (a <? b) with false; [reflexivity|] end.
  symmetry. apply Z.ltb_ge. lia.
Qed.

(** X11: in [spendFromP2WPKH] [build()] refuses the transaction exactly when
    (balance mod 2^32) - (amount + changeAmount) exceeds 2500 satoshi per virtual byte. *)
Theorem spendFromP2WPKH_fee_check (P : Prims) (txId : string) (out : Z) (address : string)
    (amount : Z) (wif changeAddress : string) (changeAmount balance : Z) (ni : js_string_arg)
    (tb : TxBuilder) :
  spendFromP2WPKH_builder P txId out address amount wif changeAddress changeAmount balance ni = Ok tb ->
  TB_build tb
  = (let* tx := build_inputs (tb_inputs tb) 0 (tb_tx tb) in
     throw_unless (negb (2500 * virtualSize tx <? balance mod 2 ^ 32 - (amount + changeAmount)))
       "Transaction has absurd fees" (Ok tx)).
Proof.
  intros H.
  destruct (spendFromP2WPKH_builder_ok P _ _ _ _ _ _ _ _ _ tb H)
    as [kp [ds [cs [_ [_ [_ [_ [_ [_ ->]]]]]]]]].
  unfold TB_build, throw_unless. cbn [tb_tx tx_ins tx_outs List.length Nat.eqb negb].
  destruct (build_inputs _ _ _) as [tx|e]; [|reflexivity]. cbn [bind].
  unfold __overMaximumFees. cbn -[Z.pow Z.modulo virtualSize Z.mul Z.sub Z.add].
  rewrite Z.add_0_l, Z.add_0_l. reflexivity.
Qed.

(** X12: [spendFromP2PKH] returns a version-1 transaction with one input,
    spending the given outpoint with the script [<sig> <pubkey>]. *)
Theorem spendFromP2PKH_signed_tx (P : Prims) (txId : string) (out : Z) (address : string)
    (amount : Z) (wif changeAddress : string) (changeAmount : Z) (ni : js_string_arg) (tx : Transaction) :
  ripemd160_length_law P ->
  spendFromP2PKH_tx P txId out address amount wif changeAddress changeAmount ni = Ok tx ->
  exists kp,
    ECPair_fromWIF P wif (getSelectedNetwork ni) = Ok kp
    /\ let pk := getPublicKeyBuffer P kp in
       let prevOutScript := ([x76; xa9; x14] ++ hash160 P pk ++ [x88; xac])%list in
       let unsignedTx := mkTx 1 0 [mkTxIn (rev (buffer_from_hex txId)) out [] DEFAULT_SEQUENCE []]
                           (tx_outs tx) in
       let sg := (ecdsa_der P (kp_d kp) (hashForSignature P unsignedTx 0 prevOutScript SIGHASH_ALL)
                  ++ [x01])%list in
       tx = mkTx 1 0 [mkTxIn (rev (buffer_from_hex txId)) out (compile [Data sg; Data pk])
                        DEFAULT_SEQUENCE []] (tx_outs tx).
Proof.
  intros Hr H. unfold spendFromP2PKH_tx, bind in H.
  destruct (spendFromP2PKH_builder P _ _ _ _ _ _ _ _) as [tb|] eqn:Eb; try discriminate.
  destruct (spendFromP2PKH_builder_ok P _ _ _ _ _ _ _ _ tb Hr Eb)
    as [kp [ds [cs [Ek [_ [_ [_ [_ Htb]]]]]]]].
  cbv zeta in Htb. subst tb.
  match type of H with
  | TB_build ?tb = _ =>
      destruct (TB_build_single tb _ _ tx eq_refl eq_refl H)
        as [t [script [wit [Ht [Hbi [Hsup ->]]]]]]
  end.
  simpl in Ht. injection Ht as <-.
  destruct (buildInput_signed _ _ _ script wit Hbi Hsup) as [_ [sg [pk [Hs [Hp [[_ [-> ->]]|[Heq _]]]]]]];
    [|discriminate].
  simpl in Hs, Hp. injection Hs as <-. injection Hp as <-.
  exists kp. split; [exact Ek|]. reflexivity.
Qed.

Lemma spendFromP2WPKH_tx_shape (P : Prims) (txId : string) (out : Z) (address : string)
    (amount : Z) (wif changeAddress : string) (changeAmount balance : Z) (ni : js_string_arg)
    (tx : Transaction) :
  spendFromP2WPKH_tx P txId out address amount wif changeAddress changeAmount balance ni = Ok tx ->
  exists txin sg pk, tx = mkTx 1 0 [set_in_witness [sg; pk] (set_in_script [] txin)] (tx_outs tx).
Proof.
  intros H. unfold spendFromP2WPKH_tx, bind in H.
  destruct (spendFromP2WPKH_builder P _ _ _ _ _ _ _ _ _) as [tb|] eqn:Eb; try discriminate.
  destruct (spendFromP2WPKH_builder_ok P _ _ _ _ _ _ _ _ _ tb Eb)
    as [kp [ds [cs [_ [_ [_ [_ [_ [_ Htb]]]]]]]]].
  cbv zeta in Htb. subst tb.
  match type of H with
  | TB_build ?tb = _ =>
      destruct (TB_build_single tb _ _ tx eq_refl eq_refl H)
        as [t [script [wit [Ht [Hbi [Hsup ->]]]]]]
  end.
  simpl in Ht. injection Ht as <-.
  destruct (buildInput_signed _ _ _ script wit Hbi Hsup) as [_ [sg [pk [_ [_ [[Heq _]|[_ [-> ->]]]]]]]];
    [discriminate|].
  do 3 eexists. reflexivity.
Qed.

(** X13: [spendFromP2PKH] returns a legacy serialisation, and
    [spendFromP2WPKH] one with the segwit marker and flag. *)
Theorem spend_hex_segwit_marker (P : Prims) (txId : string) (out : Z) (address : string)
    (amount : Z) (wif changeAddress : string) (changeAmount balance : Z) (ni : js_string_arg)
    (hex : string) :
  ripemd160_length_law P ->
  (spendFromP2PKH P txId out address amount wif changeAddress changeAmount ni = Ok hex ->
   exists tx, hex = hex_of_buffer (tx_toBuffer tx false) /\ tx_toBuffer tx true = tx_toBuffer tx false)
  /\ (spendFromP2WPKH P txId out address amount wif changeAddress changeAmount balance ni = Ok hex ->
   exists rest, hex = hex_of_buffer ([x01; x00; x00; x00; x00; x01] ++ rest)).
Proof.
  intros Hr. split; intros H.
  - unfold spendFromP2PKH, bind in H.
    destruct (spendFromP2PKH_tx P _ _ _ _ _ _ _ _) as [tx|] eqn:Et; try discriminate.
    injection H as <-.
    destruct (spendFromP2PKH_signed_tx P _ _ _ _ _ _ _ _ tx Hr Et) as [kp [_ Htx]].
    cbv zeta in Htx.
    assert (Hw : tx_toBuffer tx true = tx_toBuffer tx false).
    { unfold tx_toBuffer. rewrite Htx. reflexivity. }
    exists tx. unfold toHex. rewrite Hw. split; reflexivity.
  - unfold spendFromP2WPKH, bind in H.
    destruct (spendFromP2WPKH_tx P _ _ _ _ _ _ _ _ _) as [tx|] eqn:Et; try discriminate.
    injection H as <-.
    destruct (spendFromP2WPKH_tx_shape P _ _ _ _ _ _ _ _ _ tx Et) as [txin [sg [pk Htx]]].
    unfold toHex, tx_toBuffer. rewrite Htx. eexists. reflexivity.
Qed.

Lemma two_outputs_not_satoshi (P : Prims) (net : Network) (pos : option buffer) (m : list string)
    (tx : Transaction) (address changeAddress : string) (amount changeAmount : Z) (ni : js_string_arg)
    (ds cs : buffer) (A : Type) (k : TxBuilder -> result A) :
  toOutputScript P address net = Ok ds -> toOutputScript P changeAddress net = Ok cs ->
  Satoshi amount && Satoshi changeAmount = false ->
  (let* tb2 := checked_addOutput P (mkTB net 2500 [addInput_input P pos] m tx) address amount ni
                 "invalid address" in
   let* tb3 := checked_addOutput P tb2 changeAddress changeAmount ni "invalid change address" in
   k tb3) = Err "Expected property 1 of type Satoshi".
Proof.
  intros Hds Hcs Hs. rewrite !checked_addOutput_eq.
  unfold TB_addOutput at 1. unfold throw_unless. rewrite canModifyOutputs_addInput_input.
  cbn [tb_network bind]. rewrite Hds. unfold tx_addOutput. unfold throw_unless.
  destruct (Satoshi amount); [|reflexivity]. cbn [andb] in Hs. cbn [bind fst].
  rewrite checked_addOutput_eq.
  cbn [tb_network tb_maximumFeeRate tb_inputs tb_prevTxMap tb_tx tx_version tx_locktime tx_ins tx_outs].
  unfold TB_addOutput. unfold throw_unless. rewrite canModifyOutputs_addInput_input.
  cbn [tb_network bind]. rewrite Hcs. cbn [bind]. unfold tx_addOutput, throw_unless. rewrite Hs. reflexivity.
Qed.

(** X9: an amount or change amount outside [0, 2.1e15] makes both
    spend functions fail in [addOutput] with the Satoshi type error. *)
Theorem spend_amount_not_satoshi (P : Prims) (txId : string) (out : Z) (address : string) (amount : Z)
    (wif changeAddress : string) (changeAmount balance : Z) (ni : js_string_arg) (ds cs : buffer) :
  let network := getSelectedNetwork ni in
  toOutputScript P address network = Ok ds -> toOutputScript P changeAddress network = Ok cs ->
  Satoshi amount && Satoshi changeAmount = false ->
  spendFromP2PKH P txId out address amount wif changeAddress changeAmount ni
  = bind (TB_addInput P (TB_new network) txId out None None)
      (fun _ => Err "Expected property 1 of type Satoshi")
  /\ spendFromP2WPKH P txId out address amount wif changeAddress changeAmount balance ni
  = bind (ECPair_fromWIF P wif network) (fun keyPair =>
      bind (witness_program_of P keyPair) (fun witnessPubKeyHash =>
        bind (TB_addInput P (TB_new network) txId out None (Some witnessPubKeyHash))
          (fun _ => Err "Expected property 1 of type Satoshi"))).
Proof.
  intros network Hds Hcs Hs. split.
  - unfold spendFromP2PKH, spendFromP2PKH_tx, spendFromP2PKH_builder. fold network.
    destruct (TB_addInput P (TB_new network) txId out None None) as [r|e] eqn:E1; [|reflexivity].
    destruct r as [tb1 vin]. pose proof (TB_addInput_new _ _ _ _ _ _ _ E1) as ->.
    cbn [bind fst]. rewrite (two_outputs_not_satoshi P network None _ _ address changeAddress amount
      changeAmount ni ds cs _ _ Hds Hcs Hs). reflexivity.
  - unfold spendFromP2WPKH, spendFromP2WPKH_tx, spendFromP2WPKH_builder, spendFromP2WPKH_unsigned,
      witness_program_of. fold network.
    destruct (ECPair_fromWIF P wif network) as [kp|e]; [|reflexivity]. cbn [bind].
    destruct (witnessPubKeyHash_output_encode _) as [wp|e]; [|reflexivity]. cbn [bind].
    destruct (TB_addInput P (TB_new network) txId out None (Some wp)) as [r|e] eqn:E1; [|reflexivity].
    destruct r as [tb1 vin]. pose proof (TB_addInput_new _ _ _ _ _ _ _ E1) as ->.
    cbn [bind fst]. rewrite (two_outputs_not_satoshi P network (Some wp) _ _ address changeAddress amount
      changeAmount ni ds cs _ _ Hds Hcs Hs). reflexivity.
Qed.

Lemma retry_loop_stop {A} (p : positive) (step : Z -> step_outcome A) (i : Z) (r : result A) :
  step i = @Stop A r -> retry_loop p step i = @Stop A r.
Proof.
  revert i. induction p as [q IH|q IH|]; intros i Hs; cbn [retry_loop].
  - rewrite Hs. reflexivity.
  - rewrite (IH i Hs). reflexivity.
  - exact Hs.
Qed.

Lemma derive_not_uint32 (P : Prims) (n : HDNode) (index : Z) :
  UInt32 index = false -> derive P n index = Err "Expected UInt32".
Proof.
  intros Hu. unfold derive. rewrite (retry_loop_stop _ _ _ (Err "Expected UInt32")); [reflexivity|].
  unfold derive_step. rewrite Hu. reflexivity.
Qed.

Lemma fold_steps_err (P : Prims) (steps : list PathStep) (e : string) :
  fold_left (fun acc st => let* m := acc in apply_step P m st) steps (Err e) = Err e.
Proof. induction steps as [|st steps IH]; [reflexivity|]. exact IH. Qed.

Lemma fold_steps_fail (P : Prims) (steps : list PathStep) (st : PathStep) (acc : result HDNode) :
  In st steps -> (forall m, exists e, apply_step P m st = Err e) ->
  exists e, fold_left (fun acc st => let* m := acc in apply_step P m st) steps acc = Err e.
Proof.
  revert acc. induction steps as [|st' steps IH]; intros acc Hin Hf; [destruct Hin|].
  cbn [fold_left]. destruct Hin as [<-|Hin].
  - destruct acc as [m|e]; cbn [bind].
    + destruct (Hf m) as [e He]. rewrite He. exists e. apply fold_steps_err.
    + exists e. apply fold_steps_err.
  - apply IH; assumption.
Qed.

Lemma HDNode_fromSeedHex_master (P : Prims) (seed : string) (network : Network) (node : HDNode) :
  HDNode_fromSeedHex P seed network = Ok node -> hd_parentFingerprint node = 0.
Proof.
  unfold HDNode_fromSeedHex, HDNode_fromSeedBuffer, throw_unless, bind. intros H.
  repeat (break_match_hyp; try discriminate). inv_ok. reflexivity.
Qed.



(** X15: for safe-integer arguments (below 2^53), a purpose or account of
    2^31 or more, or a receivingOrChange or index of 2^32 or more, makes
    [createHierarchicalDeterministic] fail. *)
Theorem createHierarchicalDeterministic_index_bounds (P : Prims) (seed : string)
    (purpose account receivingOrChange index : Z) (networkInput : js_string_arg) (rng : RngState) :
  0 <= purpose < 2 ^ 53 -> 0 <= account < 2 ^ 53 ->
  0 <= receivingOrChange < 2 ^ 53 -> 0 <= index < 2 ^ 53 ->
  (2 ^ 31 <= purpose \/ 2 ^ 31 <= account \/ 2 ^ 32 <= receivingOrChange \/ 2 ^ 32 <= index) ->
  (exists e, createHierarchicalDeterministic P seed purpose account receivingOrChange index networkInput rng
             = (Err e, rng))
  /\ (2 ^ 31 <= purpose -> forall node,
        HDNode_fromSeedHex P seed (getSelectedNetwork networkInput) = Ok node ->
        createHierarchicalDeterministic P seed purpose account receivingOrChange index networkInput rng
        = (Err "Expected UInt31", rng)).
Proof.
  intros H1 H3 H4 H5 Hb.
  pose proof (netPath_of_range networkInput) as H2.
  unfold createHierarchicalDeterministic, hd_keyPair_at, derivePath, st_bind, st_lift, bind.
  rewrite (hd_path_parse purpose (netPath_of networkInput) account receivingOrChange index H1 ltac:(lia) H3 H4 H5).
  split.
  - destruct (HDNode_fromSeedHex P seed _) as [node|e] eqn:Es; [|exists e; reflexivity].
    unfold throw_unless. cbn [negb orb].
    rewrite (HDNode_fromSeedHex_master _ _ _ _ Es). cbn [Z.eqb].
    set (steps := [Hard (Some purpose); Hard (Some (netPath_of networkInput)); Hard (Some account);
                   Plain (Some receivingOrChange); Plain (Some index)]).
    assert (Hf : exists st, In st steps /\ forall m, exists e, apply_step P m st = Err e).
    { destruct Hb as [Hb|[Hb|[Hb|Hb]]].
      - exists (Hard (Some purpose)). split; [left; reflexivity|]. intros m. eexists.
        cbn [apply_step]. unfold deriveHardened, throw_unless, UInt31.
        replace (purpose <? 2 ^ 31) with false by (symmetry; apply Z.ltb_ge; lia).
        rewrite andb_false_r. reflexivity.
      - exists (Hard (Some account)). split; [right; right; left; reflexivity|]. intros m. eexists.
        cbn [apply_step]. unfold deriveHardened, throw_unless, UInt31.
        replace (account <? 2 ^ 31) with false by (symmetry; apply Z.ltb_ge; lia).
        rewrite andb_false_r. reflexivity.
      - exists (Plain (Some receivingOrChange)). split; [right; right; right; left; reflexivity|].
        intros m. eexists. cbn [apply_step]. apply derive_not_uint32. unfold UInt32.
        replace (receivingOrChange <? 2 ^ 32) with false by (symmetry; apply Z.ltb_ge; lia).
        apply andb_false_r.
      - exists (Plain (Some index)). split; [right; right; right; right; left; reflexivity|].
        intros m. eexists. cbn [apply_step]. apply derive_not_uint32. unfold UInt32.
        replace (index <? 2 ^ 32) with false by (symmetry; apply Z.ltb_ge; lia).
        apply andb_false_r. }
    destruct Hf as [st [Hin Hst]].
    destruct (fold_steps_fail P steps st (Ok node) Hin Hst) as [e He].
    unfold bind in He. rewrite He. exists e. reflexivity.
  - intros Hp node Es. rewrite Es.
    unfold throw_unless. cbn [negb orb].
    rewrite (HDNode_fromSeedHex_master _ _ _ _ Es). cbn [Z.eqb fold_left bind apply_step].
    unfold deriveHardened at 1, throw_unless at 1, UInt31.
    replace (purpose <? 2 ^ 31) with false by (symmetry; apply Z.ltb_ge; lia).
    rewrite andb_false_r. reflexivity.
Qed.

Lemma BIP32Path_exponent_purpose (netPath account receivingOrChange index : Z) :
  BIP32Path (hd_path (10 ^ 21) netPath account receivingOrChange index) = false.
Proof.
  unfold hd_path.
  replace (js_number_to_string (10 ^ 21)) with "1e+21" by (vm_compute; reflexivity).
  reflexivity.
Qed.

(** X16: a purpose of 10^21, which the path template prints as "1e+21",
    makes [createHierarchicalDeterministic] fail the path check with
    "Expected BIP32Path" once the seed is valid, whatever the other
    arguments; no entropy is read. *)
Theorem createHierarchicalDeterministic_exponent_purpose (P : Prims) (seed : string)
    (account receivingOrChange index : Z) (networkInput : js_string_arg) (rng : RngState)
    (node : HDNode) :
  HDNode_fromSeedHex P seed (getSelectedNetwork networkInput) = Ok node ->
  createHierarchicalDeterministic P seed (10 ^ 21) account receivingOrChange index networkInput rng
  = (Err "Expected BIP32Path", rng).
Proof.
  intros Es.
  unfold createHierarchicalDeterministic, hd_keyPair_at, st_bind, st_lift, bind.
  rewrite Es. unfold derivePath, parse_path, bind, throw_unless at 1.
  rewrite BIP32Path_exponent_purpose. reflexivity.
Qed.

Lemma p2shp2wpkh_of_witness_program_snd (P : Prims) (wp : buffer) (network : Network)
    (r : string * string) :
  p2shp2wpkh_of_witness_program P wp network = Ok r -> snd r = hex_of_buffer wp.
Proof.
  unfold p2shp2wpkh_of_witness_program, bind. intros H.
  repeat (break_match_hyp; try discriminate). inv_ok. reflexivity.
Qed.

(** X7: the [witnessPubKeyHashHex] of [createWalletsFromWIF] is the
    44-digit hex text of the 22-byte witness program of the key. *)
Theorem createWalletsFromWIF_witnessPubKeyHashHex (P : Prims) (wif : string)
    (networkInput : js_string_arg) (w : Wallets) :
  ripemd160_length_law P ->
  createWalletsFromWIF P wif networkInput = Ok w ->
  exists keyPair,
    ECPair_fromWIF P wif (getSelectedNetwork networkInput) = Ok keyPair
    /\ witness_program_of P keyPair = Ok (buffer_from_hex (w_witnessPubKeyHashHex w))
    /\ String.length (w_witnessPubKeyHashHex w) = 44%nat.
Proof.
  intros Hr H. unfold createWalletsFromWIF, bind in H.
  destruct (ECPair_fromWIF P wif _) as [kp|] eqn:Hkp; [|discriminate].
  exists kp. split; [reflexivity|].
  unfold wallets_of_keyPair, bind in H.
  destruct (witness_program_of P kp) as [wp|] eqn:Hwp; [|discriminate].
  destruct (fromOutputScript P wp _); [|discriminate].
  destruct (p2shp2wpkh_of_witness_program P wp _) as [r|] eqn:Hp; [|discriminate].
  inv_ok. cbn [w_witnessPubKeyHashHex].
  rewrite (p2shp2wpkh_of_witness_program_snd _ _ _ _ Hp).
  destruct (hex_of_buffer_roundtrip wp) as [H1 H2]. rewrite H1, H2.
  split; [reflexivity|].
  rewrite (witness_program_ok P kp Hr) in Hwp. inv_ok.
  cbn [List.length]. rewrite (hash160_length P _ Hr). reflexivity.
Qed.

(** [createWalletsFromWIF_witnessPubKeyHashHex] on the toy primitives. *)
Lemma createWalletsFromWIF_witnessPubKeyHashHex_witness :
  createWalletsFromWIF Toy.prims Toy.testnet_wif (Some "testnet") = Ok Toy.testnet_wallets
  /\ exists keyPair,
    ECPair_fromWIF Toy.prims Toy.testnet_wif (getSelectedNetwork (Some "testnet")) = Ok keyPair
    /\ witness_program_of Toy.prims keyPair
       = Ok (buffer_from_hex (w_witnessPubKeyHashHex Toy.testnet_wallets))
    /\ String.length (w_witnessPubKeyHashHex Toy.testnet_wallets) = 44%nat.
Proof.
  assert (H : createWalletsFromWIF Toy.prims Toy.testnet_wif (Some "testnet") = Ok Toy.testnet_wallets)
    by (vm_compute; reflexivity).
  split; [exact H|].
  exact (createWalletsFromWIF_witnessPubKeyHashHex Toy.prims Toy.testnet_wif (Some "testnet")
           Toy.testnet_wallets toy_ripemd160_length H).
Defined.

(** [createWallets_wif_reimport] on the toy primitives. *)
Lemma createWallets_wif_reimport_witness :
  createWallets Toy.prims (Some "testnet") Toy.rng = (Ok Toy.testnet_wallets, [])
  /\ createWalletsFromWIF Toy.prims (w_wif Toy.testnet_wallets) (Some "testnet") = Ok Toy.testnet_wallets.
Proof.
  assert (H : createWallets Toy.prims (Some "testnet") Toy.rng = (Ok Toy.testnet_wallets, []))
    by (vm_compute; reflexivity).
  split; [exact H|].
  exact (createWallets_wif_reimport Toy.prims (Some "testnet") Toy.rng [] Toy.testnet_wallets H).
Defined.

(** [createWallets_wif_other_network] on the toy primitives. *)
Lemma createWallets_wif_other_network_witness :
  createWallets Toy.prims (Some "testnet") Toy.rng = (Ok Toy.testnet_wallets, [])
  /\ getSelectedNetwork None <> getSelectedNetwork (Some "testnet")
  /\ createWalletsFromWIF Toy.prims (w_wif Toy.testnet_wallets) None = Err "Invalid network version".
Proof.
  assert (H : createWallets Toy.prims (Some "testnet") Toy.rng = (Ok Toy.testnet_wallets, []))
    by (vm_compute; reflexivity).
  assert (Hn : getSelectedNetwork None <> getSelectedNetwork (Some "testnet"))
    by (intro E; vm_compute in E; discriminate).
  split; [exact H|]. split; [exact Hn|].
  exact (createWallets_wif_other_network Toy.prims (Some "testnet") None Toy.rng [] Toy.testnet_wallets
           toy_wif_roundtrip H Hn).
Defined.

(** [single_address_wallets_match_createWallets] on the toy primitives. *)
Lemma single_address_wallets_match_createWallets_witness :
  createLegacyWallet Toy.prims (Some "testnet") Toy.rng
    = (Ok (mkLegacyWallet (w_p2pkh Toy.testnet_wallets) (w_wif Toy.testnet_wallets)), [])
  /\ createBech32Wallet Toy.prims (Some "testnet") Toy.rng
    = (Ok (mkBech32Wallet (w_p2wpkh Toy.testnet_wallets) (w_wif Toy.testnet_wallets)), [])
  /\ createSegwitWallet Toy.prims (Some "testnet") Toy.rng
    = (Ok (mkSegwitWallet (w_p2shp2wpkh Toy.testnet_wallets) (w_witnessPubKeyHashHex Toy.testnet_wallets)
             (w_wif Toy.testnet_wallets)), [])
  /\ (exists w, createWallets Toy.prims (Some "testnet") Toy.rng = (Ok w, [])
      /\ w_p2pkh w = w_p2pkh Toy.testnet_wallets /\ w_wif w = w_wif Toy.testnet_wallets)
  /\ (exists w, createWallets Toy.prims (Some "testnet") Toy.rng = (Ok w, [])
      /\ w_p2wpkh w = w_p2wpkh Toy.testnet_wallets /\ w_wif w = w_wif Toy.testnet_wallets)
  /\ (exists w, createWallets Toy.prims (Some "testnet") Toy.rng = (Ok w, [])
      /\ w_p2shp2wpkh w = w_p2shp2wpkh Toy.testnet_wallets
      /\ w_witnessPubKeyHashHex w = w_witnessPubKeyHashHex Toy.testnet_wallets
      /\ w_wif w = w_wif Toy.testnet_wallets).
Proof.
  assert (H1 : createLegacyWallet Toy.prims (Some "testnet") Toy.rng
    = (Ok (mkLegacyWallet (w_p2pkh Toy.testnet_wallets) (w_wif Toy.testnet_wallets)), []))
    by (vm_compute; reflexivity).
  assert (H2 : createBech32Wallet Toy.prims (Some "testnet") Toy.rng
    = (Ok (mkBech32Wallet (w_p2wpkh Toy.testnet_wallets) (w_wif Toy.testnet_wallets)), []))
    by (vm_compute; reflexivity).
  assert (H3 : createSegwitWallet Toy.prims (Some "testnet") Toy.rng
    = (Ok (mkSegwitWallet (w_p2shp2wpkh Toy.testnet_wallets) (w_witnessPubKeyHashHex Toy.testnet_wallets)
             (w_wif Toy.testnet_wallets)), []))
    by (vm_compute; reflexivity).
  destruct (single_address_wallets_match_createWallets Toy.prims (Some "testnet") Toy.rng
              toy_ripemd160_length) as [A [B C]].
  split; [exact H1|]. split; [exact H2|]. split; [exact H3|].
  split; [exact (A _ _ H1)|]. split; [exact (B _ _ H2) | exact (C _ _ H3)].
Defined.



(** [spend_txId_errors] on the toy primitives. *)
Lemma spend_txId_errors_witness :
  (List.length (buffer_from_hex "aa") <> 32%nat
   /\ spendFromP2PKH Toy.prims "aa" 0 Toy.dest_testnet 90000 Toy.testnet_wif Toy.change_testnet 9000
        (Some "testnet") = Err "Expected Buffer(Length: 32)")
  /\ (buffer_from_hex (hex_of_buffer (repeat x00 32)) = repeat x00 32
   /\ spendFromP2PKH Toy.prims (hex_of_buffer (repeat x00 32)) 0 Toy.dest_testnet 90000 Toy.testnet_wif
        Toy.change_testnet 9000 (Some "testnet") = Err "coinbase inputs not supported").
Proof.
  assert (H1 : List.length (buffer_from_hex "aa") <> 32%nat) by (vm_compute; discriminate).
  assert (H2 : buffer_from_hex (hex_of_buffer (repeat x00 32)) = repeat x00 32)
    by (vm_compute; reflexivity).
  destruct (spend_txId_errors Toy.prims "aa" 0 Toy.dest_testnet 90000 Toy.testnet_wif
              Toy.change_testnet 9000 100000 (Some "testnet")) as [A _].
  destruct (spend_txId_errors Toy.prims (hex_of_buffer (repeat x00 32)) 0 Toy.dest_testnet 90000
              Toy.testnet_wif Toy.change_testnet 9000 100000 (Some "testnet")) as [_ B].
  split; (split; [assumption|]).
  - exact (proj1 (A H1)).
  - exact (proj1 (B H2)).
Defined.

(** [spend_amount_not_satoshi] on the toy primitives. *)
Lemma spend_amount_not_satoshi_witness :
  toOutputScript Toy.prims Toy.dest_testnet (getSelectedNetwork (Some "testnet"))
    = Ok (x00 :: x14 :: repeat x11 20)
  /\ toOutputScript Toy.prims Toy.change_testnet (getSelectedNetwork (Some "testnet"))
    = Ok (x00 :: x14 :: repeat x22 20)
  /\ Satoshi (-1) && Satoshi 9000 = false
  /\ spendFromP2PKH Toy.prims Toy.txid 0 Toy.dest_testnet (-1) Toy.testnet_wif Toy.change_testnet 9000
       (Some "testnet")
     = bind (TB_addInput Toy.prims (TB_new (getSelectedNetwork (Some "testnet"))) Toy.txid 0 None None)
         (fun _ => Err "Expected property 1 of type Satoshi").
Proof.
  assert (H1 : toOutputScript Toy.prims Toy.dest_testnet (getSelectedNetwork (Some "testnet"))
    = Ok (x00 :: x14 :: repeat x11 20)) by (vm_compute; reflexivity).
  assert (H2 : toOutputScript Toy.prims Toy.change_testnet (getSelectedNetwork (Some "testnet"))
    = Ok (x00 :: x14 :: repeat x22 20)) by (vm_compute; reflexivity).
  assert (H3 : Satoshi (-1) && Satoshi 9000 = false) by (vm_compute; reflexivity).
  split; [exact H1|]. split; [exact H2|]. split; [exact H3|].
  exact (proj1 (spend_amount_not_satoshi Toy.prims Toy.txid 0 Toy.dest_testnet (-1) Toy.testnet_wif
                  Toy.change_testnet 9000 100000 (Some "testnet") _ _ H1 H2 H3)).
Defined.

(** [spendFromP2PKH_fee_check_never_fails] on the toy primitives. *)
Lemma spendFromP2PKH_fee_check_never_fails_witness :
  spendFromP2PKH_builder Toy.prims Toy.txid 0 Toy.dest_testnet 90000 Toy.testnet_wif Toy.change_testnet
    9000 (Some "testnet") = Ok Toy.p2pkh_builder
  /\ TB_build Toy.p2pkh_builder = build_inputs (tb_inputs Toy.p2pkh_builder) 0 (tb_tx Toy.p2pkh_builder).
Proof.
  assert (H : spendFromP2PKH_builder Toy.prims Toy.txid 0 Toy.dest_testnet 90000 Toy.testnet_wif
    Toy.change_testnet 9000 (Some "testnet") = Ok Toy.p2pkh_builder) by (vm_compute; reflexivity).
  split; [exact H|].
  exact (spendFromP2PKH_fee_check_never_fails Toy.prims _ _ _ _ _ _ _ _ _ toy_ripemd160_length H).
Defined.

(** [spendFromP2WPKH_fee_check] on the toy primitives. *)
Lemma spendFromP2WPKH_fee_check_witness :
  spendFromP2WPKH_builder Toy.prims Toy.txid 0 Toy.dest_testnet 90000 Toy.testnet_wif Toy.change_testnet
    9000 100000 (Some "testnet") = Ok Toy.p2wpkh_builder
  /\ TB_build Toy.p2wpkh_builder
     = (let* tx := build_inputs (tb_inputs Toy.p2wpkh_builder) 0 (tb_tx Toy.p2wpkh_builder) in
        throw_unless (negb (2500 * virtualSize tx <? 100000 mod 2 ^ 32 - (90000 + 9000)))
          "Transaction has absurd fees" (Ok tx)).
Proof.
  assert (H : spendFromP2WPKH_builder Toy.prims Toy.txid 0 Toy.dest_testnet 90000 Toy.testnet_wif
    Toy.change_testnet 9000 100000 (Some "testnet") = Ok Toy.p2wpkh_builder) by (vm_compute; reflexivity).
  split; [exact H|].
  exact (spendFromP2WPKH_fee_check Toy.prims _ _ _ _ _ _ _ _ _ _ H).
Defined.

(** [spendFromP2PKH_signed_tx] on the toy primitives. *)
Lemma spendFromP2PKH_signed_tx_witness :
  spendFromP2PKH_tx Toy.prims Toy.txid 0 Toy.dest_testnet 90000 Toy.testnet_wif Toy.change_testnet 9000
    (Some "testnet") = Ok Toy.p2pkh_tx
  /\ exists kp,
    ECPair_fromWIF Toy.prims Toy.testnet_wif (getSelectedNetwork (Some "testnet")) = Ok kp
    /\ let pk := getPublicKeyBuffer Toy.prims kp in
       let prevOutScript := ([x76; xa9; x14] ++ hash160 Toy.prims pk ++ [x88; xac])%list in
       let unsignedTx := mkTx 1 0 [mkTxIn (rev (buffer_from_hex Toy.txid)) 0 [] DEFAULT_SEQUENCE []]
                           (tx_outs Toy.p2pkh_tx) in
       let sg := (ecdsa_der Toy.prims (kp_d kp)
                    (hashForSignature Toy.prims unsignedTx 0 prevOutScript SIGHASH_ALL) ++ [x01])%list in
       Toy.p2pkh_tx = mkTx 1 0 [mkTxIn (rev (buffer_from_hex Toy.txid)) 0 (compile [Data sg; Data pk])
                        DEFAULT_SEQUENCE []] (tx_outs Toy.p2pkh_tx).
Proof.
  assert (H : spendFromP2PKH_tx Toy.prims Toy.txid 0 Toy.dest_testnet 90000 Toy.testnet_wif
    Toy.change_testnet 9000 (Some "testnet") = Ok Toy.p2pkh_tx) by (vm_compute; reflexivity).
  split; [exact H|].
  exact (spendFromP2PKH_signed_tx Toy.prims _ _ _ _ _ _ _ _ _ toy_ripemd160_length H).
Defined.

(** [spend_hex_segwit_marker] on the toy primitives. *)
Lemma spend_hex_segwit_marker_witness :
  (spendFromP2PKH Toy.prims Toy.txid 0 Toy.dest_testnet 90000 Toy.testnet_wif Toy.change_testnet 9000
     (Some "testnet") = Ok (toHex Toy.p2pkh_tx)
   /\ exists tx, toHex Toy.p2pkh_tx = hex_of_buffer (tx_toBuffer tx false)
       /\ tx_toBuffer tx true = tx_toBuffer tx false)
  /\ (spendFromP2WPKH Toy.prims Toy.txid 0 Toy.dest_testnet 90000 Toy.testnet_wif Toy.change_testnet
        9000 100000 (Some "testnet") = Ok (toHex Toy.p2wpkh_tx)
   /\ exists rest, toHex Toy.p2wpkh_tx = hex_of_buffer ([x01; x00; x00; x00; x00; x01] ++ rest)).
Proof.
  assert (H1 : spendFromP2PKH Toy.prims Toy.txid 0 Toy.dest_testnet 90000 Toy.testnet_wif
    Toy.change_testnet 9000 (Some "testnet") = Ok (toHex Toy.p2pkh_tx)) by (vm_compute; reflexivity).
  assert (H2 : spendFromP2WPKH Toy.prims Toy.txid 0 Toy.dest_testnet 90000 Toy.testnet_wif
    Toy.change_testnet 9000 100000 (Some "testnet") = Ok (toHex Toy.p2wpkh_tx))
    by (vm_compute; reflexivity).
  split; (split; [assumption|]).
  - exact (proj1 (spend_hex_segwit_marker Toy.prims _ _ _ _ _ _ _ 100000 _ _ toy_ripemd160_length) H1).
  - exact (proj2 (spend_hex_segwit_marker Toy.prims _ _ _ _ _ _ _ _ _ _ toy_ripemd160_length) H2).
Defined.

(** [createHierarchicalDeterministic_seed_length] on the toy primitives. *)
Lemma createHierarchicalDeterministic_seed_length_witness :
  (List.length (buffer_from_hex "00") < 16)%nat
  /\ createHierarchicalDeterministic Toy.prims "00" 44 0 0 0 (Some "testnet") []
     = (Err "Seed should be at least 128 bits", [])
  /\ (64 < List.length (buffer_from_hex (hex_of_buffer (repeat x01 65))))%nat
  /\ createHierarchicalDeterministic Toy.prims (hex_of_buffer (repeat x01 65)) 44 0 0 0 (Some "testnet") []
     = (Err "Seed should be at most 512 bits", []).
Proof.
  assert (H1 : (List.length (buffer_from_hex "00") < 16)%nat) by (vm_compute; lia).
  assert (H2 : (64 < List.length (buffer_from_hex (hex_of_buffer (repeat x01 65))))%nat)
    by (vm_compute; lia).
  split; [exact H1|]. split.
  - exact (proj1 (createHierarchicalDeterministic_seed_length Toy.prims "00" 44 0 0 0 (Some "testnet") []) H1).
  - split; [exact H2|].
    exact (proj2 (createHierarchicalDeterministic_seed_length Toy.prims (hex_of_buffer (repeat x01 65))
                    44 0 0 0 (Some "testnet") []) H2).
Defined.

(** [createHierarchicalDeterministic_index_bounds] on the toy primitives. *)
Lemma createHierarchicalDeterministic_index_bounds_witness :
  HDNode_fromSeedHex Toy.prims Toy.seed_hex (getSelectedNetwork None) = Ok Toy.master
  /\ createHierarchicalDeterministic Toy.prims Toy.seed_hex (2 ^ 31) 0 0 0 None []
     = (Err "Expected UInt31", []).
Proof.
  assert (H : HDNode_fromSeedHex Toy.prims Toy.seed_hex (getSelectedNetwork None) = Ok Toy.master)
    by (vm_compute; reflexivity).
  split; [exact H|].
  refine (proj2 (createHierarchicalDeterministic_index_bounds Toy.prims Toy.seed_hex (2 ^ 31) 0 0 0 None []
                   _ _ _ _ _) _ Toy.master H); lia.
Defined.

(** [createHierarchicalDeterministic_exponent_purpose] on the toy primitives. *)
Lemma createHierarchicalDeterministic_exponent_purpose_witness :
  HDNode_fromSeedHex Toy.prims Toy.seed_hex (getSelectedNetwork None) = Ok Toy.master
  /\ createHierarchicalDeterministic Toy.prims Toy.seed_hex (10 ^ 21) 0 0 0 None []
     = (Err "Expected BIP32Path", []).
Proof.
  assert (H : HDNode_fromSeedHex Toy.prims Toy.seed_hex (getSelectedNetwork None) = Ok Toy.master)
    by (vm_compute; reflexivity).
  split; [exact H|].
  exact (createHierarchicalDeterministic_exponent_purpose Toy.prims Toy.seed_hex 0 0 0 None [] Toy.master H).
Defined.
